(** * A shallow embedding of the gbae ARM7TDMI core: bit primitives,
    memory bus, register file, the fetch/execute cycle, conditions,
    MSR and single load/store. *)

From Stdlib Require Import ZArith Bool List Lia.
Import ListNotations.
Open Scope Z_scope.

(** ** Rust runtime: panics and checked u32 arithmetic *)

(** The ways a call into the core can panic (debug build: arithmetic
    overflow checks are on). *)
Inductive Panic :=
| ShiftOverflow
| AddOverflow
| SubOverflow
| IndexOutOfBounds
| UnmappedRead (address : Z)
| UnmappedWrite (address : Z)
| ReadOnlyWrite (address : Z)
| VideoByteWrite
| InvalidMode
| InvalidCondition
| ReservedBits
| NonArmState
| SpsrInUserOrSystem
| Todo.

Inductive result (A : Type) :=
| Ok (a : A)
| Err (p : Panic).
Arguments Ok {A} a.
Arguments Err {A} p.

Definition bind {A B} (r : result A) (f : A -> result B) : result B :=
  match r with Ok a => f a | Err p => Err p end.

Notation "x <- r ;; k" := (bind r (fun x => k))
  (at level 61, r at next level, right associativity).

Definition U32_MAX : Z := 2 ^ 32 - 1.

(** [a << n] on u32: panics when [n >= 32]. *)
Definition shl32 (a n : Z) : result Z :=
  if n <? 32 then Ok (Z.land (Z.shiftl a n) U32_MAX) else Err ShiftOverflow.

(** [a >> n] on u32: panics when [n >= 32]. *)
Definition shr32 (a n : Z) : result Z :=
  if n <? 32 then Ok (Z.shiftr a n) else Err ShiftOverflow.

(** [a + b] and [a - b] on u32. *)
Definition add32 (a b : Z) : result Z :=
  if a + b <=? U32_MAX then Ok (a + b) else Err AddOverflow.

Definition sub32 (a b : Z) : result Z :=
  if b <=? a then Ok (a - b) else Err SubOverflow.

(** [!a] on u32. *)
Definition not32 (a : Z) : Z := Z.lxor a U32_MAX.

(** [a.rotate_right(n)] on u32. *)
Definition rotate_right32 (a n : Z) : Z :=
  let n := n mod 32 in
  Z.land (Z.lor (Z.shiftr a n) (Z.shiftl a (32 - n))) U32_MAX.

Definition is_u32 (a : Z) : Prop := 0 <= a <= U32_MAX.

(** ** bitutil.rs *)

Definition get_bits32 (data i len : Z) : result Z :=
  one <- shl32 1 len ;;
  mask <- sub32 one 1 ;;
  shifted_mask <- shl32 mask i ;;
  shr32 (Z.land data shifted_mask) i.

Definition set_bits32 (data i len value : Z) : result Z :=
  one <- shl32 1 len ;;
  m <- sub32 one 1 ;;
  mask <- shl32 m i ;;
  v <- shl32 value i ;;
  Ok (Z.lor (Z.land data (not32 mask)) (Z.land v mask)).

(** [get_bit] and [set_bit32]; every call site passes a constant index
    below 32, so the shift [1 << i] never overflows there. *)
Definition get_bit (data i : Z) : bool :=
  negb (Z.land data (Z.shiftl 1 i) =? 0).

Definition set_bit32 (data i : Z) (v : bool) : Z :=
  let mask := Z.shiftl 1 i in
  if v then Z.lor data mask else Z.land data (not32 mask).

(** [x as i32] for a u32 [x]. *)
Definition as_i32 (x : Z) : Z := if x <? 2 ^ 31 then x else x - 2 ^ 32.

(** [wrapping_add]/[wrapping_sub] on u64 and i64. *)
Definition wrap_u64 (x : Z) : Z := x mod 2 ^ 64.
Definition wrap_i64 (x : Z) : Z := (x + 2 ^ 63) mod 2 ^ 64 - 2 ^ 63.

Definition I32_MAX : Z := 2 ^ 31 - 1.
Definition I32_MIN : Z := - 2 ^ 31.

Definition add_with_flags (a b : Z) : Z * bool * bool :=
  let unsigned_result_64 := wrap_u64 (a + b) in
  let signed_result_64 := wrap_i64 (as_i32 a + as_i32 b) in
  let unsigned_overflow := U32_MAX <? unsigned_result_64 in
  let signed_overflow := (I32_MAX <? signed_result_64) || (signed_result_64 <? I32_MIN) in
  (unsigned_result_64 mod 2 ^ 32, unsigned_overflow, signed_overflow).

Definition sub_with_flags (a b : Z) : Z * bool * bool :=
  let unsigned_result_64 := wrap_u64 (a - b) in
  let signed_result_64 := wrap_i64 (as_i32 a - as_i32 b) in
  let unsigned_underflow := U32_MAX <? unsigned_result_64 in
  let signed_overflow := (I32_MAX <? signed_result_64) || (signed_result_64 <? I32_MIN) in
  (unsigned_result_64 mod 2 ^ 32, unsigned_underflow, signed_overflow).

(** ** State-and-panic monad: a panic leaves the mutations already made
    through [&mut self] in place. *)

Definition St (S A : Type) := S -> S * result A.

Definition bindS {S A B} (m : St S A) (k : A -> St S B) : St S B :=
  fun s => let (s1, r) := m s in
           match r with Ok a => k a s1 | Err p => (s1, Err p) end.

Definition retS {S A} (a : A) : St S A := fun s => (s, Ok a).
Definition liftS {S A} (r : result A) : St S A := fun s => (s, r).

Notation "x <-- m ;; k" := (bindS m (fun x => k))
  (at level 61, m at next level, right associativity).

(** ** memory.rs *)

(** A [Vec<u8>]: its length and its contents; indexing out of range
    panics. *)
Record Vec := mkVec { vlen : Z; vat : Z -> Z }.

Definition vec_get (v : Vec) (i : Z) : result Z :=
  if (0 <=? i) && (i <? vlen v) then Ok (vat v i) else Err IndexOutOfBounds.

Definition vec_set (v : Vec) (i x : Z) : result Vec :=
  if (0 <=? i) && (i <? vlen v)
  then Ok (mkVec (vlen v) (fun j => if j =? i then x else vat v j))
  else Err IndexOutOfBounds.

(** [vec![0; n]] *)
Definition vec_zeros (n : Z) : Vec := mkVec n (fun _ => 0).

Definition WRAM1_LEN : Z := 262144.      (* 0x40_000 *)
Definition WRAM2_LEN : Z := 2048.        (* 0x800 *)
Definition IO_REGISTERS_LEN : Z := 1023. (* 0x3FF *)
Definition PALETTE_RAM_LEN : Z := 1024.  (* 0x400 *)
Definition VRAM_LEN : Z := 98304.        (* 0x18_000 *)

Definition normal_index (address start : Z) : Z := address - start.

Definition wrapping_index (len address start : Z) : Z := (address - start) mod len.

Definition vram_index (address start : Z) : Z :=
  let address := (address - start) mod 131072 in (* 0x20_000 *)
  if VRAM_LEN <=? address then address - VRAM_LEN else address.

Inductive Region := Bios | Wram1 | Wram2 | IoRegisters | PaletteRam | Vram | GamePak.

Record Memory := mkMemory {
  bios : Vec; wram1 : Vec; wram2 : Vec; io_registers : Vec;
  palette_ram : Vec; vram : Vec; game_pak : Vec }.

Definition region_vec (m : Memory) (g : Region) : Vec :=
  match g with
  | Bios => bios m | Wram1 => wram1 m | Wram2 => wram2 m
  | IoRegisters => io_registers m | PaletteRam => palette_ram m
  | Vram => vram m | GamePak => game_pak m
  end.

Definition set_region_vec (m : Memory) (g : Region) (v : Vec) : Memory :=
  let 'mkMemory b w1 w2 io p vr gp := m in
  match g with
  | Bios => mkMemory v w1 w2 io p vr gp
  | Wram1 => mkMemory b v w2 io p vr gp
  | Wram2 => mkMemory b w1 v io p vr gp
  | IoRegisters => mkMemory b w1 w2 v p vr gp
  | PaletteRam => mkMemory b w1 w2 io v vr gp
  | Vram => mkMemory b w1 w2 io p v gp
  | GamePak => mkMemory b w1 w2 io p vr v
  end.

(** The region table given to [gen_memory!]:
    (start, end, region, index function, writable). *)
Definition memory_map : list (Z * Z * Region * (Z -> Z -> Z) * bool) :=
  [ (0, 16383, Bios, normal_index, false);                            (* 0x00_000_000..=0x00_003_FFF *)
    (33554432, 50331647, Wram1, wrapping_index WRAM1_LEN, true);       (* 0x02_000_000..=0x02_FFF_FFF *)
    (50331648, 67108863, Wram2, wrapping_index WRAM2_LEN, true);       (* 0x03_000_000..=0x03_FFF_FFF *)
    (67108864, 67109886, IoRegisters, normal_index, true);             (* 0x04_000_000..=0x04_000_3FE *)
    (83886080, 100663295, PaletteRam, wrapping_index PALETTE_RAM_LEN, true); (* 0x05_000_000..=0x05_FFF_FFF *)
    (100663296, 117440511, Vram, vram_index, true);                    (* 0x06_000_000..=0x06_FFF_FFF *)
    (134217728, 167772159, GamePak, normal_index, false) ].            (* 0x08_000_000..=0x09_FFF_FFF *)

(** The first arm of the generated [match address] that covers [address]:
    the region, the index into its vector, and whether it is writable. *)
Fixpoint lookup_region (tbl : list (Z * Z * Region * (Z -> Z -> Z) * bool)) (address : Z)
  : option (Region * Z * bool) :=
  match tbl with
  | [] => None
  | (start, end_, g, index_fn, writable) :: rest =>
      if (start <=? address) && (address <=? end_)
      then Some (g, index_fn address start, writable)
      else lookup_region rest address
  end.

Definition _read_u8 (m : Memory) (address : Z) : result Z :=
  match lookup_region memory_map address with
  | Some (g, idx, _) => vec_get (region_vec m g) idx
  | None => Err (UnmappedRead address)
  end.

Definition _write_u8 (address value : Z) : St Memory unit :=
  fun m =>
    match lookup_region memory_map address with
    | Some (g, idx, writable) =>
        if writable then
          match vec_set (region_vec m g) idx value with
          | Ok v => (set_region_vec m g v, Ok tt)
          | Err p => (m, Err p)
          end
        else (m, Err (ReadOnlyWrite address))
    | None => (m, Err (UnmappedWrite address))
    end.

Definition Memory_new (bios game_pak : Vec) : Memory :=
  mkMemory bios (vec_zeros WRAM1_LEN) (vec_zeros WRAM2_LEN) (vec_zeros IO_REGISTERS_LEN)
    (vec_zeros PALETTE_RAM_LEN) (vec_zeros VRAM_LEN) game_pak.

Definition read_u8 (m : Memory) (address : Z) : result Z := _read_u8 m address.

Definition read_u16 (m : Memory) (address : Z) : result Z :=
  low <- read_u8 m address ;;
  a1 <- add32 address 1 ;;
  high <- read_u8 m a1 ;;
  Ok (Z.lor (Z.shiftl high 8) low).

Definition read_u32 (m : Memory) (address : Z) : result Z :=
  low <- read_u16 m address ;;
  a2 <- add32 address 2 ;;
  high <- read_u16 m a2 ;;
  Ok (Z.lor (Z.shiftl high 16) low).

Definition write_u8 (address value : Z) : St Memory unit :=
  if (83886080 <=? address) && (address <=? 134217727) (* 0x05_000_000..=0x07_FFF_FFF *)
  then liftS (Err VideoByteWrite)
  else _write_u8 address value.

(** [value as u8] *)
Definition low_byte (x : Z) : Z := Z.land x 255.

Definition write_u16 (address value : Z) : St Memory unit :=
  _ <-- _write_u8 address (low_byte value) ;;
  a1 <-- liftS (add32 address 1) ;;
  _write_u8 a1 (low_byte (Z.shiftr value 8)).

Definition write_u32 (address value : Z) : St Memory unit :=
  _ <-- write_u16 address (Z.land value 65535) ;;
  a2 <-- liftS (add32 address 2) ;;
  write_u16 a2 (Z.land (Z.shiftr value 16) 65535).

Definition mem0 : Memory := Memory_new (vec_zeros 16384) (vec_zeros 16).

(** ** cpu.rs: the register file *)

Definition MODE_USR : Z := 16. (* 0b10000 *)
Definition MODE_FIQ : Z := 17. (* 0b10001 *)
Definition MODE_IRQ : Z := 18. (* 0b10010 *)
Definition MODE_SVC : Z := 19. (* 0b10011 *)
Definition MODE_ABT : Z := 23. (* 0b10111 *)
Definition MODE_UND : Z := 27. (* 0b11011 *)
Definition MODE_SYS : Z := 31. (* 0b11111 *)

Definition REGISTER_SP : Z := 13.
Definition REGISTER_LR : Z := 14.
Definition REGISTER_PC : Z := 15.

Definition INSTRUCTION_LEN_ARM : Z := 4.
Definition INSTRUCTION_LEN_THUMB : Z := 2.

Record CPU := mkCPU {
  cpsr : Z;
  r : list Z;       (* [u32; 16], unbanked *)
  r_svc : list Z;   (* [u32; 2], 13-14 banked in svc mode *)
  r_abt : list Z;   (* [u32; 2] *)
  r_und : list Z;   (* [u32; 2] *)
  r_irq : list Z;   (* [u32; 2] *)
  r_fiq : list Z;   (* [u32; 7], 8-14 banked in fiq mode *)
  spsr_svc : Z; spsr_abt : Z; spsr_und : Z; spsr_irq : Z; spsr_fiq : Z;
  branch_happened : bool;
  cycles : Z }.

Definition with_cpsr (c : CPU) (v : Z) : CPU :=
  let 'mkCPU _ r0 s a u i f ss sa su si sf bh cy := c in
  mkCPU v r0 s a u i f ss sa su si sf bh cy.
Definition with_r (c : CPU) (v : list Z) : CPU :=
  let 'mkCPU p _ s a u i f ss sa su si sf bh cy := c in
  mkCPU p v s a u i f ss sa su si sf bh cy.
Definition with_branch_happened (c : CPU) (v : bool) : CPU :=
  let 'mkCPU p r0 s a u i f ss sa su si sf _ cy := c in
  mkCPU p r0 s a u i f ss sa su si sf v cy.
Definition with_cycles (c : CPU) (v : Z) : CPU :=
  let 'mkCPU p r0 s a u i f ss sa su si sf bh _ := c in
  mkCPU p r0 s a u i f ss sa su si sf bh v.

(** The slice [banked_registers] that [get_r_in_mode]/[set_r_in_mode]
    select by mode. *)
Inductive Bank := Unbanked | BankSvc | BankAbt | BankUnd | BankIrq | BankFiq.

Definition bank_of_mode (mode : Z) : result Bank :=
  if (mode =? MODE_USR) || (mode =? MODE_SYS) then Ok Unbanked
  else if mode =? MODE_SVC then Ok BankSvc
  else if mode =? MODE_ABT then Ok BankAbt
  else if mode =? MODE_UND then Ok BankUnd
  else if mode =? MODE_IRQ then Ok BankIrq
  else if mode =? MODE_FIQ then Ok BankFiq
  else Err InvalidMode.

Definition banked_registers (c : CPU) (b : Bank) : list Z :=
  match b with
  | Unbanked => [] | BankSvc => r_svc c | BankAbt => r_abt c
  | BankUnd => r_und c | BankIrq => r_irq c | BankFiq => r_fiq c
  end.

Definition with_banked_registers (c : CPU) (b : Bank) (l : list Z) : CPU :=
  let 'mkCPU p r0 s a u i f ss sa su si sf bh cy := c in
  match b with
  | Unbanked => c
  | BankSvc => mkCPU p r0 l a u i f ss sa su si sf bh cy
  | BankAbt => mkCPU p r0 s l u i f ss sa su si sf bh cy
  | BankUnd => mkCPU p r0 s a l i f ss sa su si sf bh cy
  | BankIrq => mkCPU p r0 s a u l f ss sa su si sf bh cy
  | BankFiq => mkCPU p r0 s a u i l ss sa su si sf bh cy
  end.

(** Array indexing [a[i]] and [a[i] = x]: panic out of range. *)
Definition list_get (l : list Z) (i : Z) : result Z :=
  if i <? 0 then Err IndexOutOfBounds
  else match nth_error l (Z.to_nat i) with Some x => Ok x | None => Err IndexOutOfBounds end.

Fixpoint replace_nth (l : list Z) (n : nat) (x : Z) : list Z :=
  match l, n with
  | [], _ => []
  | _ :: t, O => x :: t
  | h :: t, S n' => h :: replace_nth t n' x
  end.

Definition list_set (l : list Z) (i x : Z) : result (list Z) :=
  if (0 <=? i) && (i <? Z.of_nat (length l)) then Ok (replace_nth l (Z.to_nat i) x)
  else Err IndexOutOfBounds.

Definition get_r_in_mode (c : CPU) (reg mode : Z) : result Z :=
  b <- bank_of_mode mode ;;
  let banked := banked_registers c b in
  let banked_start := 15 - Z.of_nat (length banked) in
  if (banked_start <=? reg) && (reg <? 15)
  then list_get banked (reg - banked_start)
  else list_get (r c) reg.

Definition set_r_in_mode (c : CPU) (reg mode value : Z) : result CPU :=
  b <- bank_of_mode mode ;;
  let banked := banked_registers c b in
  let banked_start := 15 - Z.of_nat (length banked) in
  c1 <- (if (banked_start <=? reg) && (reg <? 15)
         then l <- list_set banked (reg - banked_start) value ;;
              Ok (with_banked_registers c b l)
         else l <- list_set (r c) reg value ;; Ok (with_r c l)) ;;
  Ok (if reg =? REGISTER_PC then with_branch_happened c1 true else c1).

Definition get_mode (c : CPU) : result Z := get_bits32 (cpsr c) 0 5.

Definition set_mode (c : CPU) (v : Z) : result CPU :=
  x <- set_bits32 (cpsr c) 0 5 v ;; Ok (with_cpsr c x).

Definition get_r (c : CPU) (reg : Z) : result Z :=
  mode <- get_mode c ;; get_r_in_mode c reg mode.

Definition set_r (c : CPU) (reg value : Z) : result CPU :=
  mode <- get_mode c ;; set_r_in_mode c reg mode value.

Definition get_cpsr (c : CPU) : Z := cpsr c.

Definition get_spsr (c : CPU) : result Z :=
  mode <- get_mode c ;;
  if mode =? MODE_SVC then Ok (spsr_svc c)
  else if mode =? MODE_ABT then Ok (spsr_abt c)
  else if mode =? MODE_UND then Ok (spsr_und c)
  else if mode =? MODE_IRQ then Ok (spsr_irq c)
  else if mode =? MODE_FIQ then Ok (spsr_fiq c)
  else Err InvalidMode.

Definition set_spsr (c : CPU) (value : Z) : result CPU :=
  mode <- get_mode c ;;
  let 'mkCPU p r0 s a u i f ss sa su si sf bh cy := c in
  if mode =? MODE_SVC then Ok (mkCPU p r0 s a u i f value sa su si sf bh cy)
  else if mode =? MODE_ABT then Ok (mkCPU p r0 s a u i f ss value su si sf bh cy)
  else if mode =? MODE_UND then Ok (mkCPU p r0 s a u i f ss sa value si sf bh cy)
  else if mode =? MODE_IRQ then Ok (mkCPU p r0 s a u i f ss sa su value sf bh cy)
  else if mode =? MODE_FIQ then Ok (mkCPU p r0 s a u i f ss sa su si value bh cy)
  else Err InvalidMode.

Definition get_negative_flag (c : CPU) : bool := get_bit (cpsr c) 31.
Definition get_zero_flag (c : CPU) : bool := get_bit (cpsr c) 30.
Definition get_carry_flag (c : CPU) : bool := get_bit (cpsr c) 29.
Definition get_overflow_flag (c : CPU) : bool := get_bit (cpsr c) 28.
Definition get_thumb_state (c : CPU) : bool := get_bit (cpsr c) 5.

Definition set_irq_disable (c : CPU) (v : bool) : CPU := with_cpsr c (set_bit32 (cpsr c) 7 v).
Definition set_fiq_disable (c : CPU) (v : bool) : CPU := with_cpsr c (set_bit32 (cpsr c) 6 v).
Definition set_thumb_state (c : CPU) (v : bool) : CPU := with_cpsr c (set_bit32 (cpsr c) 5 v).

Definition current_mode_has_spsr (c : CPU) : result bool :=
  mode <- get_mode c ;; Ok (negb (mode =? MODE_USR) && negb (mode =? MODE_SYS)).

Definition in_a_privileged_mode (c : CPU) : result bool :=
  mode <- get_mode c ;; Ok (negb (mode =? MODE_USR)).

Definition instruction_len_in_bytes (c : CPU) : Z :=
  if get_thumb_state c then INSTRUCTION_LEN_THUMB else INSTRUCTION_LEN_ARM.

(** [CPU::new]: all registers zero, then [reset]. *)
Definition reset (c : CPU) : result CPU :=
  c1 <- set_mode c MODE_SVC ;;
  let c2 := set_irq_disable (set_fiq_disable (set_thumb_state c1 false) true) true in
  l <- list_set (r c2) REGISTER_PC 0 ;;
  Ok (with_r c2 l).

Definition zeros (n : nat) : list Z := repeat 0 n.

Definition CPU_new : result CPU :=
  reset (mkCPU 0 (zeros 16) (zeros 2) (zeros 2) (zeros 2) (zeros 2) (zeros 7)
           0 0 0 0 0 false 0).

Definition cpu_reset_state : CPU :=
  mkCPU 211 (zeros 16) (zeros 2) (zeros 2) (zeros 2) (zeros 2) (zeros 7) 0 0 0 0 0 false 0.

(** ** instructions/mod.rs: condition codes *)

Inductive Condition := EQ | NE | CS | CC | MI | PL | VS | VC | HI | LS | GE | LT | GT | LE | AL.

Definition Condition_parse (cond : Z) : result Condition :=
  match cond with
  | 0 => Ok EQ | 1 => Ok NE | 2 => Ok CS | 3 => Ok CC
  | 4 => Ok MI | 5 => Ok PL | 6 => Ok VS | 7 => Ok VC
  | 8 => Ok HI | 9 => Ok LS | 10 => Ok GE | 11 => Ok LT
  | 12 => Ok GT | 13 => Ok LE | 14 => Ok AL
  | _ => Err InvalidCondition
  end.

Definition Condition_decode_arm (instruction : Z) : result Condition :=
  x <- get_bits32 instruction 28 4 ;; Condition_parse x.

Definition Condition_check (cond : Condition) (c : CPU) : bool :=
  match cond with
  | EQ => get_zero_flag c
  | NE => negb (get_zero_flag c)
  | CS => get_carry_flag c
  | CC => negb (get_carry_flag c)
  | MI => get_negative_flag c
  | PL => negb (get_negative_flag c)
  | VS => get_overflow_flag c
  | VC => negb (get_overflow_flag c)
  | HI => get_carry_flag c && negb (get_zero_flag c)
  | LS => negb (get_carry_flag c) || get_zero_flag c
  | GE => Bool.eqb (get_negative_flag c) (get_overflow_flag c)
  | LT => negb (Bool.eqb (get_negative_flag c) (get_overflow_flag c))
  | GT => negb (get_zero_flag c) && Bool.eqb (get_negative_flag c) (get_overflow_flag c)
  | LE => get_zero_flag c || negb (Bool.eqb (get_negative_flag c) (get_overflow_flag c))
  | AL => true
  end.

(** The architecture reference's [ConditionPassed]: [cond<3:1>] selects
    the base test and [cond<0>] inverts it, except for AL (0b1110). *)
Definition condition_passed_ref (cond : Z) (n z c v : bool) : bool :=
  let base :=
    match Z.shiftr cond 1 with
    | 0 => z
    | 1 => c
    | 2 => n
    | 3 => v
    | 4 => c && negb z
    | 5 => Bool.eqb n v
    | 6 => Bool.eqb n v && negb z
    | _ => true
    end in
  if Z.testbit cond 0 && negb (cond =? 15) then negb base else base.

(** ** cpu.rs: the fetch/decode/execute step *)

Definition fetch_arm (c : CPU) (m : Memory) : result Z :=
  pc <- list_get (r c) REGISTER_PC ;; read_u32 m pc.

Definition fetch_thumb (c : CPU) (m : Memory) : result Z :=
  pc <- list_get (r c) REGISTER_PC ;; read_u16 m pc.

(** [self.r[REGISTER_PC] += self.instruction_len_in_bytes()] *)
Definition advance_pc (c : CPU) : result CPU :=
  pc <- list_get (r c) REGISTER_PC ;;
  pc' <- add32 pc (instruction_len_in_bytes c) ;;
  l <- list_set (r c) REGISTER_PC pc' ;;
  Ok (with_r c l).

(** [self.r[REGISTER_PC] -= self.instruction_len_in_bytes()] *)
Definition retreat_pc (c : CPU) : result CPU :=
  pc <- list_get (r c) REGISTER_PC ;;
  pc' <- sub32 pc (instruction_len_in_bytes c) ;;
  l <- list_set (r c) REGISTER_PC pc' ;;
  Ok (with_r c l).

Definition VALID_MODES : list Z :=
  [MODE_USR; MODE_FIQ; MODE_IRQ; MODE_SVC; MODE_ABT; MODE_UND; MODE_SYS].

Section Cycle.

(** The decoded-instruction table and [DecodedInstruction::execute] are
    kept abstract: the step itself only fetches, moves the PC and calls
    them. *)
Variable Instr : Type.
Variable decode_arm_instr : Z -> result Instr.
Variable decode_thumb_instr : Z -> Z -> result Instr.
Variable execute : Instr -> CPU -> Memory -> result (CPU * Memory).

Inductive Stage :=
| Skipped (c : CPU)
| Decoded (i : Instr) (c : CPU).

(** [CPU::cycle] up to the call of [execute]: fetch, first PC advance,
    condition check (ARM), decode, second PC advance, flag reset. *)
Definition cycle_prepare (c : CPU) (m : Memory) : result Stage :=
  st <- (if get_thumb_state c then
           instruction <- fetch_thumb c m ;;
           c1 <- advance_pc c ;;
           next <- fetch_thumb c1 m ;;
           i <- decode_thumb_instr instruction next ;;
           Ok (Decoded i c1)
         else
           instruction <- fetch_arm c m ;;
           c1 <- advance_pc c ;;
           cond <- Condition_decode_arm instruction ;;
           if negb (Condition_check cond c1) then Ok (Skipped c1)
           else i <- decode_arm_instr instruction ;; Ok (Decoded i c1)) ;;
  match st with
  | Skipped c1 => Ok (Skipped c1)
  | Decoded i c1 =>
      c2 <- advance_pc c1 ;;
      Ok (Decoded i (with_branch_happened c2 false))
  end.

(** [CPU::cycle] after [execute]. *)
Definition cycle_finish (c : CPU) : result CPU :=
  c1 <- (if negb (branch_happened c) then retreat_pc c else Ok c) ;;
  Ok (with_cycles c1 (cycles c1 + 2)).

Definition cycle (c : CPU) (m : Memory) : result (CPU * Memory) :=
  st <- cycle_prepare c m ;;
  match st with
  | Skipped c1 => Ok (c1, m)
  | Decoded i c1 =>
      p <- execute i c1 m ;;
      let (c2, m2) := p in
      c3 <- cycle_finish c2 ;;
      Ok (c3, m2)
  end.

(** The executed operation wrote no register 15: it left the PC slot and
    the [branch_happened] flag alone, and with them the T bit (in this
    core only branches, which write the PC, change the T bit). *)
Definition no_pc_write (before after : CPU) : Prop :=
  list_get (r after) REGISTER_PC = list_get (r before) REGISTER_PC /\
  branch_happened after = false /\
  get_thumb_state after = get_thumb_state before.

Definition executed_without_pc_write (c : CPU) (m : Memory) : Prop :=
  forall i c1 c2 m2,
    cycle_prepare c m = Ok (Decoded i c1) ->
    execute i c1 m = Ok (c2, m2) ->
    no_pc_write c1 c2.

End Cycle.

(** ** instructions/ctrl_ext.rs: MSR *)

Definition UNALLOC_MASK : Z := 268435200. (* 0x0FFFFF00 *)
Definition USER_MASK : Z := 4026531840.   (* 0xF0000000 *)
Definition PRIV_MASK : Z := 15.           (* 0x0000000F *)
Definition STATE_MASK : Z := 32.          (* 0x00000020 *)

Inductive MsrOperand :=
| MsrImmediate (imm : Z)
| MsrRegister (m : Z).

Record Msr := mkMsr { msr_mode : MsrOperand; field_mask : Z; msr_r : bool }.

(** The loop [for i in 0..4 { if get_bit(field_mask, i) { mask |= 0xFF << (8 * i) } }]. *)
Definition byte_mask (field_mask : Z) : Z :=
  fold_left (fun mask i => if get_bit field_mask i then Z.lor mask (Z.shiftl 255 (8 * i)) else mask)
    [0; 1; 2; 3] 0.

Definition Msr_execute (x : Msr) (c : CPU) : result CPU :=
  operand <- match msr_mode x with
             | MsrImmediate imm => Ok imm
             | MsrRegister m => get_r c m
             end ;;
  if negb (Z.land operand UNALLOC_MASK =? 0) then Err ReservedBits
  else
    let mask := byte_mask (field_mask x) in
    if negb (msr_r x) then
      priv <- in_a_privileged_mode c ;;
      mask <- (if priv then
                 if negb (Z.land operand STATE_MASK =? 0) then Err NonArmState
                 else Ok (Z.land mask (Z.lor USER_MASK PRIV_MASK))
               else Ok (Z.land mask USER_MASK)) ;;
      Ok (with_cpsr c (Z.lor (Z.land (cpsr c) (not32 mask)) (Z.land operand mask)))
    else
      has_spsr <- current_mode_has_spsr c ;;
      if has_spsr then
        let mask := Z.land mask (Z.lor USER_MASK (Z.lor PRIV_MASK STATE_MASK)) in
        spsr <- get_spsr c ;;
        set_spsr c (Z.lor (Z.land spsr (not32 mask)) (Z.land operand mask))
      else Err SpsrInUserOrSystem.

(** ** instructions/load_store.rs: single loads and stores *)

Definition b2z (b : bool) : Z := if b then 1 else 0.

(** [((data as i32) >> shift) as u32] *)
Definition arithmetic_shift_right (data shift : Z) : result Z :=
  if shift <? 32 then Ok (Z.shiftr (as_i32 data) shift mod 2 ^ 32) else Err ShiftOverflow.

Definition rotate_right_with_extend (c_flag : bool) (data : Z) : Z :=
  Z.lor (Z.shiftl (b2z c_flag) 31) (Z.shiftr data 1).

Definition sign_extend32 (data data_len : Z) : result Z :=
  shift <- sub32 32 data_len ;;
  x <- shl32 data shift ;;
  arithmetic_shift_right x shift.

Inductive Opcode := LDR | STR.
Inductive Length := Byte | Halfword | Word | Doubleword.

Inductive AddressingModeType :=
| Immediate (imm : Z)
| Register (m : Z)
| LogicalShiftLeft (m shift_imm : Z)
| LogicalShiftRight (m shift_imm : Z)
| ArithmeticShiftRight (m shift_imm : Z)
| RotateRight (m shift_imm : Z)
| RotateRightWithExtend (m : Z).

Inductive IndexingMode := Offset | PreIndexed | PostIndexed (t : bool).

Record AddressingMode := mkAddressingMode {
  u_is_add : bool; n : Z; mode : AddressingModeType; indexing_mode : IndexingMode }.

Record LoadStore := mkLoadStore {
  opcode : Opcode; length : Length; sign_extend : bool; d : Z;
  adressing_mode : AddressingMode }.

Definition AddressingMode_decode_arm (instruction : Z) : result AddressingMode :=
  let u := get_bit instruction 23 in
  n <- get_bits32 instruction 16 4 ;;
  mode <- (if negb (get_bit instruction 25) then
             imm <- get_bits32 instruction 0 12 ;; Ok (Immediate imm)
           else
             m <- get_bits32 instruction 0 4 ;;
             shift <- get_bits32 instruction 5 2 ;;
             shift_imm <- get_bits32 instruction 7 5 ;;
             Ok (match shift with
                 | 0 => if shift_imm =? 0 then Register m else LogicalShiftLeft m shift_imm
                 | 1 => LogicalShiftRight m shift_imm
                 | 2 => ArithmeticShiftRight m shift_imm
                 | _ => if shift_imm =? 0 then RotateRightWithExtend m else RotateRight m shift_imm
                 end)) ;;
  let p := get_bit instruction 24 in
  let w := get_bit instruction 21 in
  let indexing := match p, w with
                  | false, t => PostIndexed t
                  | true, false => Offset
                  | true, true => PreIndexed
                  end in
  Ok (mkAddressingMode u n mode indexing).

Definition LoadStore_decode_arm (instruction : Z) : result LoadStore :=
  d <- get_bits32 instruction 12 4 ;;
  let b := get_bit instruction 22 in
  am <- AddressingMode_decode_arm instruction ;;
  Ok (mkLoadStore (if get_bit instruction 20 then LDR else STR)
        (if b then Byte else Word) false d am).

(** [AddressingMode::execute]: the effective address, with the base
    written back for pre- and post-indexing. *)
Definition AddressingMode_execute (am : AddressingMode) (c : CPU) : result (Z * CPU) :=
  offset <- match mode am with
            | Immediate imm => Ok imm
            | Register m => get_r c m
            | LogicalShiftLeft m shift_imm => x <- get_r c m ;; shl32 x shift_imm
            | LogicalShiftRight m shift_imm =>
                if shift_imm =? 0 then Ok 0 else x <- get_r c m ;; shr32 x shift_imm
            | ArithmeticShiftRight m shift_imm =>
                if shift_imm =? 0 then
                  x <- get_r c m ;; Ok (if get_bit x 31 then U32_MAX else 0)
                else x <- get_r c m ;; arithmetic_shift_right x shift_imm
            | RotateRight m shift_imm => x <- get_r c m ;; Ok (rotate_right32 x shift_imm)
            | RotateRightWithExtend m =>
                x <- get_r c m ;; Ok (rotate_right_with_extend (get_carry_flag c) x)
            end ;;
  rn <- get_r c (n am) ;;
  let r_n := if n am =? 15 then Z.land rn (not32 3) else rn in
  let r_n_offset := if u_is_add am then (r_n + offset) mod 2 ^ 32
                    else (r_n - offset) mod 2 ^ 32 in
  match indexing_mode am with
  | Offset => Ok (r_n_offset, c)
  | PreIndexed => c1 <- set_r c (n am) r_n_offset ;; Ok (r_n_offset, c1)
  | PostIndexed _ => c1 <- set_r c (n am) r_n_offset ;; Ok (r_n, c1)
  end.

(** Run a bus write; a panic is reported (the partly written memory is
    not needed by the single load/store claims). *)
Definition run_write (w : St Memory unit) (m : Memory) : result Memory :=
  let (m1, res) := w m in
  match res with Ok _ => Ok m1 | Err p => Err p end.

Definition LoadStore_execute (x : LoadStore) (c : CPU) (m : Memory) : result (CPU * Memory) :=
  if d x =? 15 then Err Todo
  else
    p <- AddressingMode_execute (adressing_mode x) c ;;
    let (address, c) := p in
    match opcode x with
    | LDR =>
        match length x with
        | Byte =>
            b <- read_u8 m address ;;
            v <- (if sign_extend x then sign_extend32 b 8 else Ok b) ;;
            c1 <- set_r c (d x) v ;; Ok (c1, m)
        | Halfword =>
            h <- read_u16 m address ;;
            v <- (if sign_extend x then sign_extend32 h 16 else Ok h) ;;
            c1 <- set_r c (d x) v ;; Ok (c1, m)
        | Word =>
            w <- read_u32 m address ;;
            c1 <- set_r c (d x) w ;; Ok (c1, m)
        | Doubleword =>
            w <- read_u32 m address ;;
            c1 <- set_r c (d x) w ;;
            a4 <- add32 address 4 ;;
            w2 <- read_u32 m a4 ;;
            c2 <- set_r c1 (d x + 1) w2 ;; Ok (c2, m)
        end
    | STR =>
        match length x with
        | Byte => v <- get_r c (d x) ;; m1 <- run_write (write_u8 address (low_byte v)) m ;; Ok (c, m1)
        | Halfword => v <- get_r c (d x) ;; m1 <- run_write (write_u16 address (Z.land v 65535)) m ;; Ok (c, m1)
        | Word => v <- get_r c (d x) ;; m1 <- run_write (write_u32 address v) m ;; Ok (c, m1)
        | Doubleword =>
            v <- get_r c (d x) ;; m1 <- run_write (write_u32 address v) m ;;
            a4 <- add32 address 4 ;;
            v2 <- get_r c (d x + 1) ;; m2 <- run_write (write_u32 a4 v2) m1 ;; Ok (c, m2)
        end
    end.

(** ** Reference notions taken from the specification *)

(** The sign bit of a 32-bit word. *)
Definition sign32 (x : Z) : bool := 2 ^ 31 <=? x.

(** Registers banked in a mode, as the specification lists them: R13-R14
    in SVC/ABT/UND/IRQ, R8-R14 in FIQ, none in USR/SYS. *)
Definition banked_in (reg mode : Z) : bool :=
  if (mode =? MODE_SVC) || (mode =? MODE_ABT) || (mode =? MODE_UND) || (mode =? MODE_IRQ)
  then (13 <=? reg) && (reg <=? 14)
  else if mode =? MODE_FIQ then (8 <=? reg) && (reg <=? 14)
  else false.

(** A register write [set_r_in_mode(w_reg, w_mode, w_value)]. *)
Record RegWrite := mkRegWrite { w_reg : Z; w_mode : Z; w_value : Z }.

Fixpoint run_writes (c : CPU) (ws : list RegWrite) : result CPU :=
  match ws with
  | [] => Ok c
  | w :: ws' => c1 <- set_r_in_mode c (w_reg w) (w_mode w) (w_value w) ;; run_writes c1 ws'
  end.

(** The value of the most recent write satisfying [p], or [d] if none. *)
Definition latest_write (p : RegWrite -> bool) (ws : list RegWrite) (d : Z) : Z :=
  fold_left (fun acc w => if p w then w_value w else acc) ws d.

(** What the specification says a read of [reg] in [mode] returns after
    the writes [ws], [d] being the value read before them. *)
Definition read_reference (ws : list RegWrite) (reg mode d : Z) : Z :=
  if banked_in reg mode
  then latest_write (fun w => (w_reg w =? reg) && (w_mode w =? mode)) ws d
  else latest_write (fun w => (w_reg w =? reg) && negb (banked_in reg (w_mode w))) ws d.

Definition valid_write (w : RegWrite) : Prop :=
  0 <= w_reg w < 16 /\ In (w_mode w) VALID_MODES.

(** The register arrays have their declared sizes. *)
Definition cpu_wf (c : CPU) : Prop :=
  List.length (r c) = 16%nat /\ List.length (r_svc c) = 2%nat /\ List.length (r_abt c) = 2%nat /\
  List.length (r_und c) = 2%nat /\ List.length (r_irq c) = 2%nat /\ List.length (r_fiq c) = 7%nat.

(** A sample sequence of register writes. *)
Definition c1_writes : list RegWrite :=
  [mkRegWrite 8 MODE_FIQ 5; mkRegWrite 8 MODE_USR 7; mkRegWrite 13 MODE_SVC 9; mkRegWrite 8 MODE_FIQ 6].

(** A do-nothing instruction set for running [cycle] on a concrete input;
    the BIOS holds [MOV r0, r0] (0xE1A00000) at address 0. *)
Definition nop_bios : Vec :=
  mkVec 16384 (fun j => if j =? 3 then 225 else if j =? 2 then 160 else 0).
Definition nop_mem : Memory := Memory_new nop_bios (vec_zeros 16).
Definition nop_decode_arm (_ : Z) : result unit := Ok tt.
Definition nop_decode_thumb (_ _ : Z) : result unit := Ok tt.
Definition nop_execute (_ : unit) (c : CPU) (m : Memory) : result (CPU * Memory) := Ok (c, m).

(** The byte writes [bs], in order, each one run after the previous one
    succeeded. *)
Fixpoint write_bytes (bs : list (Z * Z)) : St Memory unit :=
  match bs with
  | [] => retS tt
  | (a, b) :: t => _ <-- _write_u8 a b ;; write_bytes t
  end.

(** Inputs for a misaligned word load: [LDR r0, [r1]] with r1 = 0x03000001
    and the bytes 0x11 0x22 0x33 0x44 0x55 at 0x03000000..=0x03000004. *)
Definition ldr_r0_r1 : Z := 3851485184. (* 0xE5910000: LDR r0, [r1] *)
Definition ldr_cpu : CPU := with_r cpu_reset_state (replace_nth (zeros 16) 1 50331649).
Definition ldr_mem : Memory :=
  fst (write_u8 50331652 85 (fst (write_u32 50331648 1144201745 mem0))).

(** An MSR in USR mode whose operand has the T bit. *)
Definition msr_usr_cpu : CPU := with_cpsr cpu_reset_state 16. (* USR mode, ARM state *)
Definition msr_set_t : Msr := mkMsr (MsrImmediate 32) 9 false. (* MSR CPSR_fc, #0x20 *)

(** ** cpu.rs: flag setters and execution-stage addresses *)

Definition get_irq_disable (c : CPU) : bool := get_bit (cpsr c) 7.
Definition get_fiq_disable (c : CPU) : bool := get_bit (cpsr c) 6.

Definition set_negative_flag (c : CPU) (v : bool) : CPU := with_cpsr c (set_bit32 (cpsr c) 31 v).
Definition set_zero_flag (c : CPU) (v : bool) : CPU := with_cpsr c (set_bit32 (cpsr c) 30 v).
Definition set_carry_flag (c : CPU) (v : bool) : CPU := with_cpsr c (set_bit32 (cpsr c) 29 v).
Definition set_overflow_flag (c : CPU) (v : bool) : CPU := with_cpsr c (set_bit32 (cpsr c) 28 v).

(** [self.r[REGISTER_PC] - self.instruction_len_in_bytes()] *)
Definition next_instruction_address_from_execution_stage (c : CPU) : result Z :=
  pc <- list_get (r c) REGISTER_PC ;; sub32 pc (instruction_len_in_bytes c).

(** [self.r[REGISTER_PC] - self.instruction_len_in_bytes() * 2] *)
Definition curr_instruction_address_from_execution_stage (c : CPU) : result Z :=
  pc <- list_get (r c) REGISTER_PC ;; sub32 pc (instruction_len_in_bytes c * 2).

(** ** bitutil.rs: arithmetic with carry in *)

Definition add_with_flags_carry (a b : Z) (carry : bool) : Z * bool * bool :=
  let unsigned_result_64 := wrap_u64 (wrap_u64 (a + b) + b2z carry) in
  let signed_result_64 := wrap_i64 (wrap_i64 (as_i32 a + as_i32 b) + b2z carry) in
  let unsigned_overflow := U32_MAX <? unsigned_result_64 in
  let signed_overflow := (I32_MAX <? signed_result_64) || (signed_result_64 <? I32_MIN) in
  (unsigned_result_64 mod 2 ^ 32, unsigned_overflow, signed_overflow).

Definition sub_with_flags_carry (a b : Z) (carry : bool) : Z * bool * bool :=
  let unsigned_result_64 := wrap_u64 (wrap_u64 (a - b) - b2z carry) in
  let signed_result_64 := wrap_i64 (wrap_i64 (as_i32 a - as_i32 b) - b2z carry) in
  let unsigned_overflow := U32_MAX <? unsigned_result_64 in
  let signed_overflow := (I32_MAX <? signed_result_64) || (signed_result_64 <? I32_MIN) in
  (unsigned_result_64 mod 2 ^ 32, unsigned_overflow, signed_overflow).

(** ** instructions/ctrl_ext.rs: MRS *)

Record Mrs := mkMrs { mrs_d : Z; mrs_r : bool }.

Definition Mrs_decode_arm (instruction : Z) : result Mrs :=
  d <- get_bits32 instruction 12 4 ;; Ok (mkMrs d (get_bit instruction 22)).

Definition Mrs_execute (x : Mrs) (c : CPU) : result CPU :=
  if mrs_r x then v <- get_spsr c ;; set_r c (mrs_d x) v
  else set_r c (mrs_d x) (get_cpsr c).

(** ** bitutil.rs: 16-bit helpers *)

(** [a << n] on u16: panics when [n >= 16]. *)
Definition shl16 (a n : Z) : result Z :=
  if n <? 16 then Ok (Z.land (Z.shiftl a n) 65535) else Err ShiftOverflow.

(** [a >> n] on u16: panics when [n >= 16]. *)
Definition shr16 (a n : Z) : result Z :=
  if n <? 16 then Ok (Z.shiftr a n) else Err ShiftOverflow.

(** [get_bits16]; the u16 subtraction has the same overflow check as [sub32]. *)
Definition get_bits16 (data i len : Z) : result Z :=
  one <- shl16 1 len ;;
  mask <- sub32 one 1 ;;
  shifted_mask <- shl16 mask i ;;
  shr16 (Z.land data shifted_mask) i.

(** [get_bit16]; its one call site passes the constant index 7. *)
Definition get_bit16 (data i : Z) : bool :=
  negb (Z.land data (Z.shiftl 1 i) =? 0).

(** ** instructions/branch.rs *)

Module Branch.

Inductive Opcode :=
| BOffset (l x : bool) (offset : Z)
| BRegister (l x : bool) (m : Z)
| BCondThumb (cond : Condition) (offset : Z)
| BLThumb (offset : Z).

Definition decode_b_arm (instruction : Z) : result Opcode :=
  signed_immed_24 <- get_bits32 instruction 0 24 ;;
  s <- sign_extend32 signed_immed_24 24 ;;
  s2 <- shl32 s 2 ;;
  Ok (BOffset false false ((s2 + INSTRUCTION_LEN_ARM * 2) mod 2 ^ 32)).

Definition decode_bl_arm (instruction : Z) : result Opcode :=
  signed_immed_24 <- get_bits32 instruction 0 24 ;;
  s <- sign_extend32 signed_immed_24 24 ;;
  s2 <- shl32 s 2 ;;
  Ok (BOffset true false ((s2 + INSTRUCTION_LEN_ARM * 2) mod 2 ^ 32)).

Definition decode_bx_arm (instruction : Z) : result Opcode :=
  m <- get_bits32 instruction 0 4 ;; Ok (BRegister false true m).

Definition decode_blx_arm (instruction : Z) : result Opcode :=
  m <- get_bits32 instruction 0 4 ;; Ok (BRegister true true m).

Definition decode_branch_exchange_thumb (instruction _next_instruction : Z) : result Opcode :=
  let l := get_bit16 instruction 7 in
  if l then Err Todo (* panic!("BLX (2) not implemented") *)
  else m <- get_bits16 instruction 3 4 ;; Ok (BRegister l true m).

Definition decode_conditional_branch_thumb (instruction _next_instruction : Z) : result Opcode :=
  signed_immed_8 <- get_bits16 instruction 0 8 ;;
  s <- sign_extend32 signed_immed_8 8 ;;
  s1 <- shl32 s 1 ;;
  let offset := (s1 + INSTRUCTION_LEN_THUMB * 2) mod 2 ^ 32 in
  c <- get_bits16 instruction 8 4 ;;
  cond <- Condition_parse c ;;
  Ok (BCondThumb cond offset).

Definition decode_unconditional_branch_thumb (instruction _next_instruction : Z) : result Opcode :=
  signed_immed_11 <- get_bits16 instruction 0 11 ;;
  s <- sign_extend32 signed_immed_11 11 ;;
  s1 <- shl32 s 1 ;;
  Ok (BOffset false false ((s1 + INSTRUCTION_LEN_THUMB * 2) mod 2 ^ 32)).

Definition execute (op : Opcode) (c : CPU) (mem : Memory) : result (CPU * Memory) :=
  match op with
  | BOffset l x offset =>
      c1 <- (if l then
               nx <- next_instruction_address_from_execution_stage c ;; set_r c REGISTER_LR nx
             else Ok c) ;;
      let c2 := if x then set_thumb_state c1 true else c1 in
      cur <- curr_instruction_address_from_execution_stage c2 ;;
      c3 <- set_r c2 REGISTER_PC ((cur + offset) mod 2 ^ 32) ;;
      Ok (c3, mem)
  | BRegister l x m =>
      c1 <- (if l then
               nx <- next_instruction_address_from_execution_stage c ;; set_r c REGISTER_LR nx
             else Ok c) ;;
      r_m <- get_r c1 m ;;
      let c2 := if x then set_thumb_state c1 (get_bit r_m 0) else c1 in
      c3 <- set_r c2 REGISTER_PC (Z.land r_m 4294967294) ;; (* 0xFFFFFFFE *)
      Ok (c3, mem)
  | BCondThumb cond offset =>
      if Condition_check cond c then
        cur <- curr_instruction_address_from_execution_stage c ;;
        c1 <- set_r c REGISTER_PC ((cur + offset) mod 2 ^ 32) ;;
        Ok (c1, mem)
      else Ok (c, mem)
  | BLThumb offset =>
      nx <- next_instruction_address_from_execution_stage c ;;
      lr <- add32 nx (instruction_len_in_bytes c) ;;
      c1 <- set_r c REGISTER_LR (Z.lor lr 1) ;;
      cur <- curr_instruction_address_from_execution_stage c1 ;;
      c2 <- set_r c1 REGISTER_PC ((cur + offset) mod 2 ^ 32) ;;
      Ok (c2, mem)
  end.

End Branch.

(** ** Inputs for running branches through [cycle] *)

(** [BX r1] (0xE12FFF11) at BIOS address 0. *)
Definition bx_r1_bios : Vec :=
  mkVec 16384 (fun j => if j =? 0 then 17 else if j =? 1 then 255 else if j =? 2 then 47 else if j =? 3 then 225 else 0).
Definition bx_r1_mem : Memory := Memory_new bx_r1_bios (vec_zeros 16).
Definition bx_r1_cpu : CPU := with_r cpu_reset_state (replace_nth (zeros 16) 1 33554433).

(** [BL] back by 8 bytes (0xEBFFFFFC) at BIOS address 0. *)
Definition bl_back_bios : Vec :=
  mkVec 16384 (fun j => if j =? 0 then 252 else if j =? 3 then 235 else if j <? 3 then 255 else 0).
Definition bl_back_mem : Memory := Memory_new bl_back_bios (vec_zeros 16).

Definition thumb_reset_cpu : CPU := set_thumb_state cpu_reset_state true.

(** Thumb [B] to itself (0xE7FE) at BIOS address 0. *)
Definition thumb_b_self_mem : Memory :=
  Memory_new (mkVec 16384 (fun j => if j =? 0 then 254 else if j =? 1 then 231 else 0)) (vec_zeros 16).

(** Thumb [BNE] to itself (0xD1FE) at BIOS address 0. *)
Definition thumb_bne_self_mem : Memory :=
  Memory_new (mkVec 16384 (fun j => if j =? 0 then 254 else if j =? 1 then 209 else 0)) (vec_zeros 16).

(** Thumb [BX r1] (0x4708) at BIOS address 0. *)
Definition thumb_bx_r1_mem : Memory :=
  Memory_new (mkVec 16384 (fun j => if j =? 0 then 8 else if j =? 1 then 71 else 0)) (vec_zeros 16).
(** Thumb [BLX r1] (0x4788) at BIOS address 0. *)
Definition thumb_blx_r1_mem : Memory :=
  Memory_new (mkVec 16384 (fun j => if j =? 0 then 136 else if j =? 1 then 71 else 0)) (vec_zeros 16).
Definition thumb_bx_r1_cpu : CPU := with_r thumb_reset_cpu (replace_nth (zeros 16) 1 33554432).

(** * Properties *)

Ltac zcmp_cases :=
  repeat match goal with
  | |- context [?x <? ?y] => destruct (Z.ltb_spec x y)
  | |- context [?x <=? ?y] => destruct (Z.leb_spec x y)
  | H : context [?x <? ?y] |- _ => destruct (Z.ltb_spec x y)
  | H : context [?x <=? ?y] |- _ => destruct (Z.leb_spec x y)
  end.

(** ** Claim C4 *)

Lemma wrap_i64_small (x : Z) : - 2 ^ 33 <= x <= 2 ^ 33 -> wrap_i64 x = x.
Proof. intros Hx. unfold wrap_i64. rewrite Z.mod_small by lia. lia. Qed.

Lemma mod_pow_sub (a b k : Z) : 0 <= a < 2 ^ k -> 0 <= b < 2 ^ k -> 0 < k ->
  (a - b) mod 2 ^ k = if a <? b then a - b + 2 ^ k else a - b.
Proof.
  intros Ha Hb Hk. destruct (Z.ltb_spec a b).
  - assert (E : a - b = (a - b + 2 ^ k) + (-1) * 2 ^ k) by ring.
    rewrite E at 1. rewrite Z.mod_add by lia. apply Z.mod_small; lia.
  - apply Z.mod_small; lia.
Qed.

(** C4: [add_with_flags] returns the wrapped sum, carry iff the unsigned
    sum reaches 2^32, overflow iff the signed sum leaves the i32 range;
    [sub_with_flags] returns the wrapped difference, borrow iff [a < b],
    overflow iff sign(a) <> sign(b) and sign(a) <> sign(difference). *)
Theorem add_sub_with_flags_exact (a b : Z) (Ha : is_u32 a) (Hb : is_u32 b) :
  add_with_flags a b =
    ((a + b) mod 2 ^ 32, 2 ^ 32 <=? a + b,
     negb ((I32_MIN <=? as_i32 a + as_i32 b) && (as_i32 a + as_i32 b <=? I32_MAX))) /\
  sub_with_flags a b =
    ((a - b) mod 2 ^ 32, a <? b,
     negb (Bool.eqb (sign32 a) (sign32 b)) &&
     negb (Bool.eqb (sign32 a) (sign32 ((a - b) mod 2 ^ 32)))).
Proof.
  unfold is_u32, U32_MAX in *. split.
  - unfold add_with_flags, wrap_u64.
    rewrite (Z.mod_small (a + b) (2 ^ 64)) by lia.
    rewrite wrap_i64_small by (unfold as_i32; zcmp_cases; lia).
    unfold as_i32, I32_MAX, I32_MIN, U32_MAX.
    zcmp_cases; cbn [negb andb orb]; try reflexivity; exfalso; lia.
  - unfold sub_with_flags, wrap_u64, sign32.
    rewrite Z.mod_mod_divide by (exists (2 ^ 32); reflexivity).
    rewrite (mod_pow_sub a b 64) by lia. rewrite (mod_pow_sub a b 32) by lia.
    rewrite wrap_i64_small by (unfold as_i32; zcmp_cases; lia).
    unfold as_i32, I32_MAX, I32_MIN, U32_MAX.
    zcmp_cases; cbn [negb andb orb Bool.eqb]; try reflexivity; exfalso; lia.
Qed.

(** C4 witness: the claim's theorem at a = 0x7FFFFFFF, b = 0x80000000. *)
Lemma add_sub_with_flags_exact_witness :
  is_u32 2147483647 /\ is_u32 2147483648 /\
  add_with_flags 2147483647 2147483648 = (U32_MAX, false, false) /\
  sub_with_flags 2147483647 2147483648 = (U32_MAX, true, true).
Proof.
  assert (Ha : is_u32 2147483647) by (unfold is_u32, U32_MAX; lia).
  assert (Hb : is_u32 2147483648) by (unfold is_u32, U32_MAX; lia).
  destruct (add_sub_with_flags_exact 2147483647 2147483648 Ha Hb) as [E1 E2].
  split; [exact Ha | split; [exact Hb | split]].
  - rewrite E1. vm_compute. reflexivity.
  - rewrite E2. vm_compute. reflexivity.
Defined.

(** ** Claim C3 *)

(** C3: for every condition encoding 0..15 and every flag state,
    [Condition::decode_arm] of an instruction with that top nibble is
    [Condition::parse] of it; parsing 0b1111 (NV) is an error; every other
    encoding parses to a condition whose [check] is the reference
    [ConditionPassed] of the flags (so AL is true, HI = C and not Z,
    GE = (N = V), GT = not Z and (N = V)). *)
Theorem condition_truth_table (code : Z) (c : CPU) (Hcode : 0 <= code <= 15) :
  Condition_decode_arm (Z.shiftl code 28) = Condition_parse code /\
  match Condition_parse code with
  | Ok cond =>
      code <> 15 /\
      Condition_check cond c =
        condition_passed_ref code (get_negative_flag c) (get_zero_flag c)
          (get_carry_flag c) (get_overflow_flag c)
  | Err p => code = 15 /\ p = InvalidCondition
  end.
Proof.
  unfold Condition_check.
  destruct (get_negative_flag c), (get_zero_flag c), (get_carry_flag c), (get_overflow_flag c);
  assert (code = 0 \/ code = 1 \/ code = 2 \/ code = 3 \/ code = 4 \/ code = 5 \/ code = 6 \/
          code = 7 \/ code = 8 \/ code = 9 \/ code = 10 \/ code = 11 \/ code = 12 \/
          code = 13 \/ code = 14 \/ code = 15) as Hc by lia;
  repeat destruct Hc as [Hc | Hc]; subst code;
  (split; [reflexivity | split; [discriminate || reflexivity | reflexivity]]).
Qed.

(** C3 witness: GE (0b1010) on the reset state's flags. *)
Lemma condition_truth_table_witness :
  0 <= 10 <= 15 /\ Condition_check GE cpu_reset_state = true.
Proof.
  assert (H : 0 <= 10 <= 15) by lia. split; [exact H |].
  destruct (condition_truth_table 10 cpu_reset_state H) as [_ [_ E]].
  rewrite E. reflexivity.
Defined.

Lemma nth_error_replace (l : list Z) (k m : nat) (x : Z) :
  (k < List.length l)%nat ->
  nth_error (replace_nth l k x) m = if Nat.eqb k m then Some x else nth_error l m.
Proof.
  revert k m. induction l as [|h t IH]; intros k m Hk; [simpl in Hk; lia |].
  destruct k, m; simpl; try reflexivity.
  apply IH. simpl in Hk. lia.
Qed.

Lemma length_replace (l : list Z) (k : nat) (x : Z) :
  List.length (replace_nth l k x) = List.length l.
Proof.
  revert k. induction l as [|h t IH]; intros k; destruct k; simpl; auto.
Qed.

Lemma list_set_in_range (l : list Z) (i x : Z) :
  0 <= i < Z.of_nat (List.length l) -> list_set l i x = Ok (replace_nth l (Z.to_nat i) x).
Proof.
  intros Hi. unfold list_set. destruct (Z.leb_spec 0 i); [| lia].
  destruct (Z.ltb_spec i (Z.of_nat (List.length l))); [reflexivity | lia].
Qed.

Lemma list_get_replace (l : list Z) (i j x : Z) :
  0 <= i < Z.of_nat (List.length l) -> 0 <= j ->
  list_get (replace_nth l (Z.to_nat i) x) j = if i =? j then Ok x else list_get l j.
Proof.
  intros Hi Hj. unfold list_get. destruct (Z.ltb_spec j 0); [lia |].
  rewrite nth_error_replace by lia.
  destruct (Z.eqb_spec i j) as [<- | Hne].
  - rewrite Nat.eqb_refl. reflexivity.
  - destruct (Nat.eqb_spec (Z.to_nat i) (Z.to_nat j)); [lia | reflexivity].
Qed.

Arguments list_get : simpl never.
Arguments list_set : simpl never.

Lemma get_after_set (c : CPU) (reg mode reg' mode' v : Z) :
  cpu_wf c -> 0 <= reg < 16 -> In mode VALID_MODES ->
  0 <= reg' < 16 -> In mode' VALID_MODES ->
  exists c1, set_r_in_mode c reg' mode' v = Ok c1 /\ cpu_wf c1 /\
    get_r_in_mode c1 reg mode =
      if (if banked_in reg mode then (reg' =? reg) && (mode' =? mode)
          else (reg' =? reg) && negb (banked_in reg' mode'))
      then Ok v else get_r_in_mode c reg mode.
Proof.
  intros Hwf Hr Hm Hr' Hm'.
  destruct c as [p r0 s a u i f ss sa su si sf bh cy].
  destruct Hwf as (H0 & H1 & H2 & H3 & H4 & H5); cbn [r r_svc r_abt r_und r_irq r_fiq] in *.
  assert (Z0 : Z.of_nat (Datatypes.length r0) = 16) by (rewrite H0; reflexivity).
  assert (Z1 : Z.of_nat (Datatypes.length s) = 2) by (rewrite H1; reflexivity).
  assert (Z2 : Z.of_nat (Datatypes.length a) = 2) by (rewrite H2; reflexivity).
  assert (Z3 : Z.of_nat (Datatypes.length u) = 2) by (rewrite H3; reflexivity).
  assert (Z4 : Z.of_nat (Datatypes.length i) = 2) by (rewrite H4; reflexivity).
  assert (Z5 : Z.of_nat (Datatypes.length f) = 7) by (rewrite H5; reflexivity).
  unfold VALID_MODES in Hm, Hm'. cbn [In] in Hm, Hm'.
  destruct Hm as [<- | [<- | [<- | [<- | [<- | [<- | [<- | []]]]]]]];
  destruct Hm' as [<- | [<- | [<- | [<- | [<- | [<- | [<- | []]]]]]]].
  all: unfold set_r_in_mode, get_r_in_mode, banked_in;
    cbn [bank_of_mode MODE_USR MODE_SYS MODE_SVC MODE_ABT MODE_UND MODE_IRQ MODE_FIQ
         Z.eqb Pos.eqb orb andb negb bind banked_registers r_svc r_abt r_und r_irq r_fiq r
         Datatypes.length Z.of_nat with_banked_registers with_r];
    rewrite ?Z1, ?Z2, ?Z3, ?Z4, ?Z5;
    change (15 - 0) with 15 in *; change (15 - 2) with 13 in *; change (15 - 7) with 8 in *.
  all: try (match goal with |- context [if (?x <=? ?y) && (?y <? 15) then bind (list_set _ _ _) _ else _] =>
           destruct (Z.leb_spec x y), (Z.ltb_spec y 15) end); cbn [andb].
  all: try (exfalso; lia).
  all: rewrite list_set_in_range by lia; cbn [bind REGISTER_PC].
  all: (eexists; split; [reflexivity |]).
  all: unfold REGISTER_PC; destruct (reg' =? 15); cbn [with_branch_happened r r_svc r_abt r_und r_irq r_fiq].
  all: unfold cpu_wf at 1; cbn [r r_svc r_abt r_und r_irq r_fiq].
  all: split; [rewrite ?length_replace; repeat split |].
  all: try assumption.

  all: rewrite ?length_replace, ?Z0, ?Z1, ?Z2, ?Z3, ?Z4, ?Z5;
    change (15 - 0) with 15 in *; change (15 - 2) with 13 in *; change (15 - 7) with 8 in *.
  all: zcmp_cases; cbn [andb orb negb]; try (exfalso; lia).
  all: rewrite ?list_get_replace by lia.
  all: repeat match goal with |- context [?x =? ?y] => destruct (Z.eqb_spec x y) end.
  all: zcmp_cases; cbn [andb orb negb]; try reflexivity; try (exfalso; lia).
Qed.

Lemma run_writes_read (ws : list RegWrite) : forall (c : CPU) (reg mode v0 : Z),
  cpu_wf c -> Forall valid_write ws -> 0 <= reg < 16 -> In mode VALID_MODES ->
  get_r_in_mode c reg mode = Ok v0 ->
  exists c', run_writes c ws = Ok c' /\ cpu_wf c' /\
    get_r_in_mode c' reg mode = Ok (read_reference ws reg mode v0).
Proof.
  induction ws as [| w ws IH]; intros c reg mode v0 Hwf Hws Hr Hm Hget.
  - exists c; split; [reflexivity | split; [exact Hwf |]].
    unfold read_reference, latest_write; cbn [fold_left]; destruct (banked_in reg mode); exact Hget.
  - inversion Hws as [| ? ? [Hw1 Hw2] Hws']; subst.
    destruct (get_after_set c reg mode (w_reg w) (w_mode w) (w_value w) Hwf Hr Hm Hw1 Hw2)
      as (c1 & Hset & Hwf1 & Hget1).
    rewrite Hget in Hget1.
    set (v1 := if banked_in reg mode
               then (if (w_reg w =? reg) && (w_mode w =? mode) then w_value w else v0)
               else (if (w_reg w =? reg) && negb (banked_in reg (w_mode w)) then w_value w else v0)).
    assert (Hget1' : get_r_in_mode c1 reg mode = Ok v1).
    { rewrite Hget1; unfold v1.
      destruct (banked_in reg mode); [destruct ((w_reg w =? reg) && (w_mode w =? mode)); reflexivity |].
      destruct (Z.eqb_spec (w_reg w) reg) as [<- |]; cbn [andb];
        [destruct (negb (banked_in (w_reg w) (w_mode w))) |]; reflexivity. }
    destruct (IH c1 reg mode v1 Hwf1 Hws' Hr Hm Hget1') as (c' & Hrun & Hwf' & Hget').
    exists c'; cbn [run_writes]; rewrite Hset; cbn [bind]; split; [exact Hrun | split; [exact Hwf' |]].
    rewrite Hget'; unfold read_reference, latest_write, v1; cbn [fold_left].
    destruct (banked_in reg mode); reflexivity.
Qed.


(** C1: register-bank routing.  After any sequence of [set_r_in_mode]
    writes, a read of register [reg] in mode [mode] returns the value of the
    most recent write to [reg] made in [mode] when [reg] is banked in [mode],
    and otherwise the most recent write to [reg] made through the unbanked
    set (in a mode where [reg] is not banked); with no such write, the value
    read before.  In particular a write to r8..r14 in FIQ mode leaves the
    value read in USR mode unchanged. *)
Theorem register_bank_routing (c : CPU) (ws : list RegWrite) (reg mode v0 : Z)
  (Hwf : cpu_wf c) (Hws : Forall valid_write ws)
  (Hr : 0 <= reg < 16) (Hm : In mode VALID_MODES)
  (Hget : get_r_in_mode c reg mode = Ok v0) :
  (exists c', run_writes c ws = Ok c' /\
     get_r_in_mode c' reg mode = Ok (read_reference ws reg mode v0)) /\
  (8 <= reg <= 14 -> mode = MODE_USR -> forall v, exists c1,
     set_r_in_mode c reg MODE_FIQ v = Ok c1 /\
     get_r_in_mode c1 reg MODE_USR = Ok v0 /\ get_r_in_mode c1 reg MODE_FIQ = Ok v).
Proof.
  split.
  - destruct (run_writes_read ws c reg mode v0 Hwf Hws Hr Hm Hget) as (c' & H1 & _ & H2).
    exists c'; split; assumption.
  - intros Hreg -> v.
    assert (HF : In MODE_FIQ VALID_MODES) by (cbn; tauto).
    destruct (get_after_set c reg MODE_USR reg MODE_FIQ v Hwf Hr Hm Hr HF) as (c1 & Hs & Hwf1 & HU).
    destruct (get_after_set c reg MODE_FIQ reg MODE_FIQ v Hwf Hr HF Hr HF) as (c2 & Hs2 & _ & HF2).
    rewrite Hs in Hs2; injection Hs2 as <-.
    exists c1; split; [exact Hs | split].
    + rewrite HU, Hget. unfold banked_in.
      replace ((8 <=? reg) && (reg <=? 14)) with true by (symmetry; apply andb_true_iff; split; apply Z.leb_le; lia).
      cbn. rewrite Z.eqb_refl. reflexivity.
    + rewrite HF2. unfold banked_in.
      replace ((8 <=? reg) && (reg <=? 14)) with true by (symmetry; apply andb_true_iff; split; apply Z.leb_le; lia).
      cbn. rewrite Z.eqb_refl. reflexivity.
Qed.

Lemma register_bank_routing_witness :
  cpu_wf cpu_reset_state /\ Forall valid_write c1_writes /\
  (exists c', run_writes cpu_reset_state c1_writes = Ok c' /\
     get_r_in_mode c' 8 MODE_USR = Ok 7).
Proof.
  assert (Hwf : cpu_wf cpu_reset_state) by (repeat split).
  assert (Hws : Forall valid_write c1_writes)
    by (unfold c1_writes, valid_write; repeat constructor; cbn; try lia; tauto).
  split; [exact Hwf | split; [exact Hws |]].
  destruct (register_bank_routing cpu_reset_state c1_writes 8 MODE_USR 0 Hwf Hws
              ltac:(lia) ltac:(cbn; tauto) eq_refl) as [H _].
  exact H.
Defined.

Lemma with_r_proj (c : CPU) (l : list Z) :
  r (with_r c l) = l /\ cpsr (with_r c l) = cpsr c /\ branch_happened (with_r c l) = branch_happened c.
Proof. destruct c; repeat split. Qed.

Lemma with_branch_happened_proj (c : CPU) (b : bool) :
  r (with_branch_happened c b) = r c /\ cpsr (with_branch_happened c b) = cpsr c /\
  branch_happened (with_branch_happened c b) = b.
Proof. destruct c; repeat split. Qed.

Lemma with_cycles_proj (c : CPU) (n : Z) : r (with_cycles c n) = r c.
Proof. destruct c; reflexivity. Qed.

Lemma list_set_get (l l' : list Z) (i x : Z) :
  list_set l i x = Ok l' -> list_get l' i = Ok x.
Proof.
  unfold list_set. destruct ((0 <=? i) && (i <? Z.of_nat (List.length l))) eqn:E; [|discriminate].
  apply andb_true_iff in E as [E1 E2]; apply Z.leb_le in E1; apply Z.ltb_lt in E2.
  intros H; injection H as <-.
  rewrite list_get_replace by lia. rewrite Z.eqb_refl. reflexivity.
Qed.

Lemma advance_pc_spec (c c1 : CPU) (pc : Z) :
  list_get (r c) REGISTER_PC = Ok pc -> advance_pc c = Ok c1 ->
  list_get (r c1) REGISTER_PC = Ok (pc + instruction_len_in_bytes c) /\ cpsr c1 = cpsr c.
Proof.
  intros Hpc. unfold advance_pc. rewrite Hpc; cbn [bind].
  unfold add32. destruct (pc + instruction_len_in_bytes c <=? U32_MAX); [|discriminate]; cbn [bind].
  destruct (list_set (r c) REGISTER_PC (pc + instruction_len_in_bytes c)) as [l|] eqn:Hs; [|discriminate]; cbn [bind].
  intros H; injection H as <-.
  destruct (with_r_proj c l) as (-> & -> & _). split; [|reflexivity].
  exact (list_set_get _ _ _ _ Hs).
Qed.

Lemma retreat_pc_spec (c c1 : CPU) (pc : Z) :
  list_get (r c) REGISTER_PC = Ok pc -> retreat_pc c = Ok c1 ->
  list_get (r c1) REGISTER_PC = Ok (pc - instruction_len_in_bytes c).
Proof.
  intros Hpc. unfold retreat_pc. rewrite Hpc; cbn [bind].
  unfold sub32. destruct (instruction_len_in_bytes c <=? pc); [|discriminate]; cbn [bind].
  destruct (list_set (r c) REGISTER_PC (pc - instruction_len_in_bytes c)) as [l|] eqn:Hs; [|discriminate]; cbn [bind].
  intros H; injection H as <-.
  destruct (with_r_proj c l) as (-> & _ & _).
  exact (list_set_get _ _ _ _ Hs).
Qed.

Lemma instruction_len_cpsr (c c' : CPU) :
  cpsr c' = cpsr c -> instruction_len_in_bytes c' = instruction_len_in_bytes c.
Proof. intros H. unfold instruction_len_in_bytes, get_thumb_state. rewrite H. reflexivity. Qed.

Section CycleProps.
Variable Instr : Type.
Variable decode_arm_instr : Z -> result Instr.
Variable decode_thumb_instr : Z -> Z -> result Instr.
Variable execute : Instr -> CPU -> Memory -> result (CPU * Memory).

Lemma cycle_prepare_spec (c : CPU) (m : Memory) (pc : Z) (st : Stage Instr) :
  list_get (r c) REGISTER_PC = Ok pc ->
  cycle_prepare Instr decode_arm_instr decode_thumb_instr c m = Ok st ->
  match st with
  | Skipped _ c1 => list_get (r c1) REGISTER_PC = Ok (pc + instruction_len_in_bytes c)
  | Decoded _ _ c1 =>
      list_get (r c1) REGISTER_PC = Ok (pc + 2 * instruction_len_in_bytes c) /\
      cpsr c1 = cpsr c
  end.
Proof.
  intros Hpc. unfold cycle_prepare.
  assert (Hadv : forall c1, advance_pc c = Ok c1 ->
            list_get (r c1) REGISTER_PC = Ok (pc + instruction_len_in_bytes c) /\ cpsr c1 = cpsr c)
    by (intros c1; apply advance_pc_spec; exact Hpc).
  destruct (get_thumb_state c).
  - destruct (fetch_thumb c m); [|discriminate]; cbn [bind].
    destruct (advance_pc c) as [c1|] eqn:Ha; [|discriminate]; cbn [bind].
    destruct (Hadv c1 eq_refl) as [Hpc1 Hcpsr1].
    destruct (fetch_thumb c1 m); [|discriminate]; cbn [bind].
    destruct (decode_thumb_instr _ _) as [i|]; [|discriminate]; cbn [bind].
    destruct (advance_pc c1) as [c2|] eqn:Ha2; [|discriminate]; cbn [bind].
    destruct (advance_pc_spec c1 c2 _ Hpc1 Ha2) as [Hpc2 Hcpsr2].
    intros H; injection H as <-.
    destruct (with_branch_happened_proj c2 false) as (-> & -> & _).
    rewrite Hpc2, (instruction_len_cpsr c c1 Hcpsr1), Hcpsr2, Hcpsr1.
    split; [f_equal; ring | reflexivity].
  - destruct (fetch_arm c m); [|discriminate]; cbn [bind].
    destruct (advance_pc c) as [c1|] eqn:Ha; [|discriminate]; cbn [bind].
    destruct (Hadv c1 eq_refl) as [Hpc1 Hcpsr1].
    destruct (Condition_decode_arm _); [|discriminate]; cbn [bind].
    destruct (negb _).
    + cbn [bind]. intros H; injection H as <-. exact Hpc1.
    + destruct (decode_arm_instr _) as [i|]; [|discriminate]; cbn [bind].
      destruct (advance_pc c1) as [c2|] eqn:Ha2; [|discriminate]; cbn [bind].
      destruct (advance_pc_spec c1 c2 _ Hpc1 Ha2) as [Hpc2 Hcpsr2].
      intros H; injection H as <-.
      destruct (with_branch_happened_proj c2 false) as (-> & -> & _).
      rewrite Hpc2, (instruction_len_cpsr c c1 Hcpsr1), Hcpsr2, Hcpsr1.
      split; [f_equal; ring | reflexivity].
Qed.

End CycleProps.

(** C2: PC discipline of [CPU::cycle].  Let [pc] be r15 before the step
    and [w] the instruction width (4 in ARM state, 2 in Thumb state).  A
    step whose executed operation writes no r15 (this includes an ARM
    instruction skipped by its condition) ends with r15 = [pc + w]; and
    while the decoded operation executes, r15 reads as [pc + 2 * w] in
    every mode. *)
Theorem cycle_pc_discipline (Instr : Type) (decode_arm_instr : Z -> result Instr)
  (decode_thumb_instr : Z -> Z -> result Instr)
  (execute : Instr -> CPU -> Memory -> result (CPU * Memory))
  (c : CPU) (m : Memory) (pc : Z)
  (Hpc : list_get (r c) REGISTER_PC = Ok pc) :
  (executed_without_pc_write Instr decode_arm_instr decode_thumb_instr execute c m ->
   forall c' m', cycle Instr decode_arm_instr decode_thumb_instr execute c m = Ok (c', m') ->
   list_get (r c') REGISTER_PC = Ok (pc + instruction_len_in_bytes c)) /\
  (forall i c1, cycle_prepare Instr decode_arm_instr decode_thumb_instr c m = Ok (Decoded Instr i c1) ->
   forall mode, In mode VALID_MODES ->
   get_r_in_mode c1 REGISTER_PC mode = Ok (pc + 2 * instruction_len_in_bytes c)).
Proof.
  split.
  - intros Hnw c' m'. unfold cycle.
    destruct (cycle_prepare Instr decode_arm_instr decode_thumb_instr c m) as [st|] eqn:Hp;
      [|discriminate]; cbn [bind].
    pose proof (cycle_prepare_spec Instr decode_arm_instr decode_thumb_instr c m pc st Hpc Hp) as Hst.
    destruct st as [c1 | i c1].
    + intros H; injection H as <- <-. exact Hst.
    + destruct Hst as [Hpc1 Hcpsr1].
      destruct (execute i c1 m) as [[c2 m2]|] eqn:He; [|discriminate]; cbn [bind].
      destruct (Hnw i c1 c2 m2 Hp He) as (Hpc2 & Hbh2 & Ht2).
      unfold cycle_finish. rewrite Hbh2; cbn [negb].
      destruct (retreat_pc c2) as [c3|] eqn:Hr; [|discriminate]; cbn [bind].
      intros H; injection H as <- <-.
      rewrite with_cycles_proj.
      rewrite Hpc1 in Hpc2.
      rewrite (retreat_pc_spec c2 c3 _ Hpc2 Hr).
      assert (Hl : instruction_len_in_bytes c2 = instruction_len_in_bytes c).
      { unfold instruction_len_in_bytes. rewrite Ht2.
        fold (instruction_len_in_bytes c1). apply instruction_len_cpsr. exact Hcpsr1. }
      rewrite Hl. f_equal. ring.
  - intros i c1 Hp mode Hm.
    destruct (cycle_prepare_spec Instr decode_arm_instr decode_thumb_instr c m pc _ Hpc Hp) as [Hpc1 _].
    unfold VALID_MODES in Hm. cbn [In] in Hm.
    destruct Hm as [<- | [<- | [<- | [<- | [<- | [<- | [<- | []]]]]]]];
      unfold get_r_in_mode; cbn [bank_of_mode MODE_USR MODE_SYS MODE_SVC MODE_ABT MODE_UND MODE_IRQ MODE_FIQ
         Z.eqb Pos.eqb orb bind banked_registers];
      replace ((15 - Z.of_nat _ <=? REGISTER_PC) && (REGISTER_PC <? 15)) with false
        by (unfold REGISTER_PC; rewrite (proj2 (Z.ltb_ge 15 15)) by lia; rewrite andb_false_r; reflexivity);
      exact Hpc1.
Qed.

Lemma cycle_pc_discipline_witness :
  list_get (r cpu_reset_state) REGISTER_PC = Ok 0 /\
  executed_without_pc_write unit nop_decode_arm nop_decode_thumb nop_execute cpu_reset_state nop_mem /\
  (exists c' m', cycle unit nop_decode_arm nop_decode_thumb nop_execute cpu_reset_state nop_mem = Ok (c', m') /\
     list_get (r c') REGISTER_PC = Ok 4) /\
  (exists c1, cycle_prepare unit nop_decode_arm nop_decode_thumb cpu_reset_state nop_mem = Ok (Decoded unit tt c1) /\
     get_r_in_mode c1 REGISTER_PC MODE_USR = Ok 8).
Proof.
  assert (Hpc : list_get (r cpu_reset_state) REGISTER_PC = Ok 0) by reflexivity.
  assert (Hnw : executed_without_pc_write unit nop_decode_arm nop_decode_thumb nop_execute cpu_reset_state nop_mem).
  { intros i c1 c2 m2 Hp He. vm_compute in Hp. injection Hp as <- <-.
    unfold nop_execute in He. injection He as <- <-. split; [reflexivity | split; reflexivity]. }
  destruct (cycle_pc_discipline unit nop_decode_arm nop_decode_thumb nop_execute cpu_reset_state nop_mem 0 Hpc)
    as [H1 H2].
  split; [exact Hpc | split; [exact Hnw | split]].
  - eexists; eexists; split; [vm_compute; reflexivity |].
    eapply (H1 Hnw). vm_compute. reflexivity.
  - eexists; split; [vm_compute; reflexivity |].
    apply (H2 tt). { vm_compute. reflexivity. } cbn; tauto.
Defined.


Lemma shl32_ok (a n : Z) : 0 <= n < 32 -> shl32 a n = Ok (Z.land (Z.shiftl a n) U32_MAX).
Proof. intros Hn. unfold shl32. destruct (Z.ltb_spec n 32); [reflexivity | lia]. Qed.

Lemma testbit_U32_MAX (j : Z) : 0 <= j -> Z.testbit U32_MAX j = (j <? 32).
Proof.
  intros Hj. change U32_MAX with (Z.ones 32). rewrite Z.testbit_ones by lia.
  destruct (Z.leb_spec 0 j); [reflexivity | lia].
Qed.

Lemma testbit_u32_high (w j : Z) : is_u32 w -> 32 <= j -> Z.testbit w j = false.
Proof.
  intros Hw Hj. unfold is_u32, U32_MAX in Hw.
  rewrite <- (Z.mod_small w (2 ^ 32)) by lia.
  rewrite Z.testbit_mod_pow2 by lia. destruct (Z.ltb_spec j 32); [lia | reflexivity].
Qed.

Lemma pow2_u32 (n : Z) : 0 <= n < 32 -> Z.land (Z.shiftl 1 n) U32_MAX = 2 ^ n.
Proof.
  intros Hn. rewrite Z.shiftl_1_l. change U32_MAX with (Z.ones 32).
  rewrite Z.land_ones by lia. apply Z.mod_small. split; [lia|].
  apply Z.pow_lt_mono_r; lia.
Qed.

Lemma get_bits32_ok (w l n : Z) : 0 <= l < 32 -> 0 <= n < 32 ->
  get_bits32 w l n = Ok (Z.shiftr (Z.land w (Z.land (Z.shiftl (Z.ones n) l) U32_MAX)) l).
Proof.
  intros Hl Hn. unfold get_bits32. rewrite shl32_ok by lia; cbn [bind].
  rewrite pow2_u32 by lia. unfold sub32.
  destruct (Z.leb_spec 1 (2 ^ n)); [| pose proof (Z.pow_pos_nonneg 2 n); lia]; cbn [bind].
  rewrite shl32_ok by lia; cbn [bind]. unfold shr32.
  destruct (Z.ltb_spec l 32); [| lia]. rewrite Z.ones_equiv. unfold Z.pred.
  replace (2 ^ n + -1) with (2 ^ n - 1) by ring. reflexivity.
Qed.

Lemma set_bits32_ok (w l n e : Z) : 0 <= l < 32 -> 0 <= n < 32 ->
  set_bits32 w l n e =
    Ok (let mask := Z.land (Z.shiftl (Z.ones n) l) U32_MAX in
        Z.lor (Z.land w (not32 mask)) (Z.land (Z.land (Z.shiftl e l) U32_MAX) mask)).
Proof.
  intros Hl Hn. unfold set_bits32. rewrite shl32_ok by lia; cbn [bind].
  rewrite pow2_u32 by lia. unfold sub32.
  destruct (Z.leb_spec 1 (2 ^ n)); [| pose proof (Z.pow_pos_nonneg 2 n); lia]; cbn [bind].
  rewrite !shl32_ok by lia; cbn [bind]. rewrite Z.ones_equiv. unfold Z.pred.
  replace (2 ^ n + -1) with (2 ^ n - 1) by ring. reflexivity.
Qed.

Lemma testbit_mask (n l j : Z) : 0 <= n -> 0 <= j ->
  Z.testbit (Z.land (Z.shiftl (Z.ones n) l) U32_MAX) j =
  (0 <=? j - l) && (j - l <? n) && (j <? 32).
Proof.
  intros Hn Hj. rewrite Z.land_spec, Z.shiftl_spec, Z.testbit_ones, testbit_U32_MAX by lia.
  reflexivity.
Qed.

Lemma testbit_mask_raw (n l j : Z) : 0 <= n -> 0 <= j ->
  Z.testbit (Z.shiftl (Z.ones n) l) j = (0 <=? j - l) && (j - l <? n).
Proof. intros Hn Hj. rewrite Z.shiftl_spec, Z.testbit_ones by lia. reflexivity. Qed.

Lemma bitfield_round_trip_below32 (w l n : Z) (Hw : is_u32 w) (Hl : 0 <= l < 32) (Hn : 0 <= n < 32)
  (Hln : l + n <= 32) :
  exists e, get_bits32 w l n = Ok e /\ set_bits32 w l n e = Ok w.
Proof.
  rewrite get_bits32_ok by lia. eexists; split; [reflexivity |].
  rewrite set_bits32_ok by lia. cbv zeta. f_equal.
  apply Z.bits_inj'. intros j Hj.
  unfold not32.
  rewrite Z.lor_spec, !Z.land_spec, Z.lxor_spec.
  rewrite testbit_mask by lia.
  rewrite (testbit_U32_MAX j Hj), (testbit_mask_raw n l j) by lia.
  rewrite Z.shiftl_spec by lia.
  destruct (Z.leb_spec 0 (j - l)).
  - rewrite Z.shiftr_spec, Z.land_spec, testbit_mask by lia.
    replace (j - l + l) with j by ring.
    replace (0 <=? j - l) with true by (symmetry; apply Z.leb_le; lia).
    destruct (Z.ltb_spec (j - l) n); destruct (Z.ltb_spec j 32); cbn [andb xorb negb];
      destruct (Z.testbit w j) eqn:E; cbn [andb orb]; try reflexivity.
    all: rewrite testbit_u32_high in E by (assumption || lia); discriminate.
  - cbn [andb]. rewrite !andb_false_r, orb_false_r.
    destruct (Z.ltb_spec j 32); cbn [xorb]; [rewrite andb_true_r; reflexivity |].
    lia.
Qed.

(** C9: bit-field round trip.  For a 32-bit word [w], an lsb [l < 32] and
    a length [n < 32] with [l + n <= 32], extracting the field and
    inserting it back gives [w].  The boundary length [n = 32] is not
    covered: [1u32 << 32] overflows, so [get_bits32 w 0 32] and
    [set_bits32 w 0 32 v] panic. *)
Theorem bitfield_round_trip (w l n v : Z) (Hw : is_u32 w) (Hl : 0 <= l < 32) (Hn : 0 <= n < 32)
  (Hln : l + n <= 32) :
  (exists e, get_bits32 w l n = Ok e /\ set_bits32 w l n e = Ok w) /\
  get_bits32 w 0 32 = Err ShiftOverflow /\ set_bits32 w 0 32 v = Err ShiftOverflow.
Proof.
  split; [exact (bitfield_round_trip_below32 w l n Hw Hl Hn Hln) |].
  split; reflexivity.
Qed.

Lemma bitfield_round_trip_witness :
  is_u32 2864434397 /\
  (exists e, get_bits32 2864434397 8 24 = Ok e /\ set_bits32 2864434397 8 24 e = Ok 2864434397) /\
  get_bits32 2864434397 0 32 = Err ShiftOverflow.
Proof.
  assert (Hw : is_u32 2864434397) by (unfold is_u32, U32_MAX; lia).
  destruct (bitfield_round_trip 2864434397 8 24 0 Hw ltac:(lia) ltac:(lia) ltac:(lia)) as [H1 [H2 _]].
  split; [exact Hw | split; [exact H1 | exact H2]].
Defined.



Lemma add32_ok (a b : Z) : a + b <= U32_MAX -> add32 a b = Ok (a + b).
Proof. intros H. unfold add32. destruct (Z.leb_spec (a + b) U32_MAX); [reflexivity | lia]. Qed.

Ltac bits_eq :=
  apply Z.bits_inj'; intros ?j ?Hj; unfold low_byte;
  change 255 with (Z.ones 8); change 65535 with (Z.ones 16);
  repeat first [ rewrite Z.land_spec | rewrite Z.shiftr_spec by lia | rewrite Z.testbit_ones by lia ];
  zcmp_cases; cbn [andb]; rewrite ?andb_true_r, ?andb_false_r; try reflexivity; try lia;
  f_equal; ring.

Lemma low_byte_mid (v : Z) : low_byte (Z.shiftr (Z.land v 65535) 8) = low_byte (Z.shiftr v 8).
Proof. bits_eq. Qed.
Lemma low_byte_hi (v : Z) : low_byte (Z.land (Z.shiftr v 16) 65535) = low_byte (Z.shiftr v 16).
Proof. bits_eq. Qed.
Lemma low_byte_top (v : Z) :
  low_byte (Z.shiftr (Z.land (Z.shiftr v 16) 65535) 8) = low_byte (Z.shiftr v 24).
Proof. bits_eq. Qed.

Lemma write_u16_bytes (addr v : Z) (m : Memory) : addr + 1 <= U32_MAX ->
  write_u16 addr v m = write_bytes [(addr, low_byte v); (addr + 1, low_byte (Z.shiftr v 8))] m.
Proof.
  intros H. unfold write_u16, write_bytes, bindS, liftS, retS. rewrite add32_ok by exact H.
  destruct (_write_u8 addr (low_byte v) m) as [m1 [[] | p]]; [| reflexivity].
  destruct (_write_u8 (addr + 1) (low_byte (Z.shiftr v 8)) m1) as [m2 [[] | p]]; reflexivity.
Qed.

Lemma write_u32_bytes (addr v : Z) (m : Memory) : addr + 3 <= U32_MAX ->
  write_u32 addr v m =
  write_bytes [(addr, low_byte v); (addr + 1, low_byte (Z.shiftr v 8));
               (addr + 2, low_byte (Z.shiftr v 16)); (addr + 3, low_byte (Z.shiftr v 24))] m.
Proof.
  intros H. unfold write_u32, bindS, liftS.
  rewrite write_u16_bytes by lia. rewrite add32_ok by lia.
  unfold write_bytes, bindS, retS.
  replace (low_byte (Z.land v 65535)) with (low_byte v)
    by (unfold low_byte; rewrite <- Z.land_assoc; reflexivity).
  rewrite low_byte_mid.
  destruct (_write_u8 addr (low_byte v) m) as [m1 [[] | p]]; [| reflexivity].
  destruct (_write_u8 (addr + 1) (low_byte (Z.shiftr v 8)) m1) as [m2 [[] | p]]; [| reflexivity].
  rewrite write_u16_bytes by lia. unfold write_bytes, bindS, retS.
  rewrite low_byte_hi, low_byte_top. replace (addr + 2 + 1) with (addr + 3) by ring.
  destruct (_write_u8 (addr + 2) _ m2) as [m3 [[] | p]]; [| reflexivity].
  destruct (_write_u8 (addr + 3) _ m3) as [m4 [[] | p]]; reflexivity.
Qed.

Lemma write_u8_commits (a b : Z) (m m1 : Memory) :
  _write_u8 a b m = (m1, Ok tt) -> read_u8 m1 a = Ok b.
Proof.
  unfold _write_u8, read_u8, _read_u8.
  destruct (lookup_region memory_map a) as [[[g idx] wr] |]; [| discriminate].
  destruct wr; [| discriminate].
  destruct (vec_set (region_vec m g) idx b) as [v |] eqn:Hs; [| discriminate].
  intros H; injection H as <-.
  unfold vec_set in Hs.
  destruct ((0 <=? idx) && (idx <? vlen (region_vec m g))) eqn:E; [| discriminate].
  injection Hs as <-.
  replace (region_vec (set_region_vec m g _) g) with
    (mkVec (vlen (region_vec m g)) (fun j => if j =? idx then b else vat (region_vec m g) j))
    by (destruct m, g; reflexivity).
  unfold vec_get; cbn [vlen vat]. rewrite E, Z.eqb_refl. reflexivity.
Qed.

Lemma write_u8_failure_commits_nothing (a b : Z) (m m1 : Memory) (p : Panic) :
  _write_u8 a b m = (m1, Err p) -> m1 = m.
Proof.
  unfold _write_u8.
  destruct (lookup_region memory_map a) as [[[g idx] wr] |]; [| congruence].
  destruct wr; [| congruence].
  destruct (vec_set (region_vec m g) idx b); congruence.
Qed.

(** C10: multi-byte stores are not atomic.  [write_u16] and [write_u32]
    are the byte writes of their little-endian bytes in ascending address
    order, run one after the other and stopped by the first failing one; a
    byte write that succeeds is committed (it reads back) and a failing one
    changes nothing, so the lower bytes stay written when a later byte
    fails.  Example: a 16-bit write at 0x040003FE stores its low byte and
    then fails on the unmapped address 0x040003FF. *)
Theorem multibyte_writes_not_atomic (addr v : Z) (Ha : addr + 1 <= U32_MAX) :
  (forall m, write_u16 addr v m =
     write_bytes [(addr, low_byte v); (addr + 1, low_byte (Z.shiftr v 8))] m) /\
  (addr + 3 <= U32_MAX -> forall m, write_u32 addr v m =
     write_bytes [(addr, low_byte v); (addr + 1, low_byte (Z.shiftr v 8));
                  (addr + 2, low_byte (Z.shiftr v 16)); (addr + 3, low_byte (Z.shiftr v 24))] m) /\
  (forall a b m m1, _write_u8 a b m = (m1, Ok tt) -> read_u8 m1 a = Ok b) /\
  (forall a b m m1 p, _write_u8 a b m = (m1, Err p) -> m1 = m) /\
  (let (m1, res) := write_u16 67109886 4660 mem0 in
   res = Err (UnmappedWrite 67109887) /\ read_u8 m1 67109886 = Ok 52).
Proof.
  split; [intros m; apply write_u16_bytes; exact Ha |].
  split; [intros H m; apply write_u32_bytes; exact H |].
  split; [exact write_u8_commits |].
  split; [exact write_u8_failure_commits_nothing |].
  vm_compute. split; reflexivity.
Qed.

Lemma multibyte_writes_not_atomic_witness :
  67109886 + 1 <= U32_MAX /\
  write_u16 67109886 4660 mem0 =
    write_bytes [(67109886, 52); (67109887, 18)] mem0.
Proof.
  assert (H : 67109886 + 1 <= U32_MAX) by (unfold U32_MAX; lia).
  split; [exact H |].
  destruct (multibyte_writes_not_atomic 67109886 4660 H) as [H16 _].
  rewrite H16. reflexivity.
Defined.


Ltac decide_cmps :=
  repeat match goal with
  | |- context [?x <=? ?y] =>
      first [ replace (x <=? y) with true by (symmetry; apply Z.leb_le; lia)
            | replace (x <=? y) with false by (symmetry; apply Z.leb_gt; lia) ]
  | |- context [?x <? ?y] =>
      first [ replace (x <? y) with true by (symmetry; apply Z.ltb_lt; lia)
            | replace (x <? y) with false by (symmetry; apply Z.ltb_ge; lia) ]
  end; cbn [andb].

Lemma lookup_wram2 (a : Z) : 50331648 <= a <= 67108863 ->
  lookup_region memory_map a = Some (Wram2, (a - 50331648) mod WRAM2_LEN, true).
Proof. intros H. unfold memory_map; cbn [lookup_region]. decide_cmps. reflexivity. Qed.

Lemma lookup_vram (a : Z) : 100663296 <= a <= 117440511 ->
  lookup_region memory_map a = Some (Vram, vram_index a 100663296, true).
Proof. intros H. unfold memory_map; cbn [lookup_region]. decide_cmps. reflexivity. Qed.

Lemma read_wram2 (m : Memory) (k : Z) : 0 <= k < 16777216 ->
  read_u8 m (50331648 + k) = vec_get (wram2 m) (k mod 2048).
Proof.
  intros Hk. unfold read_u8, _read_u8. rewrite lookup_wram2 by lia.
  cbn [region_vec]. f_equal. unfold WRAM2_LEN. f_equal. ring.
Qed.

Lemma read_vram (m : Memory) (k : Z) : 0 <= k < 16777216 ->
  read_u8 m (100663296 + k) =
  vec_get (vram m) (if 98304 <=? k mod 131072 then k mod 131072 - 98304 else k mod 131072).
Proof.
  intros Hk. unfold read_u8, _read_u8. rewrite lookup_vram by lia.
  cbn [region_vec]. unfold vram_index, VRAM_LEN.
  replace (100663296 + k - 100663296) with k by ring. reflexivity.
Qed.

(** C6: VRAM mirroring as the code does it.  A read at offset [k] of the
    0x06000000 window reads [vram] at [k mod 0x20000], minus 0x18000 when
    that is 0x18000 or more: the offsets 0x18000..=0x1FFFF fold back onto
    the first 32 KiB of VRAM, so offset 0x18000 + j reads the byte at
    offset j (not at 0x10000 + j). *)
Theorem vram_mirroring (m : Memory) (k : Z) (Hk : 0 <= k < 16777216) :
  read_u8 m (100663296 + k) =
    vec_get (vram m) (if 98304 <=? k mod 131072 then k mod 131072 - 98304 else k mod 131072) /\
  read_u8 m (100663296 + 98304 + k mod 32768) = read_u8 m (100663296 + k mod 32768).
Proof.
  split; [apply read_vram; exact Hk |].
  pose proof (Z.mod_pos_bound k 32768 ltac:(lia)).
  rewrite <- Z.add_assoc, !read_vram by lia.
  rewrite (Z.mod_small (k mod 32768) 131072), (Z.mod_small (98304 + k mod 32768) 131072) by lia.
  decide_cmps. f_equal. ring.
Qed.

(** The byte stored at offset 0 of VRAM is read back at offset 0x18000,
    while offset 0x10000 still reads 0. *)
Lemma vram_mirror_counterexample :
  let m := fst (write_u16 100663296 171 mem0) in
  read_u8 m 100761600 = Ok 171 /\ read_u8 m 100728832 = Ok 0.
Proof. vm_compute. split; reflexivity. Qed.

(** C7: on-chip WRAM.  A read at offset [k] of the 0x03000000 window reads
    [wram2] at [k mod 0x800]: the region is 2 KiB long (WRAM2_LEN = 0x800),
    so a byte written at offset 0 is read back at offset 0x800 already. *)
Theorem wram2_mirroring (m : Memory) (k : Z) (Hk : 0 <= k < 16777216) :
  read_u8 m (50331648 + k) = vec_get (wram2 m) (k mod 2048) /\
  vlen (wram2 mem0) = 2048 /\
  (let m1 := fst (write_u8 50331648 1 mem0) in
   read_u8 m1 50333696 = Ok 1 /\ read_u8 m1 50364416 = Ok 1).
Proof.
  split; [apply read_wram2; exact Hk |]. split; [reflexivity |].
  vm_compute. split; reflexivity.
Qed.

(** C5: a word load (LDR) stores in the destination register the word
    [read_u32] returns at the effective address, whatever the address's two
    low bits: no rotation is applied to a misaligned word. *)
Theorem ldr_word_unrotated (x : LoadStore) (c c1 : CPU) (m : Memory) (address w : Z)
  (Hop : opcode x = LDR) (Hlen : length x = Word) (Hd : d x <> 15)
  (Ham : AddressingMode_execute (adressing_mode x) c = Ok (address, c1))
  (Hrd : read_u32 m address = Ok w) :
  LoadStore_execute x c m = (c2 <- set_r c1 (d x) w ;; Ok (c2, m)).
Proof.
  unfold LoadStore_execute.
  destruct (Z.eqb_spec (d x) 15) as [E | _]; [contradiction |].
  rewrite Ham; cbn [bind]. rewrite Hop, Hlen, Hrd. reflexivity.
Qed.


Lemma ldr_word_unrotated_witness :
  exists x c1, LoadStore_decode_arm ldr_r0_r1 = Ok x /\
    AddressingMode_execute (adressing_mode x) ldr_cpu = Ok (50331649, c1) /\
    read_u32 ldr_mem 50331649 = Ok 1430532898 /\
    (exists c2, LoadStore_execute x ldr_cpu ldr_mem = Ok (c2, ldr_mem) /\
       get_r c2 0 = Ok 1430532898) /\
    rotate_right32 1430532898 8 = 576013363.
Proof.
  eexists; eexists. split; [vm_compute; reflexivity |]. split; [vm_compute; reflexivity |].
  assert (Hrd : read_u32 ldr_mem 50331649 = Ok 1430532898) by (vm_compute; reflexivity).
  split; [exact Hrd |]. split; [| vm_compute; reflexivity].
  match goal with
  | |- exists c2, LoadStore_execute ?x _ _ = _ /\ _ =>
      rewrite (ldr_word_unrotated x ldr_cpu _ ldr_mem 50331649 1430532898 eq_refl eq_refl
                 ltac:(vm_compute; discriminate) ltac:(vm_compute; reflexivity) Hrd)
  end.
  eexists; split; [vm_compute; reflexivity | vm_compute; reflexivity].
Defined.

Lemma cpsr_with_cpsr (c : CPU) (v : Z) : cpsr (with_cpsr c v) = v.
Proof. destruct c; reflexivity. Qed.

Lemma masked_update_bit (old op mask i : Z) : 0 <= i < 32 -> Z.testbit mask i = false ->
  Z.testbit (Z.lor (Z.land old (not32 mask)) (Z.land op mask)) i = Z.testbit old i.
Proof.
  intros Hi Hm. unfold not32.
  rewrite Z.lor_spec, !Z.land_spec, Z.lxor_spec, Hm.
  change U32_MAX with (Z.ones 32). rewrite Z.testbit_ones by lia.
  replace ((0 <=? i) && (i <? 32)) with true
    by (symmetry; apply andb_true_iff; split; [apply Z.leb_le | apply Z.ltb_lt]; lia).
  cbn [xorb]. rewrite andb_true_r, andb_false_r, orb_false_r. reflexivity.
Qed.

Lemma testbit_USER_MASK_low (i : Z) : i < 28 -> Z.testbit USER_MASK i = false.
Proof.
  intros Hi. change USER_MASK with (Z.shiftl 15 28).
  destruct (Z.leb_spec 0 i).
  - apply Z.shiftl_spec_low. exact Hi.
  - apply Z.testbit_neg_r. lia.
Qed.

Lemma testbit_PRIV_MASK_high (i : Z) : 4 <= i -> Z.testbit PRIV_MASK i = false.
Proof.
  intros Hi. change PRIV_MASK with (Z.ones 4). rewrite Z.testbit_ones by lia.
  destruct (Z.ltb_spec i 4); [lia |]. apply andb_false_r.
Qed.

(** C8: MSR rules.  Let [op] be the operand and [md] the current mode.
    Reserved bits (0x0FFFFF00) in [op] are an error.  Writing CPSR in USR
    mode never fails and changes no bit below 28 (only the flags can
    change; the T bit of [op] is ignored).  Writing CPSR in a privileged
    mode fails when [op] has the T bit, and otherwise changes neither the
    T bit nor bits 8..27.  Writing SPSR in USR or SYS mode is an error. *)
Theorem msr_privilege_rules (x : Msr) (c : CPU) (op md : Z)
  (Hop : match msr_mode x with MsrImmediate imm => Ok imm | MsrRegister m => get_r c m end = Ok op)
  (Hmd : get_mode c = Ok md) :
  (Z.land op UNALLOC_MASK <> 0 -> Msr_execute x c = Err ReservedBits) /\
  (Z.land op UNALLOC_MASK = 0 -> msr_r x = false -> md = MODE_USR ->
     exists c', Msr_execute x c = Ok c' /\
       forall i, 0 <= i < 28 -> Z.testbit (cpsr c') i = Z.testbit (cpsr c) i) /\
  (Z.land op UNALLOC_MASK = 0 -> msr_r x = false -> md <> MODE_USR ->
     Z.land op STATE_MASK <> 0 -> Msr_execute x c = Err NonArmState) /\
  (Z.land op UNALLOC_MASK = 0 -> msr_r x = false -> md <> MODE_USR ->
     Z.land op STATE_MASK = 0 ->
     exists c', Msr_execute x c = Ok c' /\
       forall i, (8 <= i < 28 \/ i = 5) -> Z.testbit (cpsr c') i = Z.testbit (cpsr c) i) /\
  (Z.land op UNALLOC_MASK = 0 -> msr_r x = true -> (md = MODE_USR \/ md = MODE_SYS) ->
     Msr_execute x c = Err SpsrInUserOrSystem).
Proof.
  assert (Hx : Msr_execute x c =
    if negb (Z.land op UNALLOC_MASK =? 0) then Err ReservedBits
    else
      let mask := byte_mask (field_mask x) in
      if negb (msr_r x) then
        priv <- Ok (negb (md =? MODE_USR)) ;;
        mask <- (if priv then
                   if negb (Z.land op STATE_MASK =? 0) then Err NonArmState
                   else Ok (Z.land mask (Z.lor USER_MASK PRIV_MASK))
                 else Ok (Z.land mask USER_MASK)) ;;
        Ok (with_cpsr c (Z.lor (Z.land (cpsr c) (not32 mask)) (Z.land op mask)))
      else
        has_spsr <- Ok (negb (md =? MODE_USR) && negb (md =? MODE_SYS)) ;;
        if has_spsr then
          let mask := Z.land mask (Z.lor USER_MASK (Z.lor PRIV_MASK STATE_MASK)) in
          spsr <- get_spsr c ;;
          set_spsr c (Z.lor (Z.land spsr (not32 mask)) (Z.land op mask))
        else Err SpsrInUserOrSystem).
  { unfold Msr_execute, in_a_privileged_mode, current_mode_has_spsr.
    rewrite Hop; cbn [bind]. rewrite Hmd. reflexivity. }
  rewrite Hx; clear Hx.
  split; [| split; [| split; [| split]]].
  - intros H. apply Z.eqb_neq in H. rewrite H. reflexivity.
  - intros H Hr ->. apply Z.eqb_eq in H. rewrite H, Hr. cbn [negb bind Z.eqb MODE_USR Pos.eqb].
    eexists; split; [reflexivity |]. intros i Hi. rewrite cpsr_with_cpsr.
    apply masked_update_bit; [lia |].
    rewrite Z.land_spec, testbit_USER_MASK_low by lia. apply andb_false_r.
  - intros H Hr Hm Hs. apply Z.eqb_eq in H. apply Z.eqb_neq in Hm. apply Z.eqb_neq in Hs.
    rewrite H, Hr, Hm, Hs. reflexivity.
  - intros H Hr Hm Hs. apply Z.eqb_eq in H. apply Z.eqb_neq in Hm. apply Z.eqb_eq in Hs.
    rewrite H, Hr, Hm, Hs. cbn [negb bind].
    eexists; split; [reflexivity |]. intros i Hi. rewrite cpsr_with_cpsr.
    apply masked_update_bit; [lia |].
    rewrite Z.land_spec, Z.lor_spec, testbit_USER_MASK_low, testbit_PRIV_MASK_high by lia.
    apply andb_false_r.
  - intros H Hr [-> | ->]; apply Z.eqb_eq in H; rewrite H, Hr; reflexivity.
Qed.


(** An MSR CPSR_fc, #0x20 executed in USR mode completes without error and
    leaves the T bit clear. *)
Lemma msr_t_bit_counterexample :
  exists c', Msr_execute msr_set_t msr_usr_cpu = Ok c' /\ get_thumb_state c' = false.
Proof. eexists; split; [vm_compute; reflexivity | vm_compute; reflexivity]. Qed.

Lemma vram_mirroring_witness :
  0 <= 98304 < 16777216 /\ read_u8 mem0 (100663296 + 98304 + 98304 mod 32768) = read_u8 mem0 100663296.
Proof.
  assert (Hk : 0 <= 98304 < 16777216) by lia. split; [exact Hk |].
  destruct (vram_mirroring mem0 98304 Hk) as [_ H]. rewrite H. reflexivity.
Defined.

Lemma wram2_mirroring_witness :
  0 <= 2048 < 16777216 /\ read_u8 mem0 (50331648 + 2048) = vec_get (wram2 mem0) 0.
Proof.
  assert (Hk : 0 <= 2048 < 16777216) by lia. split; [exact Hk |].
  destruct (wram2_mirroring mem0 2048 Hk) as [H _]. rewrite H. reflexivity.
Defined.

Lemma msr_privilege_rules_witness :
  get_mode msr_usr_cpu = Ok MODE_USR /\
  exists c', Msr_execute msr_set_t msr_usr_cpu = Ok c' /\
    forall i, 0 <= i < 28 -> Z.testbit (cpsr c') i = Z.testbit (cpsr msr_usr_cpu) i.
Proof.
  assert (Hmd : get_mode msr_usr_cpu = Ok MODE_USR) by (vm_compute; reflexivity).
  split; [exact Hmd |].
  destruct (msr_privilege_rules msr_set_t msr_usr_cpu 32 MODE_USR eq_refl Hmd) as (_ & H & _).
  apply H; [reflexivity | reflexivity | reflexivity].
Defined.

(** ** Further properties of the core *)

Ltac bit_rewrites :=
  unfold not32 in *;
  repeat first [ rewrite testbit_mask by lia
               | rewrite Z.lor_spec | rewrite Z.land_spec | rewrite Z.lxor_spec
               | rewrite Z.shiftr_spec by lia | rewrite Z.shiftl_spec by lia
               | rewrite testbit_U32_MAX by lia | rewrite Z.testbit_mod_pow2 by lia ].

Ltac bit_finish :=
  zcmp_cases;
  repeat match goal with |- context [Z.testbit ?x ?k] => destruct (Z.testbit x k) end;
  cbn [andb orb xorb negb]; try reflexivity; try lia.

Lemma set_bits32_field (w l n v : Z) (Hw : is_u32 w) (Hl : 0 <= l < 32) (Hn : 0 <= n < 32)
  (Hln : l + n <= 32) :
  exists w', set_bits32 w l n v = Ok w' /\ get_bits32 w' l n = Ok (v mod 2 ^ n) /\
    forall j, 0 <= j -> j < l \/ l + n <= j -> Z.testbit w' j = Z.testbit w j.
Proof.
  rewrite set_bits32_ok by lia. cbv zeta. eexists; split; [reflexivity |].
  split.
  - rewrite get_bits32_ok by lia. f_equal.
    apply Z.bits_inj'. intros j Hj.
    bit_rewrites. replace (j + l - l) with j by ring. bit_finish.
  - intros j Hj Hout. bit_rewrites.
    destruct (Z.ltb_spec j 32).
    + bit_finish.
    + rewrite (testbit_u32_high w j Hw) by lia. bit_finish.
Qed.

Lemma testbit_one_shift (i j : Z) : 0 <= i -> 0 <= j -> Z.testbit (Z.shiftl 1 i) j = (i =? j).
Proof.
  intros Hi Hj. rewrite Z.shiftl_1_l. apply Z.pow2_bits_eqb. exact Hi.
Qed.

Lemma get_bit_testbit (x j : Z) : 0 <= j -> get_bit x j = Z.testbit x j.
Proof.
  intros Hj. unfold get_bit.
  destruct (Z.testbit x j) eqn:E.
  - destruct (Z.eqb_spec (Z.land x (Z.shiftl 1 j)) 0) as [H | H]; [| reflexivity].
    exfalso. assert (Z.testbit (Z.land x (Z.shiftl 1 j)) j = false) as H' by (rewrite H; apply Z.bits_0).
    rewrite Z.land_spec, E, testbit_one_shift, Z.eqb_refl in H' by lia. discriminate.
  - replace (Z.land x (Z.shiftl 1 j)) with 0; [reflexivity |].
    apply Z.bits_inj'. intros k Hk. rewrite Z.bits_0, Z.land_spec, testbit_one_shift by lia.
    destruct (Z.eqb_spec j k) as [<- | _]; rewrite ?andb_false_r, ?andb_true_r, ?E; reflexivity.
Qed.

Lemma get_set_bit (d i j : Z) (v : bool) : 0 <= i < 32 -> 0 <= j < 32 ->
  get_bit (set_bit32 d i v) j = if i =? j then v else get_bit d j.
Proof.
  intros Hi Hj. rewrite !get_bit_testbit by lia. unfold set_bit32, not32.
  destruct v; rewrite ?Z.lor_spec, ?Z.land_spec, ?Z.lxor_spec, testbit_one_shift, ?testbit_U32_MAX by lia;
  destruct (Z.eqb_spec i j); destruct (Z.testbit d j); zcmp_cases; cbn; try reflexivity; lia.
Qed.

Lemma testbit_set_bit32 (w i j : Z) (v : bool) : 0 <= i < 32 -> 0 <= j < 32 ->
  Z.testbit (set_bit32 w i v) j = if i =? j then v else Z.testbit w j.
Proof. intros Hi Hj. rewrite <- !get_bit_testbit by lia. apply get_set_bit; lia. Qed.

Lemma get_mode_bits (c c' : CPU) :
  (forall j, 0 <= j < 5 -> Z.testbit (cpsr c') j = Z.testbit (cpsr c) j) ->
  get_mode c' = get_mode c.
Proof.
  intros H. unfold get_mode. rewrite !get_bits32_ok by lia. f_equal. f_equal.
  apply Z.bits_inj'. intros j Hj. rewrite !Z.land_spec, testbit_mask_raw, testbit_U32_MAX by lia.
  destruct (Z.ltb_spec (j - 0) 5); [rewrite H by lia; reflexivity |].
  rewrite !andb_false_r. reflexivity.
Qed.

Lemma set_bit32_cpu (c : CPU) (i : Z) (v : bool) : 5 < i < 32 ->
  let c' := with_cpsr c (set_bit32 (cpsr c) i v) in
  (forall j, 0 <= j < 32 -> get_bit (cpsr c') j = if i =? j then v else get_bit (cpsr c) j) /\
  get_mode c' = get_mode c.
Proof.
  intros Hi c'. subst c'. split.
  - intros j Hj. rewrite cpsr_with_cpsr. apply get_set_bit; lia.
  - apply get_mode_bits. intros j Hj. rewrite cpsr_with_cpsr, testbit_set_bit32 by lia.
    destruct (Z.eqb_spec i j); [lia | reflexivity].
Qed.

(** X6: Each of [set_negative_flag], [set_zero_flag], [set_carry_flag] and
    [set_overflow_flag] sets its own flag to the given value and leaves the
    other three flags, the T bit and the mode as they were. *)
Theorem flag_setters_frame (c : CPU) (v : bool) :
  let flags c := (get_negative_flag c, get_zero_flag c, get_carry_flag c, get_overflow_flag c,
                  get_thumb_state c, get_mode c) in
  flags (set_negative_flag c v) =
    (v, get_zero_flag c, get_carry_flag c, get_overflow_flag c, get_thumb_state c, get_mode c) /\
  flags (set_zero_flag c v) =
    (get_negative_flag c, v, get_carry_flag c, get_overflow_flag c, get_thumb_state c, get_mode c) /\
  flags (set_carry_flag c v) =
    (get_negative_flag c, get_zero_flag c, v, get_overflow_flag c, get_thumb_state c, get_mode c) /\
  flags (set_overflow_flag c v) =
    (get_negative_flag c, get_zero_flag c, get_carry_flag c, v, get_thumb_state c, get_mode c).
Proof.
  intros flags. subst flags. cbv beta.
  unfold set_negative_flag, set_zero_flag, set_carry_flag, set_overflow_flag,
    get_negative_flag, get_zero_flag, get_carry_flag, get_overflow_flag, get_thumb_state.
  repeat split;
    [ destruct (set_bit32_cpu c 31 v ltac:(lia)) as [Hb Hm]
    | destruct (set_bit32_cpu c 30 v ltac:(lia)) as [Hb Hm]
    | destruct (set_bit32_cpu c 29 v ltac:(lia)) as [Hb Hm]
    | destruct (set_bit32_cpu c 28 v ltac:(lia)) as [Hb Hm] ];
    rewrite !Hb by lia; rewrite Hm; reflexivity.
Qed.

Lemma set_bits32_get (w l n v : Z) (Hl : 0 <= l < 32) (Hn : 0 <= n < 32) (Hln : l + n <= 32) :
  exists w', set_bits32 w l n v = Ok w' /\ get_bits32 w' l n = Ok (v mod 2 ^ n) /\
    forall j, 0 <= j < 32 -> (j < l \/ l + n <= j) -> Z.testbit w' j = Z.testbit w j.
Proof.
  rewrite set_bits32_ok by lia. cbv zeta. eexists; split; [reflexivity |].
  split.
  - rewrite get_bits32_ok by lia. f_equal.
    apply Z.bits_inj'. intros j Hj.
    bit_rewrites. replace (j + l - l) with j by ring. bit_finish.
  - intros j Hj Hout. bit_rewrites. bit_finish.
Qed.

Lemma with_cpsr_cpsr (c : CPU) : with_cpsr c (cpsr c) = c.
Proof. destruct c; reflexivity. Qed.

Lemma with_cpsr_twice (c : CPU) (a b : Z) : with_cpsr (with_cpsr c a) b = with_cpsr c b.
Proof. destruct c; reflexivity. Qed.

Lemma set_mode_spec (c : CPU) (v : Z) :
  exists w, set_mode c v = Ok (with_cpsr c w) /\ get_mode (with_cpsr c w) = Ok (v mod 32) /\
    forall j, 5 <= j < 32 -> Z.testbit w j = Z.testbit (cpsr c) j.
Proof.
  destruct (set_bits32_get (cpsr c) 0 5 v ltac:(lia) ltac:(lia) ltac:(lia)) as (w & Hs & Hg & Hb).
  exists w. unfold set_mode. rewrite Hs. cbn [bind]. split; [reflexivity |]. split.
  - unfold get_mode. rewrite cpsr_with_cpsr, Hg. reflexivity.
  - intros j Hj. apply Hb; lia.
Qed.

(** X7: [set_mode] then [get_mode].  On a CPU whose CPSR is a 32-bit value,
    [set_mode c v] succeeds, [get_mode] then returns [v mod 32], CPSR bits 5
    and up are unchanged, and no field other than the CPSR changes. *)
Theorem set_mode_round_trip (c : CPU) (v : Z) (Hc : is_u32 (cpsr c)) :
  exists c', set_mode c v = Ok c' /\ get_mode c' = Ok (v mod 32) /\
    (forall j, 5 <= j -> Z.testbit (cpsr c') j = Z.testbit (cpsr c) j) /\
    c' = with_cpsr c (cpsr c').
Proof.
  destruct (set_bits32_field (cpsr c) 0 5 v Hc ltac:(lia) ltac:(lia) ltac:(lia)) as (w & Hs & Hg & Hb).
  exists (with_cpsr c w). unfold set_mode. rewrite Hs. cbn [bind].
  split; [reflexivity |]. split; [| split].
  - unfold get_mode. rewrite cpsr_with_cpsr, Hg. reflexivity.
  - intros j Hj. rewrite cpsr_with_cpsr. apply Hb; lia.
  - rewrite cpsr_with_cpsr. reflexivity.
Qed.

Lemma list_get_replace_other (l : list Z) (i j x : Z) :
  0 <= i < Z.of_nat (List.length l) -> j <> i ->
  list_get (replace_nth l (Z.to_nat i) x) j = list_get l j.
Proof.
  intros Hi Hj. destruct (Z.ltb_spec j 0).
  - unfold list_get. destruct (Z.ltb_spec j 0); [reflexivity | lia].
  - rewrite list_get_replace by lia. destruct (Z.eqb_spec i j); [lia | reflexivity].
Qed.

(** X8: [reset] on a CPU with 16 registers succeeds and leaves SVC mode, ARM
    state, FIQ and IRQ disabled, r15 = 0, the four condition flags as they
    were, every other entry of [r] unchanged, and no field other than the
    CPSR and [r] changed. *)
Theorem reset_postconditions (c : CPU) (Hr : List.length (r c) = 16%nat) :
  exists c', reset c = Ok c' /\
    get_mode c' = Ok MODE_SVC /\ get_thumb_state c' = false /\
    get_fiq_disable c' = true /\ get_irq_disable c' = true /\
    get_negative_flag c' = get_negative_flag c /\ get_zero_flag c' = get_zero_flag c /\
    get_carry_flag c' = get_carry_flag c /\ get_overflow_flag c' = get_overflow_flag c /\
    list_get (r c') REGISTER_PC = Ok 0 /\
    (forall k, k <> REGISTER_PC -> list_get (r c') k = list_get (r c) k) /\
    c' = with_r (with_cpsr c (cpsr c')) (r c').
Proof.
  destruct (set_mode_spec c MODE_SVC) as (w & Hs & Hg & Hb).
  unfold reset. rewrite Hs. cbn [bind].
  set (c2 := set_irq_disable (set_fiq_disable (set_thumb_state (with_cpsr c w) false) true) true).
  assert (Hc2 : c2 = with_cpsr c (set_bit32 (set_bit32 (set_bit32 w 5 false) 6 true) 7 true)).
  { subst c2. unfold set_irq_disable, set_fiq_disable, set_thumb_state.
    rewrite !cpsr_with_cpsr, !with_cpsr_twice. reflexivity. }
  assert (Hr2 : r c2 = r c) by (rewrite Hc2; destruct c; reflexivity).
  rewrite Hr2, list_set_in_range by (rewrite Hr; unfold REGISTER_PC; lia). cbn [bind].
  eexists; split; [reflexivity |].
  set (W := set_bit32 (set_bit32 (set_bit32 w 5 false) 6 true) 7 true) in Hc2.
  assert (HW : forall j, 0 <= j < 32 -> Z.testbit W j =
    if j =? 7 then true else if j =? 6 then true else if j =? 5 then false else Z.testbit w j).
  { intros j Hj. subst W. rewrite !testbit_set_bit32 by lia.
    destruct (Z.eqb_spec 7 j), (Z.eqb_spec j 7), (Z.eqb_spec 6 j), (Z.eqb_spec j 6),
      (Z.eqb_spec 5 j), (Z.eqb_spec j 5); try lia; reflexivity. }
  destruct (with_r_proj c2 (replace_nth (r c) (Z.to_nat REGISTER_PC) 0)) as (Er & Ec & _).
  assert (Ecp : cpsr (with_r c2 (replace_nth (r c) (Z.to_nat REGISTER_PC) 0)) = W)
    by (rewrite Ec, Hc2, cpsr_with_cpsr; reflexivity).
  unfold get_thumb_state, get_fiq_disable, get_irq_disable, get_negative_flag, get_zero_flag,
    get_carry_flag, get_overflow_flag.
  rewrite Ecp, Er, !get_bit_testbit, !HW by lia.
  split; [| split; [reflexivity | split; [reflexivity | split; [reflexivity |]]]].
  { erewrite get_mode_bits; [rewrite Hg; reflexivity |].
    rewrite Ecp, cpsr_with_cpsr. intros j Hj.
    rewrite HW by lia. destruct (Z.eqb_spec j 7), (Z.eqb_spec j 6), (Z.eqb_spec j 5); try lia.
    reflexivity. }
  cbn [Z.eqb Pos.eqb]. rewrite !Hb by lia.
  split; [reflexivity | split; [reflexivity | split; [reflexivity | split; [reflexivity |]]]].
  split; [| split].
  - rewrite list_get_replace by (rewrite ?Hr; unfold REGISTER_PC; lia). reflexivity.
  - intros k Hk. apply list_get_replace_other; [rewrite Hr; unfold REGISTER_PC; lia | exact Hk].
  - rewrite Hc2. destruct c; reflexivity.
Qed.

Lemma get_mode_cpsr (c c' : CPU) : cpsr c' = cpsr c -> get_mode c' = get_mode c.
Proof. intros H. unfold get_mode. rewrite H. reflexivity. Qed.

(** X9: SPSR access.  In SVC, ABT, UND, IRQ or FIQ mode, [set_spsr c v]
    succeeds, [get_spsr] then returns [v], the CPSR and [r] are unchanged,
    and after switching to any other mode [get_spsr] reads the same as
    without the write; in any other mode both [get_spsr] and [set_spsr]
    panic with [InvalidMode]. *)
Theorem spsr_banked (c : CPU) (md v : Z) (Hmd : get_mode c = Ok md) :
  (In md [MODE_SVC; MODE_ABT; MODE_UND; MODE_IRQ; MODE_FIQ] ->
     exists c', set_spsr c v = Ok c' /\ get_spsr c' = Ok v /\
       cpsr c' = cpsr c /\ r c' = r c /\
       forall md2, 0 <= md2 < 32 -> md2 <> md ->
         exists c2 c2', set_mode c md2 = Ok c2 /\ set_mode c' md2 = Ok c2' /\
           get_spsr c2' = get_spsr c2) /\
  (~ In md [MODE_SVC; MODE_ABT; MODE_UND; MODE_IRQ; MODE_FIQ] ->
     get_spsr c = Err InvalidMode /\ set_spsr c v = Err InvalidMode).
Proof.
  split.
  - intros Hin.
    assert (Hset : exists c', set_spsr c v = Ok c' /\ cpsr c' = cpsr c /\ r c' = r c /\
              r_svc c' = r_svc c /\ r_abt c' = r_abt c /\ r_und c' = r_und c /\
              r_irq c' = r_irq c /\ r_fiq c' = r_fiq c /\
              branch_happened c' = branch_happened c /\ cycles c' = cycles c /\
              forall md2, md2 <> md ->
                (if md2 =? MODE_SVC then spsr_svc c' else if md2 =? MODE_ABT then spsr_abt c'
                 else if md2 =? MODE_UND then spsr_und c' else if md2 =? MODE_IRQ then spsr_irq c'
                 else if md2 =? MODE_FIQ then spsr_fiq c' else 0) =
                (if md2 =? MODE_SVC then spsr_svc c else if md2 =? MODE_ABT then spsr_abt c
                 else if md2 =? MODE_UND then spsr_und c else if md2 =? MODE_IRQ then spsr_irq c
                 else if md2 =? MODE_FIQ then spsr_fiq c else 0)).
    { unfold set_spsr. rewrite Hmd. cbn [bind]. destruct c.
      cbn [In] in Hin. unfold MODE_SVC, MODE_ABT, MODE_UND, MODE_IRQ, MODE_FIQ in *.
      destruct Hin as [<- | [<- | [<- | [<- | [<- | []]]]]]; cbn [Z.eqb Pos.eqb];
        eexists; (split; [reflexivity |]); cbn;
        repeat (split; [reflexivity |]); intros md2 Hne;
        repeat match goal with |- context [md2 =? ?k] => destruct (Z.eqb_spec md2 k) end;
        try reflexivity; lia. }
    destruct Hset as (c' & Hs & Hcp & Hr & Hsvc & Habt & Hund & Hirq & Hfiq & Hbh & Hcy & Hsp).
    exists c'. split; [exact Hs | split; [| split; [exact Hcp | split; [exact Hr |]]]].
    + unfold set_spsr in Hs. unfold get_spsr. rewrite (get_mode_cpsr c c' Hcp), Hmd.
      rewrite Hmd in Hs. cbn [bind] in *. destruct c.
      cbn [In] in Hin. unfold MODE_SVC, MODE_ABT, MODE_UND, MODE_IRQ, MODE_FIQ in *.
      destruct Hin as [<- | [<- | [<- | [<- | [<- | []]]]]]; cbn [Z.eqb Pos.eqb] in *;
        injection Hs as <-; reflexivity.
    + intros md2 Hmd2 Hne.
      destruct (set_mode_spec c md2) as (w & Hm & Hg & _).
      destruct (set_mode_spec c' md2) as (w' & Hm' & Hg' & _).
      assert (Ew : w' = w).
      { unfold set_mode in Hm, Hm'. rewrite Hcp in Hm'.
        destruct (set_bits32 (cpsr c) 0 5 md2); [| discriminate].
        cbn [bind] in Hm, Hm'. injection Hm as Hm. injection Hm' as Hm'.
        rewrite <- (cpsr_with_cpsr c w), <- (cpsr_with_cpsr c' w'), <- Hm, <- Hm'.
        rewrite !cpsr_with_cpsr. reflexivity. }
      subst w'. exists (with_cpsr c w), (with_cpsr c' w).
      split; [exact Hm | split; [exact Hm' |]].
      rewrite Z.mod_small in Hg, Hg' by lia.
      unfold get_spsr. rewrite Hg, Hg'. cbn [bind].
      pose proof (Hsp md2 Hne) as E.
      destruct c, c'; cbn in E |- *.
      repeat match goal with |- context [md2 =? ?k] => destruct (md2 =? k) end;
        cbn in E; congruence.
  - intros Hnin. unfold get_spsr, set_spsr. rewrite Hmd. cbn [bind]. destruct c.
    cbn [In] in Hnin. unfold MODE_SVC, MODE_ABT, MODE_UND, MODE_IRQ, MODE_FIQ in *.
    repeat match goal with |- context [md =? ?k] => destruct (Z.eqb_spec md k) end;
      try (exfalso; apply Hnin; lia); split; reflexivity.
Qed.

Lemma bank_of_mode_valid (mode : Z) :
  (In mode VALID_MODES -> exists b, bank_of_mode mode = Ok b) /\
  (~ In mode VALID_MODES -> bank_of_mode mode = Err InvalidMode).
Proof.
  unfold VALID_MODES, bank_of_mode, MODE_USR, MODE_FIQ, MODE_IRQ, MODE_SVC, MODE_ABT, MODE_UND,
    MODE_SYS. cbn [In]. split.
  - intros H. repeat destruct H as [<- | H]; try contradiction; eexists; reflexivity.
  - intros H. repeat match goal with |- context [mode =? ?k] => destruct (Z.eqb_spec mode k) end;
      cbn [orb]; try reflexivity; exfalso; apply H; lia.
Qed.

Lemma list_set_length (l l' : list Z) (i x : Z) :
  list_set l i x = Ok l' -> List.length l' = List.length l.
Proof.
  unfold list_set. destruct ((0 <=? i) && (i <? Z.of_nat (List.length l))); [| discriminate].
  intros H; injection H as <-. apply length_replace.
Qed.

Lemma set_r_in_mode_spec (c c' : CPU) (reg mode v : Z)
  (H : set_r_in_mode c reg mode v = Ok c') :
  get_r_in_mode c' reg mode = Ok v /\ cpsr c' = cpsr c /\
  branch_happened c' = (reg =? REGISTER_PC) || branch_happened c.
Proof.
  unfold set_r_in_mode in H. unfold get_r_in_mode.
  destruct (bank_of_mode mode) as [b |] eqn:Hb; [| discriminate]. cbn [bind] in H |- *.
  set (banked := banked_registers c b) in H.
  destruct ((15 - Z.of_nat (List.length banked) <=? reg) && (reg <? 15)) eqn:E.
  - destruct (list_set banked (reg - (15 - Z.of_nat (List.length banked))) v) as [l |] eqn:Hs;
      [| discriminate]. cbn [bind] in H.
    assert (Hl : List.length l = List.length banked).
    { exact (list_set_length _ _ _ _ Hs). }
    assert (Hc1 : banked_registers (with_banked_registers c b l) b = l /\
                  cpsr (with_banked_registers c b l) = cpsr c /\
                  branch_happened (with_banked_registers c b l) = branch_happened c).
    { destruct b.
      - exfalso. subst banked. cbn in E. destruct (Z.leb_spec 15 reg), (Z.ltb_spec reg 15);
          cbn in E; try discriminate; lia.
      - destruct c; repeat split.
      - destruct c; repeat split.
      - destruct c; repeat split.
      - destruct c; repeat split.
      - destruct c; repeat split. }
    destruct Hc1 as (Hbk & Hcp & Hbh).
    destruct (Z.eqb_spec reg REGISTER_PC) as [-> | Hne].
    + exfalso. unfold REGISTER_PC in E. rewrite andb_false_r in E. discriminate.
    + injection H as <-. rewrite Hbk, Hl, E. split; [exact (list_set_get _ _ _ _ Hs) |]. split; [exact Hcp |].
      rewrite Hbh. reflexivity.
  - destruct (list_set (r c) reg v) as [l |] eqn:Hs; [| discriminate]. cbn [bind] in H.
    destruct (with_r_proj c l) as (Er & Ec & Eb).
    assert (Hbk : banked_registers (with_r c l) b = banked) by (destruct c, b; reflexivity).
    destruct (Z.eqb_spec reg REGISTER_PC) as [-> | Hne]; injection H as <-.
    + destruct (with_branch_happened_proj (with_r c l) true) as (Er' & Ec' & Eb').
      assert (Hbk' : banked_registers (with_branch_happened (with_r c l) true) b = banked)
        by (destruct c, b; reflexivity).
      rewrite Hbk', E, Er', Er, Ec', Ec, Eb'.
      split; [exact (list_set_get _ _ _ _ Hs) | split; reflexivity].
    + rewrite Hbk, E, Er, Ec, Eb. split; [exact (list_set_get _ _ _ _ Hs) | split; reflexivity].
Qed.

Lemma list_get_in_range (l : list Z) (i : Z) :
  0 <= i < Z.of_nat (List.length l) -> exists x, list_get l i = Ok x.
Proof.
  intros Hi. unfold list_get. destruct (Z.ltb_spec i 0); [lia |].
  destruct (nth_error l (Z.to_nat i)) eqn:E; [eexists; reflexivity |].
  apply nth_error_None in E. lia.
Qed.

Lemma list_get_out_of_range (l : list Z) (i : Z) :
  Z.of_nat (List.length l) <= i -> list_get l i = Err IndexOutOfBounds /\
  forall x, list_set l i x = Err IndexOutOfBounds.
Proof.
  intros Hi. split.
  - unfold list_get. destruct (Z.ltb_spec i 0); [lia |].
    destruct (nth_error l (Z.to_nat i)) eqn:E; [| reflexivity].
    assert (nth_error l (Z.to_nat i) <> None) by congruence.
    apply nth_error_Some in H0. lia.
  - intros x. unfold list_set. destruct (Z.ltb_spec i (Z.of_nat (List.length l))); [lia |].
    rewrite andb_false_r. reflexivity.
Qed.

Lemma banked_length (c : CPU) (b : Bank) : cpu_wf c ->
  List.length (banked_registers c b) = match b with Unbanked => 0%nat | BankFiq => 7%nat | _ => 2%nat end.
Proof. intros (H0 & H1 & H2 & H3 & H4 & H5). destruct b; cbn [banked_registers]; assumption || reflexivity. Qed.

(** X11: Edges of banked register access: an unknown mode makes
    [get_r_in_mode] and [set_r_in_mode] panic with [InvalidMode]; in a valid
    mode a register number of 16 or more makes both panic with
    [IndexOutOfBounds]; a register below 16 in a valid mode is read and
    written without panic and the CPU stays well formed. *)
Theorem register_access_edges (c : CPU) (reg mode v : Z) :
  (~ In mode VALID_MODES ->
     get_r_in_mode c reg mode = Err InvalidMode /\ set_r_in_mode c reg mode v = Err InvalidMode) /\
  (cpu_wf c -> In mode VALID_MODES -> 16 <= reg ->
     get_r_in_mode c reg mode = Err IndexOutOfBounds /\
     set_r_in_mode c reg mode v = Err IndexOutOfBounds) /\
  (cpu_wf c -> In mode VALID_MODES -> 0 <= reg < 16 ->
     exists x c', get_r_in_mode c reg mode = Ok x /\ set_r_in_mode c reg mode v = Ok c' /\
       cpu_wf c').
Proof.
  split; [| split].
  - intros Hm. destruct (bank_of_mode_valid mode) as [_ H]. specialize (H Hm).
    unfold get_r_in_mode, set_r_in_mode. rewrite H. split; reflexivity.
  - intros Hwf Hm Hr. destruct (bank_of_mode_valid mode) as [H _].
    destruct (H Hm) as [b Hb].
    unfold get_r_in_mode, set_r_in_mode. rewrite Hb. cbn [bind].
    destruct (Z.ltb_spec reg 15); [lia |]. rewrite andb_false_r.
    assert (Hl : Z.of_nat (List.length (r c)) = 16) by (destruct Hwf as [-> _]; reflexivity).
    destruct (list_get_out_of_range (r c) reg ltac:(lia)) as [G S].
    rewrite G, S. split; reflexivity.
  - intros Hwf Hm Hr. destruct (bank_of_mode_valid mode) as [H _].
    destruct (H Hm) as [b Hb].
    destruct (get_after_set c reg mode reg mode v Hwf Hr Hm Hr Hm) as (c1 & Hs & Hwf1 & _).
    assert (Hl : Z.of_nat (List.length (r c)) = 16) by (destruct Hwf as [-> _]; reflexivity).
    unfold get_r_in_mode. rewrite Hb. cbn [bind].
    pose proof (banked_length c b Hwf) as Hbl.
    destruct ((15 - Z.of_nat (List.length (banked_registers c b)) <=? reg) && (reg <? 15)) eqn:E.
    + apply andb_true_iff in E as [E1 E2]. apply Z.leb_le in E1. apply Z.ltb_lt in E2.
      destruct (list_get_in_range (banked_registers c b)
                  (reg - (15 - Z.of_nat (List.length (banked_registers c b))))) as [x Hx];
        [rewrite Hbl; destruct b; rewrite Hbl in E1; cbn in E1 |- *; lia |].
      exists x, c1. rewrite Hx. split; [reflexivity | split; assumption].
    + destruct (list_get_in_range (r c) reg ltac:(lia)) as [x Hx].
      exists x, c1. rewrite Hx. split; [reflexivity | split; assumption].
Qed.

Lemma wrap_u64_small (x : Z) : 0 <= x < 2 ^ 64 -> wrap_u64 x = x.
Proof. intros H. unfold wrap_u64. apply Z.mod_small. exact H. Qed.

(** X4: [add_with_flags_carry] and [sub_with_flags_carry] on 32-bit
    operands: the result is the exact sum [a + b + carry] (difference [a - b
    - carry]) modulo 2^32; the unsigned flag is set exactly when the exact
    sum reaches 2^32 (when [a < b + carry]); the signed flag is set exactly
    when the exact signed sum (difference) of the operands read as i32, with
    the carry, leaves the i32 range. *)
Theorem add_sub_with_flags_carry_exact (a b : Z) (carry : bool) (Ha : is_u32 a) (Hb : is_u32 b) :
  add_with_flags_carry a b carry =
    ((a + b + b2z carry) mod 2 ^ 32, 2 ^ 32 <=? a + b + b2z carry,
     negb ((I32_MIN <=? as_i32 a + as_i32 b + b2z carry) &&
           (as_i32 a + as_i32 b + b2z carry <=? I32_MAX))) /\
  sub_with_flags_carry a b carry =
    ((a - b - b2z carry) mod 2 ^ 32, a <? b + b2z carry,
     negb ((I32_MIN <=? as_i32 a - as_i32 b - b2z carry) &&
           (as_i32 a - as_i32 b - b2z carry <=? I32_MAX))).
Proof.
  assert (Hc : 0 <= b2z carry <= 1) by (destruct carry; cbn; lia).
  assert (Ia : - 2 ^ 31 <= as_i32 a < 2 ^ 31) by (unfold as_i32, is_u32, U32_MAX in *; zcmp_cases; lia).
  assert (Ib : - 2 ^ 31 <= as_i32 b < 2 ^ 31) by (unfold as_i32, is_u32, U32_MAX in *; zcmp_cases; lia).
  unfold is_u32, U32_MAX in *. split.
  - unfold add_with_flags_carry.
    rewrite (wrap_u64_small (a + b)), (wrap_u64_small (a + b + b2z carry)) by lia.
    rewrite (wrap_i64_small (as_i32 a + as_i32 b)), wrap_i64_small by lia.
    unfold I32_MAX, I32_MIN, U32_MAX.
    zcmp_cases; cbn [negb andb orb]; try reflexivity; exfalso; lia.
  - unfold sub_with_flags_carry, wrap_u64.
    rewrite Zminus_mod_idemp_l.
    replace (a - b - b2z carry) with (a - (b + b2z carry)) by ring.
    destruct (Z.ltb_spec a (b + b2z carry)).
    + replace ((a - (b + b2z carry)) mod 2 ^ 64) with (a - (b + b2z carry) + 2 ^ 64).
      2:{ rewrite <- (Z.mod_add _ 1) by lia. rewrite Z.mod_small by lia. ring. }
      replace (wrap_i64 (as_i32 a - as_i32 b) - b2z carry) with (as_i32 a - as_i32 b - b2z carry)
        by (rewrite wrap_i64_small by lia; ring).
      rewrite wrap_i64_small by lia.
      unfold I32_MAX, I32_MIN, U32_MAX.
      replace (a - (b + b2z carry) + 2 ^ 64) with ((a - (b + b2z carry)) + 2 ^ 32 * 2 ^ 32) by ring.
      rewrite Z.mod_add by lia.
      zcmp_cases; cbn [negb andb orb]; try reflexivity; exfalso; lia.
    + rewrite (Z.mod_small (a - (b + b2z carry)) (2 ^ 64)) by lia.

      replace (wrap_i64 (as_i32 a - as_i32 b) - b2z carry) with (as_i32 a - as_i32 b - b2z carry)
        by (rewrite wrap_i64_small by lia; ring).
      rewrite wrap_i64_small by lia.
      unfold I32_MAX, I32_MIN, U32_MAX.
      zcmp_cases; cbn [negb andb orb]; try reflexivity; exfalso; lia.
Qed.

(** X5: With the carry clear, [add_with_flags_carry a b false] is
    [add_with_flags a b] and [sub_with_flags_carry a b false] is
    [sub_with_flags a b], for all arguments. *)
Theorem with_flags_carry_clear (a b : Z) :
  add_with_flags_carry a b false = add_with_flags a b /\
  sub_with_flags_carry a b false = sub_with_flags a b.
Proof.
  unfold add_with_flags_carry, sub_with_flags_carry, add_with_flags, sub_with_flags,
    wrap_u64, wrap_i64, b2z.
  rewrite !Z.add_0_r, !Z.sub_0_r, !Z.mod_mod by lia.
  rewrite !Z.sub_add, !Z.mod_mod by lia. split; reflexivity.
Qed.

Lemma sign_extend32_cases (data len : Z) (Hd : is_u32 data) :
  (1 <= len <= 32 ->
     sign_extend32 data len =
       Ok (let x := data mod 2 ^ len in if x <? 2 ^ (len - 1) then x else x + 2 ^ 32 - 2 ^ len)) /\
  sign_extend32 data 0 = Err ShiftOverflow /\
  (32 < len -> sign_extend32 data len = Err SubOverflow).
Proof.
  split; [| split].
  - intros Hl. unfold sign_extend32, sub32.
    destruct (Z.leb_spec len 32); [| lia]. cbn [bind].
    rewrite shl32_ok by lia. cbn [bind]. unfold arithmetic_shift_right.
    destruct (Z.ltb_spec (32 - len) 32); [| lia].
    set (s := 32 - len).
    assert (E32 : 2 ^ 32 = 2 ^ len * 2 ^ s) by (rewrite <- Z.pow_add_r by lia; f_equal; lia).
    assert (Ps : 0 < 2 ^ s) by (apply Z.pow_pos_nonneg; lia).
    assert (Pl : 0 < 2 ^ len) by (apply Z.pow_pos_nonneg; lia).
    assert (El : 2 ^ len = 2 * 2 ^ (len - 1))
      by (rewrite <- Z.pow_succ_r by lia; f_equal; lia).
    change U32_MAX with (Z.ones 32). rewrite Z.land_ones by lia.
    rewrite Z.shiftl_mul_pow2 by lia.
    rewrite E32, Z.mul_mod_distr_r by lia.
    set (x := data mod 2 ^ len).
    assert (Hx : 0 <= x < 2 ^ len) by (apply Z.mod_pos_bound; lia).
    cbv zeta. rewrite Z.shiftr_div_pow2 by lia.
    unfold as_i32. rewrite <- E32.
    assert (Hxs : x * 2 ^ s < 2 ^ 31 <-> x < 2 ^ (len - 1)).
    { assert (E31 : 2 ^ 31 = 2 ^ (len - 1) * 2 ^ s)
        by (rewrite <- Z.pow_add_r by lia; f_equal; lia).
      rewrite E31. split; intros; nia. }
    destruct (Z.ltb_spec (x * 2 ^ s) (2 ^ 31)); destruct (Z.ltb_spec x (2 ^ (len - 1)));
      try (exfalso; tauto || lia).
    + rewrite Z.div_mul by lia. f_equal. apply Z.mod_small. lia.
    + replace (x * 2 ^ s - 2 ^ 32) with ((x - 2 ^ len) * 2 ^ s) by (rewrite E32; ring).
      rewrite Z.div_mul by lia. f_equal.
      replace (x - 2 ^ len) with ((x + 2 ^ 32 - 2 ^ len) + (-1) * 2 ^ 32) by ring.
      rewrite Z.mod_add by lia. apply Z.mod_small.
      assert (2 ^ len <= 2 ^ 32) by (apply Z.pow_le_mono_r; lia). lia.
  - reflexivity.
  - intros Hl. unfold sign_extend32, sub32. destruct (Z.leb_spec len 32); [lia | reflexivity].
Qed.

Lemma mod_ne (x i j L : Z) : 0 < L -> 0 < j - i < L -> (x + i) mod L <> (x + j) mod L.
Proof.
  intros HL Hij E.
  pose proof (Z.div_mod (x + i) L ltac:(lia)). pose proof (Z.div_mod (x + j) L ltac:(lia)).
  pose proof (Z.mod_pos_bound (x + i) L HL). pose proof (Z.mod_pos_bound (x + j) L HL).
  set (q1 := (x + i) / L) in *. set (q2 := (x + j) / L) in *.
  assert (L * (q2 - q1) = j - i) by lia.
  assert (q2 - q1 <= 0 \/ 1 <= q2 - q1) as [Hq | Hq] by lia; nia.
Qed.

Lemma lookup_wram1 (a : Z) : 33554432 <= a <= 50331647 ->
  lookup_region memory_map a = Some (Wram1, (a - 33554432) mod WRAM1_LEN, true).
Proof. intros H. unfold memory_map; cbn [lookup_region]. decide_cmps. reflexivity. Qed.

Lemma lookup_io (a : Z) : 67108864 <= a <= 67109886 ->
  lookup_region memory_map a = Some (IoRegisters, a - 67108864, true).
Proof. intros H. unfold memory_map; cbn [lookup_region]. decide_cmps. reflexivity. Qed.

(** A successful byte write updates one slot of one region. *)
Lemma write_u8_slot (a x : Z) (m : Memory) (g : Region) (i : Z) :
  lookup_region memory_map a = Some (g, i, true) -> 0 <= i < vlen (region_vec m g) ->
  _write_u8 a x m =
    (set_region_vec m g (mkVec (vlen (region_vec m g))
                            (fun j => if j =? i then x else vat (region_vec m g) j)), Ok tt).
Proof.
  intros Hl Hi. unfold _write_u8. rewrite Hl. unfold vec_set.
  destruct (Z.leb_spec 0 i); [| lia]. destruct (Z.ltb_spec i (vlen (region_vec m g))); [| lia].
  reflexivity.
Qed.

Lemma region_set_same (m : Memory) (g : Region) (v : Vec) :
  region_vec (set_region_vec m g v) g = v.
Proof. destruct m, g; reflexivity. Qed.

Lemma region_set_other (m : Memory) (g g' : Region) (v : Vec) :
  g <> g' -> region_vec (set_region_vec m g v) g' = region_vec m g'.
Proof. intros H. destruct m, g, g'; try reflexivity; congruence. Qed.

Lemma read_wram1 (m : Memory) (a : Z) : 33554432 <= a <= 50331647 ->
  read_u8 m a = vec_get (wram1 m) ((a - 33554432) mod WRAM1_LEN).
Proof. intros H. unfold read_u8, _read_u8. rewrite lookup_wram1 by lia. reflexivity. Qed.

Lemma write_wram1 (m : Memory) (a x : Z) : 33554432 <= a <= 50331647 ->
  vlen (wram1 m) = WRAM1_LEN ->
  _write_u8 a x m =
    (set_region_vec m Wram1 (mkVec WRAM1_LEN
       (fun j => if j =? (a - 33554432) mod WRAM1_LEN then x else vat (wram1 m) j)), Ok tt).
Proof.
  intros Ha Hl. rewrite (write_u8_slot a x m Wram1 ((a - 33554432) mod WRAM1_LEN)).
  - cbn [region_vec]. rewrite Hl. reflexivity.
  - apply lookup_wram1. exact Ha.
  - cbn [region_vec]. rewrite Hl. apply Z.mod_pos_bound. reflexivity.
Qed.

Lemma wram1_of_set (m : Memory) (v : Vec) : wram1 (set_region_vec m Wram1 v) = v.
Proof. destruct m; reflexivity. Qed.

Lemma bytes_u16 (v : Z) : 0 <= v < 2 ^ 16 ->
  Z.lor (Z.shiftl (low_byte (Z.shiftr v 8)) 8) (low_byte v) = v.
Proof.
  intros Hv. apply Z.bits_inj'. intros j Hj. unfold low_byte. change 255 with (Z.ones 8).
  rewrite Z.lor_spec.
  destruct (Z.ltb_spec j 8).
  - rewrite Z.shiftl_spec_low by lia. rewrite Z.land_spec, Z.testbit_ones by lia.
    decide_cmps. rewrite andb_true_r. reflexivity.
  - rewrite Z.shiftl_spec by lia. rewrite !Z.land_spec, !Z.testbit_ones by lia.
    rewrite Z.shiftr_spec by lia. replace (j - 8 + 8) with j by ring.
    destruct (Z.ltb_spec (j - 8) 8).
    + decide_cmps. rewrite !andb_true_r, andb_false_r, orb_false_r. reflexivity.
    + decide_cmps. rewrite !andb_false_r. cbn [orb].
      rewrite <- (Z.mod_small v (2 ^ 16)) by lia. rewrite Z.testbit_mod_pow2 by lia.
      decide_cmps. reflexivity.
Qed.

Lemma bytes_u32 (v : Z) : is_u32 v ->
  Z.lor (Z.shiftl (Z.lor (Z.shiftl (low_byte (Z.shiftr v 24)) 8) (low_byte (Z.shiftr v 16))) 16)
        (Z.lor (Z.shiftl (low_byte (Z.shiftr v 8)) 8) (low_byte v)) = v.
Proof.
  intros Hv. unfold is_u32, U32_MAX in Hv.
  apply Z.bits_inj'. intros j Hj. unfold low_byte. change 255 with (Z.ones 8).
  assert (Hhi : forall k, 32 <= k -> Z.testbit v k = false).
  { intros k Hk. rewrite <- (Z.mod_small v (2 ^ 32)) by lia.
    rewrite Z.testbit_mod_pow2 by lia. decide_cmps. reflexivity. }
  assert (j < 8 \/ 8 <= j < 16 \/ 16 <= j < 24 \/ 24 <= j < 32 \/ 32 <= j) as Hc by lia.
  repeat destruct Hc as [Hc | Hc];
  repeat first [ rewrite Z.lor_spec | rewrite Z.land_spec | rewrite Z.testbit_ones by lia
               | rewrite Z.shiftl_spec_low by lia | rewrite Z.shiftl_spec by lia
               | rewrite Z.shiftr_spec by lia ];
  decide_cmps; rewrite ?andb_false_r, ?andb_true_r, ?orb_false_r, ?orb_false_l;
  repeat match goal with |- context [?a - ?b + ?b] => replace (a - b + b) with a by ring end;
  try reflexivity; try (f_equal; ring); rewrite Hhi by lia; reflexivity.
Qed.

Ltac resolve_eqbs :=
  repeat match goal with
  | |- context [?x =? ?x] => rewrite (Z.eqb_refl x)
  | H : ?x <> ?y |- context [?x =? ?y] => replace (x =? y) with false by (symmetry; apply Z.eqb_neq; exact H)
  | H : ?y <> ?x |- context [?x =? ?y] =>
      replace (x =? y) with false by (symmetry; apply Z.eqb_neq; apply not_eq_sym; exact H)
  end.

(** X13: A word written to on-board WRAM ([0x02000000..=0x02FFFFFC]) with
    [write_u32] succeeds and [read_u32] at the same address then returns it.
    *)
Lemma wram1_u32_round_trip (m : Memory) (a v : Z)
  (Hl : vlen (wram1 m) = WRAM1_LEN) (Ha : 33554432 <= a <= 50331644) (Hv : is_u32 v) :
  exists m', write_u32 a v m = (m', Ok tt) /\ read_u32 m' a = Ok v.
Proof.
  rewrite write_u32_bytes by (unfold U32_MAX; lia).
  cbn [write_bytes]. unfold bindS, retS.
  rewrite write_wram1 by (try rewrite wram1_of_set; auto; lia).
  rewrite write_wram1 by (try rewrite wram1_of_set; auto; lia).
  rewrite write_wram1 by (try rewrite wram1_of_set; auto; lia).
  rewrite write_wram1 by (try rewrite wram1_of_set; auto; lia).
  eexists; split; [reflexivity |].
  pose proof (mod_ne (a - 33554432) 0 1 WRAM1_LEN ltac:(reflexivity) ltac:(unfold WRAM1_LEN; lia)).
  pose proof (mod_ne (a - 33554432) 0 2 WRAM1_LEN ltac:(reflexivity) ltac:(unfold WRAM1_LEN; lia)).
  pose proof (mod_ne (a - 33554432) 0 3 WRAM1_LEN ltac:(reflexivity) ltac:(unfold WRAM1_LEN; lia)).
  pose proof (mod_ne (a - 33554432) 1 2 WRAM1_LEN ltac:(reflexivity) ltac:(unfold WRAM1_LEN; lia)).
  pose proof (mod_ne (a - 33554432) 1 3 WRAM1_LEN ltac:(reflexivity) ltac:(unfold WRAM1_LEN; lia)).
  pose proof (mod_ne (a - 33554432) 2 3 WRAM1_LEN ltac:(reflexivity) ltac:(unfold WRAM1_LEN; lia)).
  rewrite ?Z.add_0_r in *.
  pose proof (Z.mod_pos_bound (a - 33554432) WRAM1_LEN ltac:(reflexivity)).
  pose proof (Z.mod_pos_bound (a - 33554432 + 1) WRAM1_LEN ltac:(reflexivity)).
  pose proof (Z.mod_pos_bound (a - 33554432 + 2) WRAM1_LEN ltac:(reflexivity)).
  pose proof (Z.mod_pos_bound (a - 33554432 + 3) WRAM1_LEN ltac:(reflexivity)).
  replace (a + 1 - 33554432) with (a - 33554432 + 1) by ring.
  replace (a + 2 - 33554432) with (a - 33554432 + 2) by ring.
  replace (a + 3 - 33554432) with (a - 33554432 + 3) by ring.
  set (i0 := (a - 33554432) mod WRAM1_LEN) in *.
  set (i1 := (a - 33554432 + 1) mod WRAM1_LEN) in *.
  set (i2 := (a - 33554432 + 2) mod WRAM1_LEN) in *.
  set (i3 := (a - 33554432 + 3) mod WRAM1_LEN) in *.
  match goal with |- read_u32 ?mm a = _ => set (m' := mm) end.
  assert (Hr : forall k, 0 <= k <= 3 -> read_u8 m' (a + k) =
            vec_get (wram1 m') ((a - 33554432 + k) mod WRAM1_LEN)).
  { intros k Hk. rewrite read_wram1 by lia. f_equal. f_equal. ring. }
  assert (R0 : read_u8 m' a = Ok (low_byte v)).
  { rewrite <- (Z.add_0_r a) at 1. rewrite Hr by lia. rewrite Z.add_0_r. fold i0.
    subst m'. unfold vec_get. repeat (rewrite wram1_of_set; cbn [vlen vat]).
    resolve_eqbs. decide_cmps. reflexivity. }
  assert (R1 : read_u8 m' (a + 1) = Ok (low_byte (Z.shiftr v 8))).
  { rewrite Hr by lia. fold i1.
    subst m'. unfold vec_get. repeat (rewrite wram1_of_set; cbn [vlen vat]).
    resolve_eqbs. decide_cmps. reflexivity. }
  assert (R2 : read_u8 m' (a + 2) = Ok (low_byte (Z.shiftr v 16))).
  { rewrite Hr by lia. fold i2.
    subst m'. unfold vec_get. repeat (rewrite wram1_of_set; cbn [vlen vat]).
    resolve_eqbs. decide_cmps. reflexivity. }
  assert (R3 : read_u8 m' (a + 3) = Ok (low_byte (Z.shiftr v 24))).
  { rewrite Hr by lia. fold i3.
    subst m'. unfold vec_get. repeat (rewrite wram1_of_set; cbn [vlen vat]).
    resolve_eqbs. decide_cmps. reflexivity. }
  unfold read_u32, read_u16.
  rewrite R0. cbn [bind]. rewrite add32_ok by (unfold U32_MAX; lia). cbn [bind].
  rewrite R1. cbn [bind]. rewrite add32_ok by (unfold U32_MAX; lia). cbn [bind].
  rewrite R2. cbn [bind]. rewrite add32_ok by (unfold U32_MAX; lia). cbn [bind].
  replace (a + 2 + 1) with (a + 3) by ring.
  rewrite R3. cbn [bind].
  f_equal. apply bytes_u32. exact Hv.
Qed.

(** X14: On a memory whose regions have their allocated lengths, [write_u8]
    succeeds exactly on the writable byte regions below video memory
    ([0x02000000..=0x040003FE]) and the byte is read back there; every other
    address panics (read-only BIOS or game pak, unmapped addresses, 8-bit
    writes to palette RAM or VRAM) and memory is left unchanged. *)
Lemma write_u8_regions (m : Memory) (a v : Z)
  (H1 : vlen (wram1 m) = WRAM1_LEN) (H2 : vlen (wram2 m) = WRAM2_LEN)
  (H3 : vlen (io_registers m) = IO_REGISTERS_LEN) :
  (33554432 <= a <= 67109886 -> exists m', write_u8 a v m = (m', Ok tt) /\ read_u8 m' a = Ok v) /\
  (~ (33554432 <= a <= 67109886) -> exists p, write_u8 a v m = (m, Err p)).
Proof.
  split.
  - intros Ha. unfold write_u8. decide_cmps.
    assert (exists g i, lookup_region memory_map a = Some (g, i, true) /\ 0 <= i < vlen (region_vec m g))
      as (g & i & Hg & Hi).
    { assert (a <= 50331647 \/ 50331648 <= a <= 67108863 \/ 67108864 <= a) as [Hc | [Hc | Hc]] by lia.
      - exists Wram1, ((a - 33554432) mod WRAM1_LEN). rewrite lookup_wram1 by lia.
        split; [reflexivity |]. cbn [region_vec]. rewrite H1. apply Z.mod_pos_bound. reflexivity.
      - exists Wram2, ((a - 50331648) mod WRAM2_LEN). rewrite lookup_wram2 by lia.
        split; [reflexivity |]. cbn [region_vec]. rewrite H2. apply Z.mod_pos_bound. reflexivity.
      - exists IoRegisters, (a - 67108864). rewrite lookup_io by lia.
        split; [reflexivity |]. cbn [region_vec]. rewrite H3. unfold IO_REGISTERS_LEN. lia. }
    eexists; split; [apply (write_u8_slot a v m g i Hg Hi) |].
    eapply write_u8_commits. apply (write_u8_slot a v m g i Hg Hi).
  - intros Ha. unfold write_u8.
    destruct (Z.leb_spec 83886080 a), (Z.leb_spec a 134217727); cbn [andb];
      try (eexists; reflexivity).
    all: unfold _write_u8, memory_map; cbn [lookup_region].
    all: repeat (match goal with |- context [?x <=? ?y] => destruct (Z.leb_spec x y) end;
            cbn [andb]; try (exfalso; lia));
    eexists; reflexivity.
Qed.

Lemma get_r_in_mode_pc (c : CPU) (md : Z) :
  In md VALID_MODES -> get_r_in_mode c REGISTER_PC md = list_get (r c) REGISTER_PC.
Proof.
  intros Hm. unfold VALID_MODES in Hm. cbn [In] in Hm.
  destruct Hm as [<- | [<- | [<- | [<- | [<- | [<- | [<- | []]]]]]]];
    unfold get_r_in_mode; cbn [bank_of_mode MODE_USR MODE_SYS MODE_SVC MODE_ABT MODE_UND MODE_IRQ MODE_FIQ
       Z.eqb Pos.eqb orb bind banked_registers];
    replace ((15 - Z.of_nat _ <=? REGISTER_PC) && (REGISTER_PC <? 15)) with false
      by (unfold REGISTER_PC; rewrite (proj2 (Z.ltb_ge 15 15)) by lia; rewrite andb_false_r; reflexivity);
    reflexivity.
Qed.

(** [set_r] on a register file of the declared sizes, in a valid mode. *)
Lemma set_r_frame (c : CPU) (md reg v : Z) :
  cpu_wf c -> get_mode c = Ok md -> In md VALID_MODES -> 0 <= reg < 16 ->
  exists c', set_r c reg v = Ok c' /\ cpu_wf c' /\ cpsr c' = cpsr c /\
    branch_happened c' = (reg =? REGISTER_PC) || branch_happened c /\
    get_r_in_mode c' reg md = Ok v /\
    forall reg2 md2, 0 <= reg2 < 16 -> In md2 VALID_MODES -> reg2 <> reg ->
      get_r_in_mode c' reg2 md2 = get_r_in_mode c reg2 md2.
Proof.
  intros Hwf Hmd Hm Hr.
  destruct (get_after_set c reg md reg md v Hwf Hr Hm Hr Hm) as (c1 & Hs & Hwf1 & _).
  destruct (set_r_in_mode_spec c c1 reg md v Hs) as (Hg & Hcp & Hbh).
  exists c1. unfold set_r. rewrite Hmd. cbn [bind].
  split; [exact Hs | split; [exact Hwf1 | split; [exact Hcp | split; [exact Hbh | split; [exact Hg |]]]]].
  intros reg2 md2 Hr2 Hm2 Hne.
  destruct (get_after_set c reg2 md2 reg md v Hwf Hr2 Hm2 Hr Hm) as (c2 & Hs2 & _ & Hg2).
  rewrite Hs in Hs2. injection Hs2 as <-. rewrite Hg2.
  destruct (Z.eqb_spec reg reg2); [lia |]. cbn [andb].
  destruct (banked_in reg2 md2); reflexivity.
Qed.

Lemma get_r_in_mode_with_branch_happened (c : CPU) (b : bool) (reg md : Z) :
  get_r_in_mode (with_branch_happened c b) reg md = get_r_in_mode c reg md.
Proof. destruct c; reflexivity. Qed.

Lemma get_r_in_mode_with_cycles (c : CPU) (n reg md : Z) :
  get_r_in_mode (with_cycles c n) reg md = get_r_in_mode c reg md.
Proof. destruct c; reflexivity. Qed.

Lemma cpsr_with_cycles (c : CPU) (n : Z) : cpsr (with_cycles c n) = cpsr c.
Proof. destruct c; reflexivity. Qed.

Lemma get_r_in_mode_replace_pc (c : CPU) (x reg md : Z) :
  cpu_wf c -> In md VALID_MODES -> 0 <= reg < 15 ->
  get_r_in_mode (with_r c (replace_nth (r c) 15 x)) reg md = get_r_in_mode c reg md.
Proof.
  intros Hwf Hm Hr. unfold get_r_in_mode.
  destruct (bank_of_mode md) as [b |]; [| reflexivity]. cbn [bind].
  replace (banked_registers (with_r c (replace_nth (r c) 15 x)) b) with (banked_registers c b)
    by (destruct c, b; reflexivity).
  destruct (_ && _); [reflexivity |].
  destruct (with_r_proj c (replace_nth (r c) 15 x)) as (-> & _ & _).
  change 15%nat with (Z.to_nat 15). apply list_get_replace_other; [| lia].
  destruct Hwf as [-> _]. cbn. lia.
Qed.

Lemma replace_nth_twice (l : list Z) (n : nat) (x y : Z) :
  replace_nth (replace_nth l n x) n y = replace_nth l n y.
Proof.
  revert n. induction l as [| h t IH]; intros [| n]; cbn [replace_nth]; try reflexivity.
  rewrite IH. reflexivity.
Qed.

Lemma condition_check_cpsr (cond : Condition) (c c' : CPU) :
  cpsr c' = cpsr c -> Condition_check cond c' = Condition_check cond c.
Proof.
  intros H. destruct cond; cbn [Condition_check];
    unfold get_negative_flag, get_zero_flag, get_carry_flag, get_overflow_flag; rewrite ?H; reflexivity.
Qed.

(** An ARM instruction that passes its condition reaches [execute] with r15
    advanced by 8 and nothing else changed but [branch_happened]. *)
Lemma cycle_prepare_arm (Instr : Type) (dec_arm : Z -> result Instr) (dec_thumb : Z -> Z -> result Instr)
  (c : CPU) (m : Memory) (a w : Z) (cond : Condition) (i : Instr) :
  List.length (r c) = 16%nat -> get_thumb_state c = false ->
  list_get (r c) REGISTER_PC = Ok a -> a + 8 <= U32_MAX -> read_u32 m a = Ok w ->
  Condition_decode_arm w = Ok cond -> Condition_check cond c = true -> dec_arm w = Ok i ->
  cycle_prepare Instr dec_arm dec_thumb c m =
    Ok (Decoded Instr i (with_branch_happened (with_r c (replace_nth (r c) 15 (a + 8))) false)).
Proof.
  intros Hl Ht Hpc Ha Hw Hc Hck Hd.
  assert (L16 : Z.of_nat (List.length (r c)) = 16) by (rewrite Hl; reflexivity).
  unfold cycle_prepare. rewrite Ht.
  unfold fetch_arm. rewrite Hpc. cbn [bind]. rewrite Hw. cbn [bind].
  unfold advance_pc at 1. rewrite Hpc. cbn [bind].
  unfold instruction_len_in_bytes. rewrite Ht. unfold INSTRUCTION_LEN_ARM.
  rewrite add32_ok by lia. cbn [bind].
  rewrite list_set_in_range by (unfold REGISTER_PC; lia). cbn [bind].
  rewrite Hc. cbn [bind].
  rewrite (condition_check_cpsr cond c) by (destruct (with_r_proj c (replace_nth (r c) (Z.to_nat REGISTER_PC) (a + 4))) as (_ & -> & _); reflexivity).
  rewrite Hck. cbn [negb]. rewrite Hd. cbn [bind].
  unfold advance_pc. destruct (with_r_proj c (replace_nth (r c) (Z.to_nat REGISTER_PC) (a + 4))) as (-> & Hcp & _).
  rewrite list_get_replace by (unfold REGISTER_PC; lia). rewrite Z.eqb_refl. cbn [bind].
  unfold instruction_len_in_bytes, get_thumb_state. rewrite Hcp. fold (get_thumb_state c). rewrite Ht.
  unfold INSTRUCTION_LEN_ARM. rewrite add32_ok by lia. cbn [bind].
  rewrite list_set_in_range by (rewrite length_replace; unfold REGISTER_PC; lia). cbn [bind].
  replace (a + 4 + 4) with (a + 8) by ring.
  rewrite replace_nth_twice. unfold REGISTER_PC. change (Z.to_nat 15) with 15%nat.
  f_equal. f_equal. destruct c; reflexivity.
Qed.

Lemma get_bits32_low24 (w : Z) : get_bits32 w 0 24 = Ok (Z.land w 16777215).
Proof. rewrite get_bits32_ok by lia. rewrite Z.shiftr_0_r. reflexivity. Qed.

Lemma decode_b_bl_arm (w : Z) (l : bool) :
  let imm := Z.land w 16777215 in
  let s := if imm <? 8388608 then imm else imm - 16777216 in
  exists off, (if l then Branch.decode_bl_arm w else Branch.decode_b_arm w) = Ok (Branch.BOffset l false off) /\
    forall a, (a + off) mod 2 ^ 32 = (a + 8 + 4 * s) mod 2 ^ 32.
Proof.
  cbv zeta.
  assert (Hi : 0 <= Z.land w 16777215 < 16777216).
  { split; [apply Z.land_nonneg; lia |].
    change 16777215 with (Z.ones 24). rewrite Z.land_ones by lia.
    apply Z.mod_pos_bound. reflexivity. }
  destruct (sign_extend32_cases (Z.land w 16777215) 24 ltac:(unfold is_u32, U32_MAX; lia)) as [Hs _].
  specialize (Hs ltac:(lia)). cbv zeta in Hs.
  rewrite Z.mod_small in Hs by (cbn; lia). change (2 ^ (24 - 1)) with 8388608 in Hs.
  set (sx := if Z.land w 16777215 <? 8388608 then Z.land w 16777215
             else Z.land w 16777215 + 2 ^ 32 - 2 ^ 24) in Hs.
  eexists. split.
  - destruct l; unfold Branch.decode_bl_arm, Branch.decode_b_arm;
      rewrite get_bits32_low24; cbn [bind]; rewrite Hs; cbn [bind];
      rewrite shl32_ok by lia; cbn [bind]; reflexivity.
  - intros a. unfold INSTRUCTION_LEN_ARM. change U32_MAX with (Z.ones 32).
    rewrite Z.land_ones by lia. rewrite Z.shiftl_mul_pow2 by lia.
    rewrite Z.add_mod_idemp_r by lia.
    replace (a + ((sx * 2 ^ 2) mod 2 ^ 32 + 4 * 2)) with ((sx * 2 ^ 2) mod 2 ^ 32 + (a + 8)) by ring.
    rewrite Z.add_mod_idemp_l by lia.
    subst sx. destruct (_ <? _).
    + f_equal. ring.
    + replace (Z.land w 16777215 + 2 ^ 32 - 2 ^ 24) with (Z.land w 16777215 - 16777216 + 2 ^ 32) by ring.
      replace ((Z.land w 16777215 - 16777216 + 2 ^ 32) * 2 ^ 2 + (a + 8))
        with (a + 8 + 4 * (Z.land w 16777215 - 16777216) + 4 * 2 ^ 32) by ring.
      apply Z.mod_add. lia.
Qed.

Lemma decoded_stage_facts (c : CPU) (md pc : Z) :
  cpu_wf c -> get_mode c = Ok md -> In md VALID_MODES ->
  let c1 := with_branch_happened (with_r c (replace_nth (r c) 15 pc)) false in
  cpu_wf c1 /\ cpsr c1 = cpsr c /\ get_mode c1 = Ok md /\
  list_get (r c1) REGISTER_PC = Ok pc /\ branch_happened c1 = false /\
  forall reg md2, 0 <= reg < 15 -> In md2 VALID_MODES -> get_r_in_mode c1 reg md2 = get_r_in_mode c reg md2.
Proof.
  intros Hwf Hmd Hm c1.
  assert (L16 : Z.of_nat (List.length (r c)) = 16) by (destruct Hwf as [-> _]; reflexivity).
  assert (Hcp : cpsr c1 = cpsr c) by (subst c1; destruct c; reflexivity).
  split; [| split; [exact Hcp | split; [rewrite (get_mode_cpsr c c1 Hcp); exact Hmd |]]].
  - destruct c as [p r0 s ab u i f ss sa su si sf bh cy]. unfold cpu_wf in *. subst c1. cbn in *.
    rewrite length_replace. exact Hwf.
  - split; [| split].
    + subst c1. destruct (with_branch_happened_proj (with_r c (replace_nth (r c) 15 pc)) false)
        as (-> & _ & _).
      destruct (with_r_proj c (replace_nth (r c) 15 pc)) as (-> & _ & _).
      change 15%nat with (Z.to_nat 15). unfold REGISTER_PC. rewrite list_get_replace by lia. rewrite Z.eqb_refl. reflexivity.
    + subst c1. destruct c; reflexivity.
    + intros reg md2 Hr Hm2. subst c1. rewrite get_r_in_mode_with_branch_happened.
      apply get_r_in_mode_replace_pc; assumption.
Qed.

(** X16: One [cycle] of an ARM [B]/[BL] at address [a] with a passing
    condition sets r15 to [a + 8 + 4 * imm24] (imm24 sign-extended, modulo
    2^32); [BL] sets LR to [a + 4] and [B] leaves LR; the CPSR and memory
    are unchanged. *)
Theorem arm_b_bl_cycle (dec_arm : Z -> result Branch.Opcode) (dec_thumb : Z -> Z -> result Branch.Opcode)
  (c : CPU) (m : Memory) (md a w : Z) (cond : Condition) (l : bool)
  (Hwf : cpu_wf c) (Hmd : get_mode c = Ok md) (Hm : In md VALID_MODES)
  (Ht : get_thumb_state c = false) (Hpc : list_get (r c) REGISTER_PC = Ok a) (Ha : 0 <= a <= U32_MAX - 8)
  (Hw : read_u32 m a = Ok w) (Hc : Condition_decode_arm w = Ok cond) (Hck : Condition_check cond c = true)
  (Hdec : dec_arm w = if l then Branch.decode_bl_arm w else Branch.decode_b_arm w) :
  let imm := Z.land w 16777215 in
  let s := if imm <? 8388608 then imm else imm - 16777216 in
  exists c', cycle Branch.Opcode dec_arm dec_thumb Branch.execute c m = Ok (c', m) /\
    list_get (r c') REGISTER_PC = Ok ((a + 8 + 4 * s) mod 2 ^ 32) /\
    get_r c' REGISTER_LR = (if l then Ok (a + 4) else get_r c REGISTER_LR) /\
    cpsr c' = cpsr c.
Proof.
  cbv zeta.
  destruct (decode_b_bl_arm w l) as (off & Hop & Hoff). rewrite <- Hdec in Hop.
  assert (L16 : List.length (r c) = 16%nat) by (destruct Hwf as [-> _]; reflexivity).
  unfold cycle.
  rewrite (cycle_prepare_arm Branch.Opcode dec_arm dec_thumb c m a w cond _ L16 Ht Hpc ltac:(lia) Hw Hc Hck Hop).
  cbn [bind].
  destruct (decoded_stage_facts c md (a + 8) Hwf Hmd Hm) as (Hwf1 & Hcp1 & Hmd1 & Hpc1 & _ & Hfr1).
  set (c1 := with_branch_happened (with_r c (replace_nth (r c) 15 (a + 8))) false) in *.
  (* the optional link write *)
  assert (HL : exists c2, (if l then nx <- next_instruction_address_from_execution_stage c1 ;;
                                     set_r c1 REGISTER_LR nx else Ok c1) = Ok c2 /\
             cpu_wf c2 /\ cpsr c2 = cpsr c /\ list_get (r c2) REGISTER_PC = Ok (a + 8) /\
             get_r_in_mode c2 REGISTER_LR md = (if l then Ok (a + 4) else get_r_in_mode c REGISTER_LR md)).
  { destruct l.
    - unfold next_instruction_address_from_execution_stage. rewrite Hpc1. cbn [bind].
      unfold instruction_len_in_bytes, get_thumb_state. rewrite Hcp1. fold (get_thumb_state c). rewrite Ht.
      unfold sub32, INSTRUCTION_LEN_ARM. destruct (Z.leb_spec 4 (a + 8)); [| lia]. cbn [bind].
      destruct (set_r_frame c1 md REGISTER_LR (a + 8 - 4) Hwf1 Hmd1 Hm ltac:(unfold REGISTER_LR; lia))
        as (c2 & Hs & Hwf2 & Hcp2 & _ & Hg2 & Hfr2).
      exists c2. split; [exact Hs |]. split; [exact Hwf2 |]. split; [congruence |].
      split.
      + rewrite <- (get_r_in_mode_pc c2 md Hm). rewrite Hfr2 by (unfold REGISTER_PC, REGISTER_LR; lia || assumption).
        rewrite get_r_in_mode_pc by exact Hm. exact Hpc1.
      + rewrite Hg2. f_equal. ring.
    - exists c1. split; [reflexivity |]. split; [exact Hwf1 |]. split; [exact Hcp1 |].
      split; [exact Hpc1 |]. apply Hfr1; [unfold REGISTER_LR; lia | exact Hm]. }
  destruct HL as (c2 & Hs2 & Hwf2 & Hcp2 & Hpc2 & Hlr2).
  cbn [Branch.execute]. rewrite Hs2. cbn [bind].
  unfold curr_instruction_address_from_execution_stage. rewrite Hpc2. cbn [bind].
  unfold instruction_len_in_bytes, get_thumb_state. rewrite Hcp2. fold (get_thumb_state c). rewrite Ht.
  unfold sub32, INSTRUCTION_LEN_ARM. destruct (Z.leb_spec (4 * 2) (a + 8)); [| lia]. cbn [bind].
  replace (a + 8 - 4 * 2) with a by ring.
  assert (Hmd2 : get_mode c2 = Ok md) by (rewrite (get_mode_cpsr c c2 Hcp2); exact Hmd).
  destruct (set_r_frame c2 md REGISTER_PC ((a + off) mod 2 ^ 32) Hwf2 Hmd2 Hm ltac:(unfold REGISTER_PC; lia))
    as (c3 & Hs3 & _ & Hcp3 & Hbh3 & Hg3 & Hfr3).
  rewrite Hs3. cbn [bind].
  unfold cycle_finish. rewrite Hbh3. cbn [Z.eqb REGISTER_PC orb negb bind].
  eexists. split; [reflexivity |].
  split; [| split].
  - rewrite with_cycles_proj. rewrite <- (get_r_in_mode_pc c3 md Hm). rewrite Hg3, Hoff. reflexivity.
  - unfold get_r. rewrite (get_mode_cpsr c _) by (rewrite cpsr_with_cycles; congruence).
    rewrite Hmd. cbn [bind]. rewrite get_r_in_mode_with_cycles.
    rewrite Hfr3 by (unfold REGISTER_PC, REGISTER_LR; lia || assumption).
    rewrite Hlr2. destruct l; reflexivity.
  - rewrite cpsr_with_cycles. congruence.
Qed.

Lemma set_thumb_state_facts (c : CPU) (b : bool) :
  cpu_wf c -> cpu_wf (set_thumb_state c b) /\ get_mode (set_thumb_state c b) = get_mode c /\
  cpsr (set_thumb_state c b) = set_bit32 (cpsr c) 5 b /\
  (forall reg md, get_r_in_mode (set_thumb_state c b) reg md = get_r_in_mode c reg md) /\
  r (set_thumb_state c b) = r c.
Proof.
  intros Hwf. unfold set_thumb_state.
  split; [destruct c; exact Hwf |]. split.
  - apply get_mode_bits. intros j Hj. rewrite cpsr_with_cpsr, testbit_set_bit32 by lia.
    destruct (Z.eqb_spec 5 j); [lia | reflexivity].
  - split; [apply cpsr_with_cpsr |]. split; [intros reg md; destruct c; reflexivity | destruct c; reflexivity].
Qed.

(** X17: One [cycle] of an ARM [BX Rm] at address [a] with a passing
    condition sets r15 to the value of Rm (read as [a + 8] when Rm is r15)
    with bit 0 cleared, and sets the T bit to bit 0 of that value. *)
Theorem arm_bx_cycle (dec_arm : Z -> result Branch.Opcode) (dec_thumb : Z -> Z -> result Branch.Opcode)
  (c : CPU) (m : Memory) (md a w rm : Z) (cond : Condition)
  (Hwf : cpu_wf c) (Hmd : get_mode c = Ok md) (Hm : In md VALID_MODES)
  (Ht : get_thumb_state c = false) (Hpc : list_get (r c) REGISTER_PC = Ok a) (Ha : 0 <= a <= U32_MAX - 8)
  (Hw : read_u32 m a = Ok w) (Hc : Condition_decode_arm w = Ok cond) (Hck : Condition_check cond c = true)
  (Hdec : dec_arm w = Branch.decode_bx_arm w)
  (Hrm : (if Z.land w 15 =? 15 then Ok (a + 8) else get_r c (Z.land w 15)) = Ok rm) :
  exists c', cycle Branch.Opcode dec_arm dec_thumb Branch.execute c m = Ok (c', m) /\
    list_get (r c') REGISTER_PC = Ok (Z.land rm 4294967294) /\
    cpsr c' = set_bit32 (cpsr c) 5 (get_bit rm 0) /\
    get_thumb_state c' = get_bit rm 0.
Proof.
  assert (Hop : dec_arm w = Ok (Branch.BRegister false true (Z.land w 15))).
  { rewrite Hdec. unfold Branch.decode_bx_arm. rewrite get_bits32_ok by lia.
    rewrite Z.shiftr_0_r. reflexivity. }
  assert (L16 : List.length (r c) = 16%nat) by (destruct Hwf as [-> _]; reflexivity).
  unfold cycle.
  rewrite (cycle_prepare_arm Branch.Opcode dec_arm dec_thumb c m a w cond _ L16 Ht Hpc ltac:(lia) Hw Hc Hck Hop).
  cbn [bind].
  destruct (decoded_stage_facts c md (a + 8) Hwf Hmd Hm) as (Hwf1 & Hcp1 & Hmd1 & Hpc1 & _ & Hfr1).
  set (c1 := with_branch_happened (with_r c (replace_nth (r c) 15 (a + 8))) false) in *.
  assert (Hr : get_r c1 (Z.land w 15) = Ok rm).
  { unfold get_r. rewrite Hmd1. cbn [bind].
    assert (0 <= Z.land w 15 <= 15).
    { assert (E15 : Z.land w 15 = w mod 16)
        by (change 15 with (Z.ones 4); rewrite Z.land_ones by lia; reflexivity).
      rewrite E15. pose proof (Z.mod_pos_bound w 16 ltac:(lia)). lia. }
    destruct (Z.eqb_spec (Z.land w 15) 15) as [E | E].
    - rewrite E. rewrite get_r_in_mode_pc by exact Hm. rewrite Hpc1. exact Hrm.
    - rewrite Hfr1 by (lia || exact Hm). unfold get_r in Hrm. rewrite Hmd in Hrm. exact Hrm. }
  cbn [Branch.execute bind]. rewrite Hr. cbn [bind].
  destruct (set_thumb_state_facts c1 (get_bit rm 0) Hwf1) as (Hwf2 & Hmd2 & Hcp2 & _ & _).
  rewrite Hmd1 in Hmd2.
  destruct (set_r_frame (set_thumb_state c1 (get_bit rm 0)) md REGISTER_PC (Z.land rm 4294967294)
              Hwf2 Hmd2 Hm ltac:(unfold REGISTER_PC; lia))
    as (c3 & Hs3 & _ & Hcp3 & Hbh3 & Hg3 & _).
  rewrite Hs3. cbn [bind].
  unfold cycle_finish. rewrite Hbh3. cbn [Z.eqb REGISTER_PC orb negb bind].
  eexists. split; [reflexivity |].
  assert (Hcp : cpsr (with_cycles c3 (cycles c3 + 2)) = set_bit32 (cpsr c) 5 (get_bit rm 0))
    by (rewrite cpsr_with_cycles, Hcp3, Hcp2, Hcp1; reflexivity).
  split; [| split].
  - rewrite with_cycles_proj. rewrite <- (get_r_in_mode_pc c3 md Hm). exact Hg3.
  - exact Hcp.
  - unfold get_thumb_state. rewrite Hcp. rewrite get_set_bit by lia. reflexivity.
Qed.

Lemma arm_bx_cycle_witness :
  cpu_wf bx_r1_cpu /\ read_u32 bx_r1_mem 0 = Ok 3778019089 /\
  exists c', cycle Branch.Opcode Branch.decode_bx_arm (fun _ _ => Err Todo) Branch.execute
               bx_r1_cpu bx_r1_mem = Ok (c', bx_r1_mem) /\
    list_get (r c') REGISTER_PC = Ok 33554432 /\ get_thumb_state c' = true.
Proof.
  assert (Hwf : cpu_wf bx_r1_cpu) by (repeat split).
  assert (Hw : read_u32 bx_r1_mem 0 = Ok 3778019089) by (vm_compute; reflexivity).
  split; [exact Hwf | split; [exact Hw |]].
  destruct (arm_bx_cycle Branch.decode_bx_arm (fun _ _ => Err Todo) bx_r1_cpu bx_r1_mem
              MODE_SVC 0 3778019089 33554433 AL Hwf eq_refl ltac:(cbn; tauto) eq_refl eq_refl
              ltac:(unfold U32_MAX; lia) Hw eq_refl eq_refl eq_refl eq_refl) as (c' & H1 & H2 & _ & H4).
  exists c'. split; [exact H1 | split; [exact H2 | exact H4]].
Defined.

Lemma get_bits32_field (w l n : Z) : 0 <= l < 32 -> 0 <= n < 32 -> l + n <= 32 ->
  get_bits32 w l n = Ok (Z.land (Z.shiftr w l) (Z.ones n)).
Proof.
  intros Hl Hn Hln. rewrite get_bits32_ok by lia. f_equal.
  apply Z.bits_inj'. intros j Hj.
  rewrite Z.shiftr_spec by lia. rewrite Z.land_spec. rewrite testbit_mask by lia.
  rewrite Z.land_spec, Z.shiftr_spec, Z.testbit_ones by lia. replace (j + l - l) with j by ring.
  zcmp_cases; cbn [andb]; rewrite ?andb_true_r, ?andb_false_r; reflexivity || lia.
Qed.

Lemma get_spsr_mode (c : CPU) (md : Z) : get_mode c = Ok md -> In md VALID_MODES ->
  ((md = MODE_USR \/ md = MODE_SYS) -> get_spsr c = Err InvalidMode) /\
  (md <> MODE_USR -> md <> MODE_SYS -> exists v, get_spsr c = Ok v).
Proof.
  intros Hmd Hm. unfold get_spsr. rewrite Hmd. cbn [bind].
  unfold VALID_MODES in Hm. cbn [In] in Hm.
  destruct Hm as [<- | [<- | [<- | [<- | [<- | [<- | [<- | []]]]]]]];
    cbn; split; intros; try (eexists; reflexivity); try reflexivity;
    cbv [MODE_USR MODE_SYS MODE_FIQ MODE_IRQ MODE_SVC MODE_ABT MODE_UND] in *; lia.
Qed.

(** X20: [MRS]: the destination is instruction bits 12-15 and the R flag bit
    22.  With R clear the destination register receives the CPSR; with R set
    it receives the SPSR of the current mode in a mode that has one, and the
    instruction panics with [InvalidMode] in USR or SYS mode.  The CPSR is
    unchanged. *)
Theorem mrs_reads_status (c : CPU) (md w : Z)
  (Hwf : cpu_wf c) (Hmd : get_mode c = Ok md) (Hm : In md VALID_MODES) :
  let d := Z.land (Z.shiftr w 12) 15 in
  exists x, Mrs_decode_arm w = Ok x /\ mrs_d x = d /\ mrs_r x = get_bit w 22 /\
    (mrs_r x = false ->
       exists c', Mrs_execute x c = Ok c' /\ get_r c' d = Ok (cpsr c) /\ cpsr c' = cpsr c) /\
    (mrs_r x = true -> md <> MODE_USR -> md <> MODE_SYS ->
       exists c' v, get_spsr c = Ok v /\ Mrs_execute x c = Ok c' /\ get_r c' d = Ok v /\
         cpsr c' = cpsr c) /\
    (mrs_r x = true -> (md = MODE_USR \/ md = MODE_SYS) -> Mrs_execute x c = Err InvalidMode).
Proof.
  cbv zeta.
  assert (Hd : 0 <= Z.land (Z.shiftr w 12) 15 < 16).
  { change 15 with (Z.ones 4). rewrite Z.land_ones by lia.
    apply Z.mod_pos_bound. reflexivity. }
  assert (Hread : forall v c', set_r c (Z.land (Z.shiftr w 12) 15) v = Ok c' ->
            get_r c' (Z.land (Z.shiftr w 12) 15) = Ok v /\ cpsr c' = cpsr c).
  { intros v c' Hs.
    destruct (set_r_frame c md (Z.land (Z.shiftr w 12) 15) v Hwf Hmd Hm Hd)
      as (c1 & Hs1 & _ & Hcp1 & _ & Hg1 & _).
    rewrite Hs in Hs1. injection Hs1 as <-.
    split; [| exact Hcp1].
    unfold get_r. rewrite (get_mode_cpsr c c' Hcp1), Hmd. exact Hg1. }
  assert (Hok : forall v, exists c', set_r c (Z.land (Z.shiftr w 12) 15) v = Ok c').
  { intros v. destruct (set_r_frame c md (Z.land (Z.shiftr w 12) 15) v Hwf Hmd Hm Hd)
      as (c1 & Hs1 & _). exists c1. exact Hs1. }
  eexists. split.
  { unfold Mrs_decode_arm. rewrite get_bits32_field by lia. reflexivity. }
  cbn [mrs_d mrs_r]. split; [reflexivity | split; [reflexivity |]].
  destruct (get_spsr_mode c md Hmd Hm) as [Hno Hyes].
  split; [| split].
  - intros Hr. unfold Mrs_execute. cbn [mrs_r mrs_d]. rewrite Hr.
    destruct (Hok (get_cpsr c)) as [c' Hs]. exists c'. split; [exact Hs |]. exact (Hread _ _ Hs).
  - intros Hr H1 H2. destruct (Hyes H1 H2) as [v Hv].
    unfold Mrs_execute. cbn [mrs_r mrs_d]. rewrite Hr, Hv. cbn [bind].
    destruct (Hok v) as [c' Hs]. exists c', v. split; [reflexivity | split; [exact Hs |]].
    exact (Hread _ _ Hs).
  - intros Hr H. unfold Mrs_execute. cbn [mrs_r mrs_d]. rewrite Hr, (Hno H). reflexivity.
Qed.

(** X21: A successful [MSR] changes no general register (any bank), no
    [branch_happened] and no cycle count; writing the CPSR leaves every SPSR
    unchanged and writing an SPSR leaves the CPSR unchanged. *)
Theorem msr_frame (x : Msr) (c c' : CPU) (H : Msr_execute x c = Ok c') :
  r c' = r c /\ r_svc c' = r_svc c /\ r_abt c' = r_abt c /\ r_und c' = r_und c /\
  r_irq c' = r_irq c /\ r_fiq c' = r_fiq c /\
  branch_happened c' = branch_happened c /\ cycles c' = cycles c /\
  (msr_r x = false ->
     spsr_svc c' = spsr_svc c /\ spsr_abt c' = spsr_abt c /\ spsr_und c' = spsr_und c /\
     spsr_irq c' = spsr_irq c /\ spsr_fiq c' = spsr_fiq c) /\
  (msr_r x = true -> cpsr c' = cpsr c).
Proof.
  unfold Msr_execute in H.
  destruct (match msr_mode x with MsrImmediate imm => Ok imm | MsrRegister m => get_r c m end)
    as [op |]; [| discriminate]. cbn [bind] in H.
  destruct (negb (Z.land op UNALLOC_MASK =? 0)); [discriminate |].
  destruct (msr_r x) eqn:Er; cbn [negb] in H.
  - destruct (current_mode_has_spsr c) as [[] |]; cbn [bind] in H; try discriminate.
    destruct (get_spsr c) as [sp |]; cbn [bind] in H; [| discriminate].
    unfold set_spsr in H. destruct (get_mode c) as [md |]; cbn [bind] in H; [| discriminate].
    destruct c.
    repeat match goal with H : context [if ?b then _ else _] |- _ => destruct b end;
      try discriminate; injection H as <-; cbn; repeat split; discriminate.
  - destruct (in_a_privileged_mode c) as [[] |]; cbn [bind] in H; try discriminate.
    + destruct (negb (Z.land op STATE_MASK =? 0)); cbn [bind] in H; [discriminate |].
      injection H as <-. destruct c; cbn; repeat split; discriminate.
    + injection H as <-. destruct c; cbn; repeat split; discriminate.
Qed.

Lemma msr_frame_witness :
  exists c', Msr_execute msr_set_t msr_usr_cpu = Ok c' /\ r c' = r msr_usr_cpu.
Proof.
  eexists. split; [vm_compute; reflexivity |].
  apply (msr_frame msr_set_t msr_usr_cpu). vm_compute. reflexivity.
Defined.

(** X15: In ARM state, fetching a word whose condition field is 0b1111 makes
    [cycle] panic with [InvalidCondition], whatever the instruction set. *)
Theorem arm_cond_nv_panics (Instr : Type) (dec_arm : Z -> result Instr) (dec_thumb : Z -> Z -> result Instr)
  (exec : Instr -> CPU -> Memory -> result (CPU * Memory)) (c : CPU) (m : Memory) (a w : Z)
  (Hl : List.length (r c) = 16%nat) (Ht : get_thumb_state c = false)
  (Hpc : list_get (r c) REGISTER_PC = Ok a) (Ha : a + 4 <= U32_MAX)
  (Hw : read_u32 m a = Ok w) (Hnv : 4026531840 <= w <= U32_MAX) :
  cycle Instr dec_arm dec_thumb exec c m = Err InvalidCondition.
Proof.
  assert (L16 : Z.of_nat (List.length (r c)) = 16) by (rewrite Hl; reflexivity).
  unfold cycle, cycle_prepare. rewrite Ht.
  unfold fetch_arm. rewrite Hpc. cbn [bind]. rewrite Hw. cbn [bind].
  unfold advance_pc. rewrite Hpc. cbn [bind].
  unfold instruction_len_in_bytes. rewrite Ht. unfold INSTRUCTION_LEN_ARM.
  rewrite add32_ok by lia. cbn [bind].
  rewrite list_set_in_range by (unfold REGISTER_PC; lia). cbn [bind].
  unfold Condition_decode_arm. rewrite get_bits32_field by lia.
  replace (Z.land (Z.shiftr w 28) (Z.ones 4)) with 15.
  - reflexivity.
  - rewrite Z.shiftr_div_pow2 by lia. unfold U32_MAX in Hnv.
    replace (w / 2 ^ 28) with 15 by (apply Z.div_unique with (w - 15 * 2 ^ 28); lia).
    reflexivity.
Qed.

Lemma arm_cond_nv_panics_witness :
  let m := Memory_new (mkVec 16384 (fun j => if j <? 4 then 255 else 0)) (vec_zeros 16) in
  read_u32 m 0 = Ok 4294967295 /\
  cycle unit nop_decode_arm nop_decode_thumb nop_execute cpu_reset_state m = Err InvalidCondition.
Proof.
  cbv zeta. split; [vm_compute; reflexivity |].
  apply (arm_cond_nv_panics unit nop_decode_arm nop_decode_thumb nop_execute cpu_reset_state _ 0 4294967295);
    [reflexivity | reflexivity | reflexivity | unfold U32_MAX; lia | vm_compute; reflexivity | unfold U32_MAX; lia].
Defined.

Section ExecAddresses.
Variable Instr : Type.
Variable decode_arm_instr : Z -> result Instr.
Variable decode_thumb_instr : Z -> Z -> result Instr.

(** X12: When [cycle] hands a decoded instruction to [execute],
    [curr_instruction_address_from_execution_stage] gives the address the
    instruction was fetched from and
    [next_instruction_address_from_execution_stage] gives that address plus
    the instruction length of the fetching state. *)
Theorem execution_stage_addresses (c c1 : CPU) (m : Memory) (pc : Z) (i : Instr)
  (Hpc : list_get (r c) REGISTER_PC = Ok pc) (Hpos : 0 <= pc)
  (Hp : cycle_prepare Instr decode_arm_instr decode_thumb_instr c m = Ok (Decoded Instr i c1)) :
  curr_instruction_address_from_execution_stage c1 = Ok pc /\
  next_instruction_address_from_execution_stage c1 = Ok (pc + instruction_len_in_bytes c).
Proof.
  destruct (cycle_prepare_spec Instr decode_arm_instr decode_thumb_instr c m pc _ Hpc Hp) as [Hpc1 Hcp1].
  unfold curr_instruction_address_from_execution_stage, next_instruction_address_from_execution_stage.
  rewrite Hpc1. cbn [bind]. rewrite (instruction_len_cpsr c c1 Hcp1).
  assert (0 < instruction_len_in_bytes c)
    by (unfold instruction_len_in_bytes; destruct (get_thumb_state c); cbv; reflexivity).
  unfold sub32.
  destruct (Z.leb_spec (instruction_len_in_bytes c * 2) (pc + 2 * instruction_len_in_bytes c)); [| lia].
  destruct (Z.leb_spec (instruction_len_in_bytes c) (pc + 2 * instruction_len_in_bytes c)); [| lia].
  split; f_equal; ring.
Qed.
End ExecAddresses.

Lemma get_bits16_field (w l n : Z) : 0 <= l < 16 -> 0 <= n < 16 -> l + n <= 16 ->
  get_bits16 w l n = Ok (Z.land (Z.shiftr w l) (Z.ones n)).
Proof.
  intros Hl Hn Hln. unfold get_bits16, shl16, shr16.
  destruct (Z.ltb_spec n 16); [| lia]. cbn [bind].
  assert (E1 : Z.land (Z.shiftl 1 n) 65535 = 2 ^ n).
  { rewrite Z.shiftl_1_l. change 65535 with (Z.ones 16). rewrite Z.land_ones by lia.
    apply Z.mod_small. split; [apply Z.pow_nonneg; lia | apply Z.pow_lt_mono_r; lia]. }
  rewrite E1. unfold sub32.
  destruct (Z.leb_spec 1 (2 ^ n)); [| pose proof (Z.pow_pos_nonneg 2 n); lia]. cbn [bind].
  destruct (Z.ltb_spec l 16); [| lia]. cbn [bind].
  destruct (Z.ltb_spec l 16); [| lia]. f_equal.
  replace (2 ^ n - 1) with (Z.ones n) by (rewrite Z.ones_equiv; lia).
  apply Z.bits_inj'. intros j Hj.
  rewrite Z.shiftr_spec by lia. rewrite !Z.land_spec. rewrite Z.shiftr_spec by lia.
  change 65535 with (Z.ones 16). rewrite Z.shiftl_spec by lia.
  rewrite !Z.testbit_ones by lia. replace (j + l - l) with j by ring.
  zcmp_cases; cbn [andb]; rewrite ?andb_true_r, ?andb_false_r; reflexivity || lia.
Qed.

(** A Thumb instruction reaches [execute] with r15 advanced by 4 and
    nothing else changed but [branch_happened]. *)
Lemma cycle_prepare_thumb (Instr : Type) (dec_arm : Z -> result Instr) (dec_thumb : Z -> Z -> result Instr)
  (c : CPU) (m : Memory) (a h nx : Z) (i : Instr) :
  List.length (r c) = 16%nat -> get_thumb_state c = true ->
  list_get (r c) REGISTER_PC = Ok a -> a + 4 <= U32_MAX ->
  read_u16 m a = Ok h -> read_u16 m (a + 2) = Ok nx -> dec_thumb h nx = Ok i ->
  cycle_prepare Instr dec_arm dec_thumb c m =
    Ok (Decoded Instr i (with_branch_happened (with_r c (replace_nth (r c) 15 (a + 4))) false)).
Proof.
  intros Hl Ht Hpc Ha Hh Hn Hd.
  assert (L16 : Z.of_nat (List.length (r c)) = 16) by (rewrite Hl; reflexivity).
  unfold cycle_prepare. rewrite Ht.
  unfold fetch_thumb at 1. rewrite Hpc. cbn [bind]. rewrite Hh. cbn [bind].
  unfold advance_pc at 1. rewrite Hpc. cbn [bind].
  unfold instruction_len_in_bytes. rewrite Ht. unfold INSTRUCTION_LEN_THUMB.
  rewrite add32_ok by lia. cbn [bind].
  rewrite list_set_in_range by (unfold REGISTER_PC; lia). cbn [bind].
  unfold fetch_thumb.
  destruct (with_r_proj c (replace_nth (r c) (Z.to_nat REGISTER_PC) (a + 2))) as (-> & Hcp & _).
  rewrite list_get_replace by (unfold REGISTER_PC; lia). rewrite Z.eqb_refl. cbn [bind].
  rewrite Hn. cbn [bind]. rewrite Hd. cbn [bind].
  unfold advance_pc.
  destruct (with_r_proj c (replace_nth (r c) (Z.to_nat REGISTER_PC) (a + 2))) as (-> & _ & _).
  rewrite list_get_replace by (unfold REGISTER_PC; lia). rewrite Z.eqb_refl. cbn [bind].
  unfold instruction_len_in_bytes, get_thumb_state. rewrite Hcp. fold (get_thumb_state c). rewrite Ht.
  unfold INSTRUCTION_LEN_THUMB. rewrite add32_ok by lia. cbn [bind].
  rewrite list_set_in_range by (rewrite length_replace; unfold REGISTER_PC; lia). cbn [bind].
  replace (a + 2 + 2) with (a + 4) by ring.
  rewrite replace_nth_twice. unfold REGISTER_PC. change (Z.to_nat 15) with 15%nat.
  f_equal. f_equal. destruct c; reflexivity.
Qed.

(** The branch target arithmetic of the decoders: a sign-extended field
    shifted left and offset by [k], added to [a] modulo 2^32. *)
Lemma branch_target_mod (a x len sh k : Z) :
  1 <= len < 32 -> 0 <= x < 2 ^ len -> 0 <= sh < 32 ->
  exists sx, sign_extend32 x len = Ok sx /\
    (a + (Z.land (Z.shiftl sx sh) U32_MAX + k) mod 2 ^ 32) mod 2 ^ 32 =
    (a + k + 2 ^ sh * (if x <? 2 ^ (len - 1) then x else x - 2 ^ len)) mod 2 ^ 32.
Proof.
  intros Hl Hx Hsh.
  assert (Hlt : 2 ^ len < 2 ^ 32) by (apply Z.pow_lt_mono_r; lia).
  destruct (sign_extend32_cases x len ltac:(unfold is_u32, U32_MAX; lia)) as [Hs _].
  specialize (Hs ltac:(lia)). cbv zeta in Hs. rewrite Z.mod_small in Hs by lia.
  eexists. split; [exact Hs |].
  change U32_MAX with (Z.ones 32). rewrite Z.land_ones by lia. rewrite Z.shiftl_mul_pow2 by lia.
  rewrite Z.add_mod_idemp_l by lia. rewrite Z.add_mod_idemp_r by lia.
  destruct (x <? 2 ^ (len - 1)).
  - f_equal. ring.
  - replace (a + ((x + 2 ^ 32 - 2 ^ len) * 2 ^ sh + k))
      with (a + k + 2 ^ sh * (x - 2 ^ len) + 2 ^ sh * 2 ^ 32) by ring.
    apply Z.mod_add. lia.
Qed.

Lemma land_low_bound (h k : Z) : 0 <= k -> 0 <= Z.land h (Z.ones k) < 2 ^ k.
Proof. intros Hk. rewrite Z.land_ones by lia. apply Z.mod_pos_bound. apply Z.pow_pos_nonneg; lia. Qed.

(** X18: One [cycle] of a Thumb unconditional [B] at address [a] sets r15 to
    [a + 4 + 2 * imm11] (imm11 sign-extended, modulo 2^32) and leaves the
    CPSR, r0-r14 and memory unchanged. *)
Theorem thumb_b_cycle (dec_arm : Z -> result Branch.Opcode)
  (c : CPU) (m : Memory) (md a h nx : Z)
  (Hwf : cpu_wf c) (Hmd : get_mode c = Ok md) (Hm : In md VALID_MODES)
  (Ht : get_thumb_state c = true) (Hpc : list_get (r c) REGISTER_PC = Ok a) (Ha : 0 <= a <= U32_MAX - 4)
  (Hh : read_u16 m a = Ok h) (Hn : read_u16 m (a + 2) = Ok nx) :
  let imm := Z.land h 2047 in
  let s := if imm <? 1024 then imm else imm - 2048 in
  exists c', cycle Branch.Opcode dec_arm Branch.decode_unconditional_branch_thumb Branch.execute c m = Ok (c', m) /\
    list_get (r c') REGISTER_PC = Ok ((a + 4 + 2 * s) mod 2 ^ 32) /\
    cpsr c' = cpsr c /\
    forall reg, 0 <= reg < 15 -> get_r c' reg = get_r c reg.
Proof.
  cbv zeta.
  pose proof (land_low_bound h 11 ltac:(lia)) as Hx. change (Z.ones 11) with 2047 in Hx.
  destruct (branch_target_mod a (Z.land h 2047) 11 1 4 ltac:(lia) Hx ltac:(lia)) as (sx & Hsx & Harith).
  change (2 ^ (11 - 1)) with 1024 in Harith. change (2 ^ 11) with 2048 in Harith. change (2 ^ 1) with 2 in Harith.
  assert (Hdec : Branch.decode_unconditional_branch_thumb h nx =
    Ok (Branch.BOffset false false ((Z.land (Z.shiftl sx 1) U32_MAX + 4) mod 2 ^ 32))).
  { unfold Branch.decode_unconditional_branch_thumb. rewrite get_bits16_field by lia.
    rewrite Z.shiftr_0_r. change (Z.ones 11) with 2047. cbn [bind]. rewrite Hsx. cbn [bind].
    rewrite shl32_ok by lia. reflexivity. }
  assert (L16 : List.length (r c) = 16%nat) by (destruct Hwf as [-> _]; reflexivity).
  unfold cycle.
  rewrite (cycle_prepare_thumb Branch.Opcode dec_arm _ c m a h nx _ L16 Ht Hpc ltac:(lia) Hh Hn Hdec).
  cbn [bind].
  destruct (decoded_stage_facts c md (a + 4) Hwf Hmd Hm) as (Hwf1 & Hcp1 & Hmd1 & Hpc1 & _ & Hfr1).
  set (c1 := with_branch_happened (with_r c (replace_nth (r c) 15 (a + 4))) false) in *.
  cbn [Branch.execute bind].
  unfold curr_instruction_address_from_execution_stage. rewrite Hpc1. cbn [bind].
  unfold instruction_len_in_bytes, get_thumb_state. rewrite Hcp1. fold (get_thumb_state c). rewrite Ht.
  unfold sub32, INSTRUCTION_LEN_THUMB. destruct (Z.leb_spec (2 * 2) (a + 4)); [| lia]. cbn [bind].
  replace (a + 4 - 2 * 2) with a by ring.
  destruct (set_r_frame c1 md REGISTER_PC ((a + (Z.land (Z.shiftl sx 1) U32_MAX + 4) mod 2 ^ 32) mod 2 ^ 32)
              Hwf1 Hmd1 Hm ltac:(unfold REGISTER_PC; lia))
    as (c3 & Hs3 & _ & Hcp3 & Hbh3 & Hg3 & Hfr3).
  rewrite Hs3. cbn [bind].
  unfold cycle_finish. rewrite Hbh3. cbn [Z.eqb REGISTER_PC orb negb bind].
  eexists. split; [reflexivity |].
  split; [| split].
  - rewrite with_cycles_proj. rewrite <- (get_r_in_mode_pc c3 md Hm). rewrite Hg3, Harith. reflexivity.
  - rewrite cpsr_with_cycles. congruence.
  - intros reg Hr. unfold get_r.
    rewrite (get_mode_cpsr c _) by (rewrite cpsr_with_cycles; congruence).
    rewrite Hmd. cbn [bind]. rewrite get_r_in_mode_with_cycles.
    rewrite Hfr3 by (unfold REGISTER_PC; lia || assumption).
    apply Hfr1; assumption.
Qed.

(** X19: One [cycle] of a Thumb conditional [B] at address [a] whose
    condition field parses: if the condition holds r15 becomes [a + 4 + 2 *
    imm8] (imm8 sign-extended, modulo 2^32), otherwise r15 becomes [a + 2];
    the CPSR, r0-r14 and memory are unchanged. *)
Theorem thumb_bcond_cycle (dec_arm : Z -> result Branch.Opcode)
  (c : CPU) (m : Memory) (md a h nx : Z) (cond : Condition)
  (Hwf : cpu_wf c) (Hmd : get_mode c = Ok md) (Hm : In md VALID_MODES)
  (Ht : get_thumb_state c = true) (Hpc : list_get (r c) REGISTER_PC = Ok a) (Ha : 0 <= a <= U32_MAX - 4)
  (Hh : read_u16 m a = Ok h) (Hn : read_u16 m (a + 2) = Ok nx)
  (Hc : Condition_parse (Z.land (Z.shiftr h 8) 15) = Ok cond) :
  let imm := Z.land h 255 in
  let s := if imm <? 128 then imm else imm - 256 in
  exists c', cycle Branch.Opcode dec_arm Branch.decode_conditional_branch_thumb Branch.execute c m = Ok (c', m) /\
    list_get (r c') REGISTER_PC =
      Ok (if Condition_check cond c then (a + 4 + 2 * s) mod 2 ^ 32 else a + 2) /\
    cpsr c' = cpsr c /\
    forall reg, 0 <= reg < 15 -> get_r c' reg = get_r c reg.
Proof.
  cbv zeta.
  pose proof (land_low_bound h 8 ltac:(lia)) as Hx. change (Z.ones 8) with 255 in Hx.
  destruct (branch_target_mod a (Z.land h 255) 8 1 4 ltac:(lia) Hx ltac:(lia)) as (sx & Hsx & Harith).
  change (2 ^ (8 - 1)) with 128 in Harith. change (2 ^ 8) with 256 in Harith. change (2 ^ 1) with 2 in Harith.
  assert (Hdec : Branch.decode_conditional_branch_thumb h nx =
    Ok (Branch.BCondThumb cond ((Z.land (Z.shiftl sx 1) U32_MAX + 4) mod 2 ^ 32))).
  { unfold Branch.decode_conditional_branch_thumb. rewrite get_bits16_field by lia.
    rewrite Z.shiftr_0_r. change (Z.ones 8) with 255. cbn [bind]. rewrite Hsx. cbn [bind].
    rewrite shl32_ok by lia. cbn [bind]. rewrite get_bits16_field by lia.
    change (Z.ones 4) with 15. cbn [bind]. rewrite Hc. reflexivity. }
  assert (L16 : List.length (r c) = 16%nat) by (destruct Hwf as [-> _]; reflexivity).
  unfold cycle.
  rewrite (cycle_prepare_thumb Branch.Opcode dec_arm _ c m a h nx _ L16 Ht Hpc ltac:(lia) Hh Hn Hdec).
  cbn [bind].
  destruct (decoded_stage_facts c md (a + 4) Hwf Hmd Hm) as (Hwf1 & Hcp1 & Hmd1 & Hpc1 & Hbh1 & Hfr1).
  set (c1 := with_branch_happened (with_r c (replace_nth (r c) 15 (a + 4))) false) in *.
  cbn [Branch.execute].
  rewrite (condition_check_cpsr cond c c1 Hcp1).
  destruct (Condition_check cond c).
  - unfold curr_instruction_address_from_execution_stage. rewrite Hpc1. cbn [bind].
    unfold instruction_len_in_bytes, get_thumb_state. rewrite Hcp1. fold (get_thumb_state c). rewrite Ht.
    unfold sub32, INSTRUCTION_LEN_THUMB. destruct (Z.leb_spec (2 * 2) (a + 4)); [| lia]. cbn [bind].
    replace (a + 4 - 2 * 2) with a by ring.
    destruct (set_r_frame c1 md REGISTER_PC ((a + (Z.land (Z.shiftl sx 1) U32_MAX + 4) mod 2 ^ 32) mod 2 ^ 32)
                Hwf1 Hmd1 Hm ltac:(unfold REGISTER_PC; lia))
      as (c3 & Hs3 & _ & Hcp3 & Hbh3 & Hg3 & Hfr3).
    rewrite Hs3. cbn [bind].
    unfold cycle_finish. rewrite Hbh3. cbn [Z.eqb REGISTER_PC orb negb bind].
    eexists. split; [reflexivity |].
    split; [| split].
    + rewrite with_cycles_proj. rewrite <- (get_r_in_mode_pc c3 md Hm). rewrite Hg3, Harith. reflexivity.
    + rewrite cpsr_with_cycles. congruence.
    + intros reg Hr. unfold get_r.
      rewrite (get_mode_cpsr c _) by (rewrite cpsr_with_cycles; congruence).
      rewrite Hmd. cbn [bind]. rewrite get_r_in_mode_with_cycles.
      rewrite Hfr3 by (unfold REGISTER_PC; lia || assumption).
      apply Hfr1; assumption.
  - cbn [bind]. unfold cycle_finish. rewrite Hbh1. cbn [negb].
    assert (L16' : Z.of_nat (List.length (r c1)) = 16) by (destruct Hwf1 as [-> _]; reflexivity).
    unfold retreat_pc. rewrite Hpc1. cbn [bind].
    unfold instruction_len_in_bytes, get_thumb_state. rewrite Hcp1. fold (get_thumb_state c). rewrite Ht.
    unfold sub32, INSTRUCTION_LEN_THUMB. destruct (Z.leb_spec 2 (a + 4)); [| lia]. cbn [bind].
    rewrite list_set_in_range by (unfold REGISTER_PC; lia). cbn [bind].
    eexists. split; [reflexivity |].
    unfold REGISTER_PC. change (Z.to_nat 15) with 15%nat.
    assert (Hcp4 : cpsr (with_cycles (with_r c1 (replace_nth (r c1) 15 (a + 4 - 2)))
                      (cycles (with_r c1 (replace_nth (r c1) 15 (a + 4 - 2))) + 2)) = cpsr c)
      by (rewrite cpsr_with_cycles; destruct c1; exact Hcp1).
    split; [| split].
    + rewrite with_cycles_proj. destruct (with_r_proj c1 (replace_nth (r c1) 15 (a + 4 - 2))) as (-> & _ & _).
      change 15%nat with (Z.to_nat 15). rewrite list_get_replace by lia. rewrite Z.eqb_refl. f_equal. ring.
    + exact Hcp4.
    + intros reg Hr. unfold get_r.
      rewrite (get_mode_cpsr c _ Hcp4). rewrite Hmd. cbn [bind]. rewrite get_r_in_mode_with_cycles.
      rewrite get_r_in_mode_replace_pc by assumption. apply Hfr1; assumption.
Qed.

Lemma arm_b_bl_cycle_witness :
  cpu_wf cpu_reset_state /\ read_u32 bl_back_mem 0 = Ok 3959422972 /\
  exists c', cycle Branch.Opcode Branch.decode_bl_arm (fun _ _ => Err Todo) Branch.execute
               cpu_reset_state bl_back_mem = Ok (c', bl_back_mem) /\
    list_get (r c') REGISTER_PC = Ok 4294967288 /\ get_r c' REGISTER_LR = Ok 4.
Proof.
  assert (Hwf : cpu_wf cpu_reset_state) by (repeat split).
  assert (Hw : read_u32 bl_back_mem 0 = Ok 3959422972) by (vm_compute; reflexivity).
  split; [exact Hwf | split; [exact Hw |]].
  destruct (arm_b_bl_cycle Branch.decode_bl_arm (fun _ _ => Err Todo) cpu_reset_state bl_back_mem
              MODE_SVC 0 3959422972 AL true Hwf eq_refl ltac:(cbn; tauto) eq_refl eq_refl
              ltac:(unfold U32_MAX; lia) Hw eq_refl eq_refl eq_refl) as (c' & H1 & H2 & H3 & _).
  exists c'. split; [exact H1 | split; [exact H2 | exact H3]].
Defined.

Lemma thumb_b_cycle_witness :
  read_u16 thumb_b_self_mem 0 = Ok 59390 /\
  exists c', cycle Branch.Opcode (fun _ => Err Todo) Branch.decode_unconditional_branch_thumb Branch.execute
               thumb_reset_cpu thumb_b_self_mem = Ok (c', thumb_b_self_mem) /\
    list_get (r c') REGISTER_PC = Ok 0.
Proof.
  assert (Hwf : cpu_wf thumb_reset_cpu) by (repeat split).
  assert (Hh : read_u16 thumb_b_self_mem 0 = Ok 59390) by (vm_compute; reflexivity).
  split; [exact Hh |].
  destruct (thumb_b_cycle (fun _ => Err Todo) thumb_reset_cpu thumb_b_self_mem MODE_SVC 0 59390 0
              Hwf eq_refl ltac:(cbn; tauto) eq_refl eq_refl ltac:(unfold U32_MAX; lia) Hh
              ltac:(vm_compute; reflexivity)) as (c' & H1 & H2 & _).
  exists c'. split; [exact H1 | rewrite H2; vm_compute; reflexivity].
Defined.

Lemma thumb_bcond_cycle_witness :
  read_u16 thumb_bne_self_mem 0 = Ok 53758 /\
  exists c', cycle Branch.Opcode (fun _ => Err Todo) Branch.decode_conditional_branch_thumb Branch.execute
               thumb_reset_cpu thumb_bne_self_mem = Ok (c', thumb_bne_self_mem) /\
    list_get (r c') REGISTER_PC = Ok 0.
Proof.
  assert (Hwf : cpu_wf thumb_reset_cpu) by (repeat split).
  assert (Hh : read_u16 thumb_bne_self_mem 0 = Ok 53758) by (vm_compute; reflexivity).
  split; [exact Hh |].
  destruct (thumb_bcond_cycle (fun _ => Err Todo) thumb_reset_cpu thumb_bne_self_mem MODE_SVC 0 53758 0 NE
              Hwf eq_refl ltac:(cbn; tauto) eq_refl eq_refl ltac:(unfold U32_MAX; lia) Hh
              ltac:(vm_compute; reflexivity) eq_refl) as (c' & H1 & H2 & _).
  exists c'. split; [exact H1 | rewrite H2; vm_compute; reflexivity].
Defined.

(** X1: setting a bit field then reading it back.  For a 32-bit word [w] and
    a field at lsb [l < 32] of length [n < 32] with [l + n <= 32],
    [set_bits32 w l n v] succeeds, reading the same field of the result
    gives [v mod 2^n], and every bit outside the field is that of [w]. *)
Theorem set_bits32_then_get_bits32 (w l n v : Z) (Hw : is_u32 w) (Hl : 0 <= l < 32) (Hn : 0 <= n < 32)
  (Hln : l + n <= 32) :
  exists w', set_bits32 w l n v = Ok w' /\ get_bits32 w' l n = Ok (v mod 2 ^ n) /\
    forall j, 0 <= j -> j < l \/ l + n <= j -> Z.testbit w' j = Z.testbit w j.
Proof. exact (set_bits32_field w l n v Hw Hl Hn Hln). Qed.

(** X2: [set_bit32] changes one bit.  For bit positions [i, j < 32], bit [j]
    of [set_bit32 d i v] is [v] when [j = i] and bit [j] of [d] otherwise.
    *)
Theorem set_bit32_get_bit (d i j : Z) (v : bool) (Hi : 0 <= i < 32) (Hj : 0 <= j < 32) :
  get_bit (set_bit32 d i v) j = if i =? j then v else get_bit d j.
Proof. exact (get_set_bit d i j v Hi Hj). Qed.

(** X10: A successful [set_r_in_mode c reg mode v] is read back by
    [get_r_in_mode] at the same register and mode, keeps the CPSR, and sets
    [branch_happened] exactly when [reg] is r15 (keeping its old value
    otherwise). *)
Theorem set_r_in_mode_effects (c c' : CPU) (reg mode v : Z)
  (H : set_r_in_mode c reg mode v = Ok c') :
  get_r_in_mode c' reg mode = Ok v /\ cpsr c' = cpsr c /\
  branch_happened c' = (reg =? REGISTER_PC) || branch_happened c.
Proof. exact (set_r_in_mode_spec c c' reg mode v H). Qed.

(** X3: [sign_extend32] on a 32-bit [data]: for a width [1 <= len <= 32] it
    keeps the low [len] bits and copies bit [len - 1] into the bits above
    (the result read modulo 2^32); width 0 panics on the shift [1 << 32],
    and a width above 32 panics on the subtraction [32 - len]. *)
Theorem sign_extend32_spec (data len : Z) (Hd : is_u32 data) :
  (1 <= len <= 32 ->
     sign_extend32 data len =
       Ok (let x := data mod 2 ^ len in if x <? 2 ^ (len - 1) then x else x + 2 ^ 32 - 2 ^ len)) /\
  sign_extend32 data 0 = Err ShiftOverflow /\
  (32 < len -> sign_extend32 data len = Err SubOverflow).
Proof. exact (sign_extend32_cases data len Hd). Qed.

Lemma set_bits32_then_get_bits32_witness :
  exists w', set_bits32 2864434397 8 4 5 = Ok w' /\ get_bits32 w' 8 4 = Ok 5.
Proof.
  destruct (set_bits32_then_get_bits32 2864434397 8 4 5 ltac:(unfold is_u32, U32_MAX; lia)
              ltac:(lia) ltac:(lia) ltac:(lia)) as (w' & H1 & H2 & _).
  exists w'. split; [exact H1 | exact H2].
Defined.

Lemma set_bit32_get_bit_witness : get_bit (set_bit32 211 5 true) 5 = true /\ get_bit (set_bit32 211 5 true) 0 = true.
Proof.
  split; [exact (set_bit32_get_bit 211 5 5 true ltac:(lia) ltac:(lia))
         | exact (set_bit32_get_bit 211 5 0 true ltac:(lia) ltac:(lia))].
Defined.

Lemma set_r_in_mode_effects_witness :
  exists c', set_r_in_mode cpu_reset_state 14 MODE_SVC 7 = Ok c' /\ get_r_in_mode c' 14 MODE_SVC = Ok 7.
Proof.
  destruct (set_r_in_mode cpu_reset_state 14 MODE_SVC 7) as [c' | p] eqn:H.
  - exists c'. split; [reflexivity |]. exact (proj1 (set_r_in_mode_effects _ _ _ _ _ H)).
  - vm_compute in H. discriminate H.
Defined.

Lemma sign_extend32_spec_witness :
  sign_extend32 255 8 = Ok 4294967295 /\ sign_extend32 127 8 = Ok 127 /\ sign_extend32 255 33 = Err SubOverflow.
Proof.
  split; [| split].
  - rewrite (proj1 (sign_extend32_spec 255 8 ltac:(unfold is_u32, U32_MAX; lia)) ltac:(lia)). reflexivity.
  - rewrite (proj1 (sign_extend32_spec 127 8 ltac:(unfold is_u32, U32_MAX; lia)) ltac:(lia)). reflexivity.
  - exact (proj2 (proj2 (sign_extend32_spec 255 33 ltac:(unfold is_u32, U32_MAX; lia))) ltac:(lia)).
Defined.

Lemma set_mode_round_trip_witness :
  exists c', set_mode cpu_reset_state MODE_SYS = Ok c' /\ get_mode c' = Ok MODE_SYS.
Proof.
  destruct (set_mode_round_trip cpu_reset_state MODE_SYS ltac:(unfold is_u32, U32_MAX; cbn; lia))
    as (c' & H1 & H2 & _).
  exists c'. split; [exact H1 | exact H2].
Defined.

Lemma reset_postconditions_witness :
  exists c', reset (with_cpsr cpu_reset_state 16) = Ok c' /\ get_mode c' = Ok MODE_SVC /\
    list_get (r c') REGISTER_PC = Ok 0.
Proof.
  destruct (reset_postconditions (with_cpsr cpu_reset_state 16) eq_refl)
    as (c' & H1 & H2 & _ & _ & _ & _ & _ & _ & _ & H3 & _).
  exists c'. split; [exact H1 | split; [exact H2 | exact H3]].
Defined.

Lemma spsr_banked_witness :
  (exists c', set_spsr cpu_reset_state 16 = Ok c' /\ get_spsr c' = Ok 16) /\
  get_spsr (with_cpsr cpu_reset_state 16) = Err InvalidMode.
Proof.
  split.
  - destruct (proj1 (spsr_banked cpu_reset_state MODE_SVC 16 eq_refl) ltac:(cbn; tauto))
      as (c' & H1 & H2 & _). exists c'. split; [exact H1 | exact H2].
  - exact (proj1 (proj2 (spsr_banked (with_cpsr cpu_reset_state 16) MODE_USR 16 eq_refl)
                   ltac:(cbn; intuition discriminate))).
Defined.

Lemma add_sub_with_flags_carry_exact_witness :
  add_with_flags_carry 4294967295 0 true = (0, true, false) /\
  sub_with_flags_carry 0 0 true = (4294967295, true, false).
Proof.
  pose proof (add_sub_with_flags_carry_exact 4294967295 0 true ltac:(unfold is_u32, U32_MAX; lia)
                ltac:(unfold is_u32, U32_MAX; lia)) as [H1 _].
  pose proof (add_sub_with_flags_carry_exact 0 0 true ltac:(unfold is_u32, U32_MAX; lia)
                ltac:(unfold is_u32, U32_MAX; lia)) as [_ H2].
  rewrite H1, H2. split; reflexivity.
Defined.

Lemma wram1_u32_round_trip_witness :
  exists m', write_u32 33554432 4660 mem0 = (m', Ok tt) /\ read_u32 m' 33554432 = Ok 4660.
Proof.
  exact (wram1_u32_round_trip mem0 33554432 4660 eq_refl ltac:(lia) ltac:(unfold is_u32, U32_MAX; lia)).
Defined.

Lemma write_u8_regions_witness :
  (exists m', write_u8 67108864 7 mem0 = (m', Ok tt) /\ read_u8 m' 67108864 = Ok 7) /\
  (exists p, write_u8 0 7 mem0 = (mem0, Err p)).
Proof.
  split.
  - exact (proj1 (write_u8_regions mem0 67108864 7 eq_refl eq_refl eq_refl) ltac:(lia)).
  - exact (proj2 (write_u8_regions mem0 0 7 eq_refl eq_refl eq_refl) ltac:(lia)).
Defined.

Lemma mrs_reads_status_witness :
  Mrs_decode_arm 3775856640 = Ok (mkMrs 0 false) /\
  exists c', Mrs_execute (mkMrs 0 false) cpu_reset_state = Ok c' /\ get_r c' 0 = Ok 211.
Proof.
  destruct (mrs_reads_status cpu_reset_state MODE_SVC 3775856640 ltac:(repeat split) eq_refl
              ltac:(cbn; tauto)) as (x & Hx & _ & Hr & H1 & _).
  assert (Ex : x = mkMrs 0 false) by (vm_compute in Hx; injection Hx as <-; reflexivity).
  subst x. split; [exact Hx |].
  destruct (H1 eq_refl) as (c' & H2 & H3 & _). exists c'. split; [exact H2 | exact H3].
Defined.

Lemma execution_stage_addresses_witness :
  cycle_prepare unit nop_decode_arm nop_decode_thumb cpu_reset_state nop_mem =
    Ok (Decoded unit tt (with_branch_happened (with_r cpu_reset_state (replace_nth (zeros 16) 15 8)) false)) /\
  curr_instruction_address_from_execution_stage
    (with_branch_happened (with_r cpu_reset_state (replace_nth (zeros 16) 15 8)) false) = Ok 0 /\
  next_instruction_address_from_execution_stage
    (with_branch_happened (with_r cpu_reset_state (replace_nth (zeros 16) 15 8)) false) = Ok 4.
Proof.
  assert (Hp : cycle_prepare unit nop_decode_arm nop_decode_thumb cpu_reset_state nop_mem =
    Ok (Decoded unit tt (with_branch_happened (with_r cpu_reset_state (replace_nth (zeros 16) 15 8)) false)))
    by (vm_compute; reflexivity).
  split; [exact Hp |].
  exact (execution_stage_addresses unit nop_decode_arm nop_decode_thumb cpu_reset_state _ nop_mem 0 tt
           eq_refl ltac:(lia) Hp).
Defined.

(** The Thumb fetch of [cycle_prepare], for any outcome of the decoder. *)
Lemma cycle_prepare_thumb_decode (Instr : Type) (dec_arm : Z -> result Instr) (dec_thumb : Z -> Z -> result Instr)
  (c : CPU) (m : Memory) (a h nx : Z) :
  List.length (r c) = 16%nat -> get_thumb_state c = true ->
  list_get (r c) REGISTER_PC = Ok a -> a + 4 <= U32_MAX ->
  read_u16 m a = Ok h -> read_u16 m (a + 2) = Ok nx ->
  cycle_prepare Instr dec_arm dec_thumb c m =
    (i <- dec_thumb h nx ;;
     Ok (Decoded Instr i (with_branch_happened (with_r c (replace_nth (r c) 15 (a + 4))) false))).
Proof.
  intros Hl Ht Hpc Ha Hh Hn.
  destruct (dec_thumb h nx) as [i | p] eqn:Hd.
  - cbn [bind]. exact (cycle_prepare_thumb Instr dec_arm dec_thumb c m a h nx i Hl Ht Hpc Ha Hh Hn Hd).
  - assert (L16 : Z.of_nat (List.length (r c)) = 16) by (rewrite Hl; reflexivity).
    unfold cycle_prepare. rewrite Ht.
    unfold fetch_thumb at 1. rewrite Hpc. cbn [bind]. rewrite Hh. cbn [bind].
    unfold advance_pc at 1. rewrite Hpc. cbn [bind].
    unfold instruction_len_in_bytes. rewrite Ht. unfold INSTRUCTION_LEN_THUMB.
    rewrite add32_ok by lia. cbn [bind].
    rewrite list_set_in_range by (unfold REGISTER_PC; lia). cbn [bind].
    unfold fetch_thumb.
    destruct (with_r_proj c (replace_nth (r c) (Z.to_nat REGISTER_PC) (a + 2))) as (-> & _ & _).
    rewrite list_get_replace by (unfold REGISTER_PC; lia). rewrite Z.eqb_refl. cbn [bind].
    rewrite Hn. cbn [bind]. rewrite Hd. reflexivity.
Qed.

(** X22: One [cycle] of a Thumb [BX Rm] at address [a] (bit 7 clear; Rm is
    instruction bits 3-6) sets r15 to the value of Rm (read as [a + 4] when
    Rm is r15) with bit 0 cleared, sets the T bit to bit 0 of that value,
    and leaves memory unchanged; with bit 7 set (BLX (2)) the decoder panics
    as not implemented. *)
Theorem thumb_bx_cycle (dec_arm : Z -> result Branch.Opcode)
  (c : CPU) (m : Memory) (md a h nx : Z)
  (Hwf : cpu_wf c) (Hmd : get_mode c = Ok md) (Hm : In md VALID_MODES)
  (Ht : get_thumb_state c = true) (Hpc : list_get (r c) REGISTER_PC = Ok a) (Ha : 0 <= a <= U32_MAX - 4)
  (Hh : read_u16 m a = Ok h) (Hn : read_u16 m (a + 2) = Ok nx) :
  let rmi := Z.land (Z.shiftr h 3) 15 in
  (get_bit16 h 7 = true ->
     cycle Branch.Opcode dec_arm Branch.decode_branch_exchange_thumb Branch.execute c m = Err Todo) /\
  (get_bit16 h 7 = false -> forall rm,
     (if rmi =? 15 then Ok (a + 4) else get_r c rmi) = Ok rm ->
     exists c', cycle Branch.Opcode dec_arm Branch.decode_branch_exchange_thumb Branch.execute c m = Ok (c', m) /\
       list_get (r c') REGISTER_PC = Ok (Z.land rm 4294967294) /\
       cpsr c' = set_bit32 (cpsr c) 5 (get_bit rm 0) /\
       get_thumb_state c' = get_bit rm 0).
Proof.
  cbv zeta.
  assert (L16 : List.length (r c) = 16%nat) by (destruct Hwf as [-> _]; reflexivity).
  unfold cycle.
  rewrite (cycle_prepare_thumb_decode Branch.Opcode dec_arm _ c m a h nx L16 Ht Hpc ltac:(lia) Hh Hn).
  unfold Branch.decode_branch_exchange_thumb.
  split.
  - intros H7. rewrite H7. reflexivity.
  - intros H7 rm Hrm. rewrite H7. rewrite get_bits16_field by lia. change (Z.ones 4) with 15. cbn [bind].
    destruct (decoded_stage_facts c md (a + 4) Hwf Hmd Hm) as (Hwf1 & Hcp1 & Hmd1 & Hpc1 & _ & Hfr1).
    set (c1 := with_branch_happened (with_r c (replace_nth (r c) 15 (a + 4))) false) in *.
    assert (Hr : get_r c1 (Z.land (Z.shiftr h 3) 15) = Ok rm).
    { unfold get_r. rewrite Hmd1. cbn [bind].
      assert (0 <= Z.land (Z.shiftr h 3) 15 <= 15).
      { change 15 with (Z.ones 4). rewrite Z.land_ones by lia.
        pose proof (Z.mod_pos_bound (Z.shiftr h 3) (2 ^ 4) ltac:(reflexivity)). cbn in *. lia. }
      destruct (Z.eqb_spec (Z.land (Z.shiftr h 3) 15) 15) as [E | E].
      - rewrite E. rewrite get_r_in_mode_pc by exact Hm. rewrite Hpc1. exact Hrm.
      - rewrite Hfr1 by (lia || exact Hm). unfold get_r in Hrm. rewrite Hmd in Hrm. exact Hrm. }
    cbn [Branch.execute bind]. rewrite Hr. cbn [bind].
    destruct (set_thumb_state_facts c1 (get_bit rm 0) Hwf1) as (Hwf2 & Hmd2 & Hcp2 & _ & _).
    rewrite Hmd1 in Hmd2.
    destruct (set_r_frame (set_thumb_state c1 (get_bit rm 0)) md REGISTER_PC (Z.land rm 4294967294)
                Hwf2 Hmd2 Hm ltac:(unfold REGISTER_PC; lia))
      as (c3 & Hs3 & _ & Hcp3 & Hbh3 & Hg3 & _).
    rewrite Hs3. cbn [bind].
    unfold cycle_finish. rewrite Hbh3. cbn [Z.eqb REGISTER_PC orb negb bind].
    eexists. split; [reflexivity |].
    assert (Hcp : cpsr (with_cycles c3 (cycles c3 + 2)) = set_bit32 (cpsr c) 5 (get_bit rm 0))
      by (rewrite cpsr_with_cycles, Hcp3, Hcp2, Hcp1; reflexivity).
    split; [| split].
    + rewrite with_cycles_proj. rewrite <- (get_r_in_mode_pc c3 md Hm). exact Hg3.
    + exact Hcp.
    + unfold get_thumb_state. rewrite Hcp. rewrite get_set_bit by lia. reflexivity.
Qed.

Lemma thumb_bx_cycle_witness :
  (exists c', cycle Branch.Opcode (fun _ => Err Todo) Branch.decode_branch_exchange_thumb Branch.execute
                thumb_bx_r1_cpu thumb_bx_r1_mem = Ok (c', thumb_bx_r1_mem) /\
     list_get (r c') REGISTER_PC = Ok 33554432 /\ get_thumb_state c' = false) /\
  cycle Branch.Opcode (fun _ => Err Todo) Branch.decode_branch_exchange_thumb Branch.execute
    thumb_bx_r1_cpu thumb_blx_r1_mem = Err Todo.
Proof.
  assert (Hwf : cpu_wf thumb_bx_r1_cpu) by (repeat split).
  assert (Hh : read_u16 thumb_bx_r1_mem 0 = Ok 18184) by (vm_compute; reflexivity).
  assert (Hh' : read_u16 thumb_blx_r1_mem 0 = Ok 18312) by (vm_compute; reflexivity).
  split.
  - destruct (proj2 (thumb_bx_cycle (fun _ => Err Todo) thumb_bx_r1_cpu thumb_bx_r1_mem MODE_SVC 0 18184 0
                Hwf eq_refl ltac:(cbn; tauto) eq_refl eq_refl ltac:(unfold U32_MAX; lia) Hh
                ltac:(vm_compute; reflexivity)) eq_refl 33554432 eq_refl) as (c' & H1 & H2 & _ & H3).
    exists c'. split; [exact H1 | split; [exact H2 | exact H3]].
  - exact (proj1 (thumb_bx_cycle (fun _ => Err Todo) thumb_bx_r1_cpu thumb_blx_r1_mem MODE_SVC 0 18312 0
                Hwf eq_refl ltac:(cbn; tauto) eq_refl eq_refl ltac:(unfold U32_MAX; lia) Hh'
                ltac:(vm_compute; reflexivity)) eq_refl).
Defined.

(** * Evaluations on small inputs *)

Example get_bits32_test : get_bits32 176 6 2 = Ok 2.
Proof. reflexivity. Qed.
Example set_bits32_test : set_bits32 255 4 4 6 = Ok 111.
Proof. reflexivity. Qed.
Example sub_with_flags_test :
  sub_with_flags (2 ^ 31 - 1) (2 ^ 31) = (U32_MAX, true, true).
Proof. reflexivity. Qed.
Example add_with_flags_test : add_with_flags (2 ^ 31) (2 ^ 31) = (0, true, true).
Proof. reflexivity. Qed.

Example vram_index_test :
  vram_index 100663296 100663296 = 0 /\
  vram_index (100663296 + 98304) 100663296 = 0 /\
  vram_index (100663296 + 131071) 100663296 = 32767.
Proof. repeat split; reflexivity. Qed.

Example rw_test :
  let m := fst (write_u32 50331648 287454020 mem0) in
  read_u32 m 50331648 = Ok 287454020.
Proof. vm_compute. reflexivity. Qed.

Example CPU_new_cpsr :
  (c <- CPU_new ;; Ok (cpsr c)) = Ok 211. (* 0xD3: SVC, I and F set *)
Proof. reflexivity. Qed.

Example CPU_new_state : CPU_new = Ok cpu_reset_state.
Proof. reflexivity. Qed.
